(** * GpuPreAgg: final-buffer hand-off, reduction policy and buffer sizing

    A functional model of the host-side core of PG-Strom's GpuPreAgg
    (gpupreagg.c): the shared state [GpuPreAggSharedState], the per-chunk
    [GpuPreAggTask], the sizing heuristic [adjust_final_buffer_size], the
    attach / detach pair [gpupreagg_get_final_buffer] /
    [gpupreagg_put_final_buffer], the completion handler
    [gpupreagg_complete_task] and the "Reduction" line of
    [ExplainGpuPreAgg].

    Conventions.
    - [cl_uint] is a 32-bit and [size_t] a 64-bit unsigned integer; both are
      carried as [Z] and every C operation that can wrap is followed by
      [wrap_cl_uint] / [wrap_size_t].
    - [double] is IEEE-754 binary64, carried as Rocq's primitive [float].
    - Every mutation of the shared state happens under [gpa_sstate->lock].
      The transition system runs one callback of the GPU server at a time;
      the invariants are proved callback by callback and function by
      function, so they also hold between two critical sections of one
      callback.
    - Driver calls succeed, except the device allocations, whose
      out-of-memory answer is an input of the step.  An allocation that
      fails with another error is an input of [gpupreagg_process_task],
      which then leaves through its PG_CATCH block; the query is over by
      then, and the transition system has no step for it.  The
      [elog(ERROR)] exits on other driver failures are outside the model.
    - [Assert] is compiled out of production builds.  The model runs the
      production code and records every assertion whose condition was
      false in the ghost field [assert_failures]. *)

From Stdlib Require Import ZArith Lia String Floats Bool List.
From stdpp Require Import base option list.

Set Default Proof Using "Type".
Local Open Scope Z_scope.

(** ** Machine integers and doubles *)

Definition wrap_cl_uint (z : Z) : Z := z mod 2 ^ 32.
Definition wrap_size_t (z : Z) : Z := z mod 2 ^ 64.

(** [Max] / [Min] of c.h: [((x) > (y) ? (x) : (y))] and
    [((x) < (y) ? (x) : (y))]. *)
Definition Max (x y : Z) : Z := if y <? x then x else y.
Definition Min_double (x y : float) : float :=
  if PrimFloat.ltb x y then x else y.

(** Unsigned integer division: division by zero traps (SIGFPE). *)
Definition udiv (a b : Z) : option Z :=
  if b =? 0 then None else Some (a / b).

(** [(double)n] for an unsigned integer [n]: correctly rounded. *)
Definition double_of_Z (z : Z) : float :=
  SF2Prim (binary_normalize prec emax z 0 false).

(** [(size_t)x]: truncation toward zero.  The conversion is undefined in C
    for NaN, infinities and values outside [0, 2^64); the model yields the
    truncation reduced modulo 2^64 for finite positive values and 0
    elsewhere. *)
Definition size_t_of_double (x : float) : Z :=
  match Prim2SF x with
  | S754_finite false m e =>
      wrap_size_t (if 0 <=? e then Z.pos m * 2 ^ e else Z.pos m / 2 ^ (- e))
  | _ => 0
  end.

(** ** Data model *)

Inductive reduction_mode : Set :=
| GPUPREAGG_INVALID_REDUCTION
| GPUPREAGG_NOGROUP_REDUCTION
| GPUPREAGG_LOCAL_REDUCTION
| GPUPREAGG_GLOBAL_REDUCTION
| GPUPREAGG_FINAL_REDUCTION
| GPUPREAGG_ONLY_TERMINATION.

#[global] Instance reduction_mode_eq_dec : EqDecision reduction_mode.
Proof. solve_decision. Defined.

(** Kernel error codes.  The handlers tell apart success, CpuReCheck and
    DataStoreNoSpace; any other code (CUDA run-time errors included) takes
    the final [else] branch. *)
Inductive errcode : Set :=
| StromError_Success
| StromError_CpuReCheck
| StromError_DataStoreNoSpace
| StromError_Other (code : Z).

#[global] Instance errcode_eq_dec : EqDecision errcode.
Proof. solve_decision. Defined.

(** A final buffer ([pgstrom_data_store] used as [pds_final]).  Buffers live
    in an arena, [final_buffers], and a buffer pointer is its index there:
    one index is one generation of the final buffer. *)
Record pgstrom_data_store : Set := mk_pds {
  ntasks_running : Z;      (* cl_uint: tasks attached and not yet detached *)
  kds_nrooms : Z;          (* kds.nrooms *)
  kds_extra_sz : Z         (* per-row extra allowance it was built with *)
}.

(** [GpuPreAggSharedState].  [refcnt], [lock] and the CUDA handles
    [m_kds_final], [m_fhash], [ev_kds_final] are left out: the handles are
    set and cleared together with [pds_final]. *)
Record GpuPreAggSharedState : Set := mk_sstate {
  scan_done : bool;
  ntasks_in_progress : Z;          (* cl_uint *)
  pds_final : option nat;          (* current generation, NULL = None *)
  f_ncols : Z;                     (* cl_uint *)
  f_key_dist_salt : Z;             (* cl_uint *)
  f_nrooms : Z;                    (* cl_uint *)
  f_nitems : Z;                    (* cl_uint *)
  f_extra_sz : Z;                  (* cl_uint *)
  n_tasks_nogrp : Z;               (* cl_uint *)
  n_tasks_local : Z;               (* cl_uint *)
  n_tasks_global : Z;              (* cl_uint *)
  n_tasks_final : Z;               (* cl_uint *)
  plan_nrows_per_chunk : Z;        (* cl_uint *)
  plan_nrows_in : Z;               (* size_t *)
  exec_nrows_in : Z;               (* size_t *)
  plan_ngroups : Z;                (* size_t *)
  exec_ngroups : Z;                (* size_t *)
  plan_extra_sz : Z;               (* size_t *)
  exec_extra_sz : Z                (* size_t *)
}.

(** The result a kernel run leaves in [gpreagg->kern] (DMA receive). *)
Record kern_result : Set := mk_kern_result {
  kr_kerror : errcode;
  kr_num_groups : Z;
  kr_varlena_usage : Z;
  kr_final_reduction_in_progress : bool
}.

(** [GpuPreAggTask], with the fields of [task] and [kern] the protocol
    reads.  [m_gpreagg] is the task-private device memory: [true] when the
    pointer is not [0UL]. *)
Record GpuPreAggTask : Set := mk_task {
  task_kerror : errcode;                    (* task.kerror.errcode *)
  task_cpu_fallback : bool;                 (* task.cpu_fallback *)
  retry_by_nospace : bool;
  m_gpreagg : bool;
  task_pds_final : option nat;              (* gpreagg->pds_final *)
  kern_reduction_mode : reduction_mode;     (* kern.reduction_mode *)
  kern_nitems_real : Z;                     (* kern.nitems_real, cl_uint *)
  kern_hash_size : Z;                       (* kern.hash_size, cl_uint *)
  kern_key_dist_salt : Z;                   (* kern.key_dist_salt *)
  kern_out : kern_result                    (* kern.kerror, num_groups, ... *)
}.

(** Where a task sits in the GPU server: queued for [gpupreagg_process_task],
    running on the device, waiting for [gpupreagg_complete_task], handed
    back to the backend (completion returned 0), or dropped (returned -1). *)
Inductive task_phase : Set :=
| Pending | Running | Responded | Returned | Dropped.

#[global] Instance task_phase_eq_dec : EqDecision task_phase.
Proof. solve_decision. Defined.

(** The assertions of the source, named by what they check. *)
Inductive assertion : Set :=
| Assert_not_scan_done                 (* gpupreagg_next_task *)
| Assert_reduction_mode_is_nogroup     (* gpupreagg_get_final_buffer *)
| Assert_ntasks_in_progress_positive   (* gpupreagg_put_final_buffer *)
| Assert_ntasks_running_positive       (* gpupreagg_put_final_buffer *)
| Assert_retry_by_nospace              (* gpupreagg_process_reduction_task *)
| Assert_not_retry_by_nospace          (* ..., out_of_resource *)
| Assert_terminator_ntasks_running_zero. (* gpupreagg_complete_task *)

#[global] Instance assertion_eq_dec : EqDecision assertion.
Proof. solve_decision. Defined.

(** The whole system: shared state, buffer arena, the GPU server's tasks,
    and three ghost logs. *)
Record world : Set := mk_world {
  gpa_sstate : GpuPreAggSharedState;
  final_buffers : list pgstrom_data_store;
  tasks : list (task_phase * GpuPreAggTask);
  finalized : list nat;      (* ghost: generations whose finalize step ran *)
  released : list nat;       (* ghost: generations freed without finalize *)
  assert_failures : list assertion  (* ghost *)
}.

(** *** Field updates *)

Definition set_sstate (f : GpuPreAggSharedState -> GpuPreAggSharedState)
    (w : world) : world :=
  mk_world (f (gpa_sstate w)) (final_buffers w) (tasks w)
           (finalized w) (released w) (assert_failures w).

Definition set_final_buffers
    (f : list pgstrom_data_store -> list pgstrom_data_store)
    (w : world) : world :=
  mk_world (gpa_sstate w) (f (final_buffers w)) (tasks w)
           (finalized w) (released w) (assert_failures w).

Definition set_tasks
    (f : list (task_phase * GpuPreAggTask) ->
         list (task_phase * GpuPreAggTask))
    (w : world) : world :=
  mk_world (gpa_sstate w) (final_buffers w) (f (tasks w))
           (finalized w) (released w) (assert_failures w).

Definition log_finalized (g : nat) (w : world) : world :=
  mk_world (gpa_sstate w) (final_buffers w) (tasks w)
           (finalized w ++ [g]) (released w) (assert_failures w).

Definition log_released (g : nat) (w : world) : world :=
  mk_world (gpa_sstate w) (final_buffers w) (tasks w)
           (finalized w) (released w ++ [g]) (assert_failures w).

(** [Assert(cond)] tagged [a]. *)
Definition Assert (cond : bool) (a : assertion) (w : world) : world :=
  if cond then w
  else mk_world (gpa_sstate w) (final_buffers w) (tasks w)
                (finalized w) (released w) (assert_failures w ++ [a]).

Definition with_scan_done (b : bool) (s : GpuPreAggSharedState) :=
  mk_sstate b (ntasks_in_progress s) (pds_final s) (f_ncols s)
    (f_key_dist_salt s) (f_nrooms s) (f_nitems s) (f_extra_sz s)
    (n_tasks_nogrp s) (n_tasks_local s) (n_tasks_global s) (n_tasks_final s)
    (plan_nrows_per_chunk s) (plan_nrows_in s) (exec_nrows_in s)
    (plan_ngroups s) (exec_ngroups s) (plan_extra_sz s) (exec_extra_sz s).

Definition with_ntasks_in_progress (n : Z) (s : GpuPreAggSharedState) :=
  mk_sstate (scan_done s) n (pds_final s) (f_ncols s)
    (f_key_dist_salt s) (f_nrooms s) (f_nitems s) (f_extra_sz s)
    (n_tasks_nogrp s) (n_tasks_local s) (n_tasks_global s) (n_tasks_final s)
    (plan_nrows_per_chunk s) (plan_nrows_in s) (exec_nrows_in s)
    (plan_ngroups s) (exec_ngroups s) (plan_extra_sz s) (exec_extra_sz s).

Definition with_pds_final (p : option nat) (s : GpuPreAggSharedState) :=
  mk_sstate (scan_done s) (ntasks_in_progress s) p (f_ncols s)
    (f_key_dist_salt s) (f_nrooms s) (f_nitems s) (f_extra_sz s)
    (n_tasks_nogrp s) (n_tasks_local s) (n_tasks_global s) (n_tasks_final s)
    (plan_nrows_per_chunk s) (plan_nrows_in s) (exec_nrows_in s)
    (plan_ngroups s) (exec_ngroups s) (plan_extra_sz s) (exec_extra_sz s).

(** The four [f_*] fields written together by the allocator and (the last
    two) by the completion callback. *)
Definition with_final_stats (salt nrooms nitems extra : Z)
    (s : GpuPreAggSharedState) :=
  mk_sstate (scan_done s) (ntasks_in_progress s) (pds_final s) (f_ncols s)
    salt nrooms nitems extra
    (n_tasks_nogrp s) (n_tasks_local s) (n_tasks_global s) (n_tasks_final s)
    (plan_nrows_per_chunk s) (plan_nrows_in s) (exec_nrows_in s)
    (plan_ngroups s) (exec_ngroups s) (plan_extra_sz s) (exec_extra_sz s).

Definition with_n_tasks (nogrp local global final : Z)
    (s : GpuPreAggSharedState) :=
  mk_sstate (scan_done s) (ntasks_in_progress s) (pds_final s) (f_ncols s)
    (f_key_dist_salt s) (f_nrooms s) (f_nitems s) (f_extra_sz s)
    nogrp local global final
    (plan_nrows_per_chunk s) (plan_nrows_in s) (exec_nrows_in s)
    (plan_ngroups s) (exec_ngroups s) (plan_extra_sz s) (exec_extra_sz s).

Definition with_exec_stats (nrows ngroups extra : Z)
    (s : GpuPreAggSharedState) :=
  mk_sstate (scan_done s) (ntasks_in_progress s) (pds_final s) (f_ncols s)
    (f_key_dist_salt s) (f_nrooms s) (f_nitems s) (f_extra_sz s)
    (n_tasks_nogrp s) (n_tasks_local s) (n_tasks_global s) (n_tasks_final s)
    (plan_nrows_per_chunk s) (plan_nrows_in s) nrows
    (plan_ngroups s) ngroups (plan_extra_sz s) extra.

Definition with_task_kerror (e : errcode) (t : GpuPreAggTask) :=
  mk_task e (task_cpu_fallback t) (retry_by_nospace t) (m_gpreagg t)
    (task_pds_final t) (kern_reduction_mode t) (kern_nitems_real t)
    (kern_hash_size t) (kern_key_dist_salt t) (kern_out t).

Definition with_task_cpu_fallback (b : bool) (t : GpuPreAggTask) :=
  mk_task (task_kerror t) b (retry_by_nospace t) (m_gpreagg t)
    (task_pds_final t) (kern_reduction_mode t) (kern_nitems_real t)
    (kern_hash_size t) (kern_key_dist_salt t) (kern_out t).

Definition with_retry_by_nospace (b : bool) (t : GpuPreAggTask) :=
  mk_task (task_kerror t) (task_cpu_fallback t) b (m_gpreagg t)
    (task_pds_final t) (kern_reduction_mode t) (kern_nitems_real t)
    (kern_hash_size t) (kern_key_dist_salt t) (kern_out t).

Definition with_m_gpreagg (b : bool) (t : GpuPreAggTask) :=
  mk_task (task_kerror t) (task_cpu_fallback t) (retry_by_nospace t) b
    (task_pds_final t) (kern_reduction_mode t) (kern_nitems_real t)
    (kern_hash_size t) (kern_key_dist_salt t) (kern_out t).

(** [gpreagg->pds_final] and [kern.key_dist_salt] are set and cleared
    together (with [m_kds_final], [m_fhash], [ev_kds_final]). *)
Definition with_task_pds_final (p : option nat) (salt : Z)
    (t : GpuPreAggTask) :=
  mk_task (task_kerror t) (task_cpu_fallback t) (retry_by_nospace t)
    (m_gpreagg t) p (kern_reduction_mode t) (kern_nitems_real t)
    (kern_hash_size t) salt (kern_out t).

Definition with_reduction_mode (m : reduction_mode) (t : GpuPreAggTask) :=
  mk_task (task_kerror t) (task_cpu_fallback t) (retry_by_nospace t)
    (m_gpreagg t) (task_pds_final t) m (kern_nitems_real t)
    (kern_hash_size t) (kern_key_dist_salt t) (kern_out t).

Definition with_kern_hash_size (h : Z) (t : GpuPreAggTask) :=
  mk_task (task_kerror t) (task_cpu_fallback t) (retry_by_nospace t)
    (m_gpreagg t) (task_pds_final t) (kern_reduction_mode t)
    (kern_nitems_real t) h (kern_key_dist_salt t) (kern_out t).

Definition with_kern_out (r : kern_result) (t : GpuPreAggTask) :=
  mk_task (task_kerror t) (task_cpu_fallback t) (retry_by_nospace t)
    (m_gpreagg t) (task_pds_final t) (kern_reduction_mode t)
    (kern_nitems_real t) (kern_hash_size t) (kern_key_dist_salt t) r.

Definition with_ntasks_running (n : Z) (b : pgstrom_data_store) :=
  mk_pds n (kds_nrooms b) (kds_extra_sz b).

(** ** Platform parameters

    Constants, macros and library functions that gpupreagg.c uses and that
    are declared elsewhere: the device limit, the chunk-size setting, the
    two layout macros of the data store, libm's [log] and the ["%.1f"]
    conversion of [snprintf]. *)
Class Platform : Type := mk_platform {
  devBaselineMaxThreadsPerBlock : Z;
  pgstrom_chunk_size : Z;
  KDS_CALCULATE_HEAD_LENGTH : Z -> Z;
  STROMALIGN : Z -> Z;
  log : float -> float;
  snprintf_1f : float -> string
}.

(** [sizeof(Datum) + sizeof(char)] on a 64-bit platform. *)
Definition sizeof_Datum_plus_char : Z := 8 + 1.

(** ** adjust_final_buffer_size *)

Section Sizing.
Context {P : Platform}.

(** The row count at which the growth model is evaluated
    ([curr_nrows_in]). *)
Definition adjust_curr_nrows_in (s : GpuPreAggSharedState) : Z :=
  if exec_nrows_in s <? plan_nrows_in s / 2
  then plan_nrows_in s
  else wrap_size_t (2 * exec_nrows_in s).

(** The group estimate ([curr_ngroups]). *)
Definition adjust_curr_ngroups (s : GpuPreAggSharedState) : Z :=
  if exec_nrows_in s <? 1000 then plan_ngroups s
  else
    let alpha := (double_of_Z (exec_ngroups s)
                  / log (double_of_Z (exec_nrows_in s)))%float in
    size_t_of_double (alpha * log (double_of_Z (adjust_curr_nrows_in s)))%float.

(** The unit size of the extra buffer ([f_extra_sz]). *)
Definition adjust_f_extra_sz (s : GpuPreAggSharedState) : Z :=
  if exec_ngroups s <? 100 then plan_extra_sz s
  else Max (wrap_size_t (exec_extra_sz s + exec_ngroups s - 1)
            / exec_ngroups s)
           (plan_extra_sz s).

(** The key-distribution salt ([f_key_dist_salt]); [None] is the integer
    division trapping on a zero divisor. *)
Definition adjust_key_dist_salt (curr_ngroups : Z) : option Z :=
  if curr_ngroups <? devBaselineMaxThreadsPerBlock / 5 then
    salt ← udiv devBaselineMaxThreadsPerBlock (wrap_size_t (5 * curr_ngroups));
    Some (Max salt 1)
  else Some 1.

(** [f_nrooms] before expansion: 250% of the salted estimate plus 200. *)
Definition adjust_naive_nrooms (curr_ngroups salt : Z) : Z :=
  size_t_of_double
    (double_of_Z (wrap_size_t (curr_ngroups * salt)) * 2.5 + 200)%float.

Definition adjust_head_sz (s : GpuPreAggSharedState) : Z :=
  KDS_CALCULATE_HEAD_LENGTH (f_ncols s).

Definition adjust_unit_sz (s : GpuPreAggSharedState) (extra_sz : Z) : Z :=
  wrap_size_t (STROMALIGN (wrap_size_t (sizeof_Datum_plus_char * f_ncols s))
               + STROMALIGN extra_sz).

Definition adjust_length (head_sz unit_sz nrooms : Z) : Z :=
  wrap_size_t (head_sz + unit_sz * nrooms).

(** "Expand nrooms if estimated length of the kds_final is small". *)
Definition adjust_expand_nrooms (head_sz unit_sz nrooms : Z) : option Z :=
  let length := adjust_length head_sz unit_sz nrooms in
  if length <? pgstrom_chunk_size / 2 then
    udiv (wrap_size_t (pgstrom_chunk_size - head_sz)) unit_sz
  else if length <? pgstrom_chunk_size then
    udiv (wrap_size_t (2 * pgstrom_chunk_size - head_sz)) unit_sz
  else if length <? wrap_size_t (3 * pgstrom_chunk_size) then
    udiv (wrap_size_t (3 * pgstrom_chunk_size - head_sz)) unit_sz
  else Some nrooms.

(** Returns [(key_dist_salt, nrooms, extra_sz, hashsize)]. *)
Definition adjust_final_buffer_size (s : GpuPreAggSharedState)
    : option (Z * Z * Z * Z) :=
  let curr_ngroups := adjust_curr_ngroups s in
  let extra_sz := adjust_f_extra_sz s in
  salt ← adjust_key_dist_salt curr_ngroups;
  nrooms ← adjust_expand_nrooms (adjust_head_sz s) (adjust_unit_sz s extra_sz)
             (adjust_naive_nrooms curr_ngroups salt);
  Some (salt, nrooms, extra_sz, wrap_size_t (2 * nrooms)).

End Sizing.

(** *** A concrete platform to run the model on

    A device with 1024 threads per block, the default chunk size of
    65534kB, 8-byte alignment, and a data-store head of 64 bytes plus 16
    per column.  [soft_log] stands in for libm's [log]: argument reduction
    by [frshiftexp], then the series of [2 * atanh ((m - 1) / (m + 1))]. *)
Fixpoint atanh_series (n : nat) (y2 k : float) : float :=
  match n with
  | O => (1 / k)%float
  | S n' => (1 / k + y2 * atanh_series n' y2 (k + 2))%float
  end.

Definition soft_log (x : float) : float :=
  let '(m, e) := frshiftexp x in
  let y := ((m - 1) / (m + 1))%float in
  let ex := double_of_Z (Uint63.to_Z e - FloatOps.shift) in
  (2 * y * atanh_series 20 (y * y) 1 + ex * 0x1.62e42fefa39efp-1)%float.

Definition align8 (x : Z) : Z := (x + 7) / 8 * 8.

(** ["%.1f"] for a non-negative double below 2^53: tenths, rounded half
    away from zero on the decimal expansion of the product by ten. *)
Definition digit_string (d : Z) : string :=
  String (Ascii.ascii_of_nat (48 + Z.to_nat d)) EmptyString.

Fixpoint decimal_string (fuel : nat) (n : Z) : string :=
  match fuel with
  | O => EmptyString
  | S fuel' =>
      if n <? 10 then digit_string n
      else (decimal_string fuel' (n / 10) ++ digit_string (n mod 10))%string
  end.

Definition soft_snprintf_1f (x : float) : string :=
  let tenths := size_t_of_double (x * 10 + 0.5)%float in
  (decimal_string 20 (tenths / 10) ++ "." ++ digit_string (tenths mod 10))%string.

Definition test_platform : Platform :=
  mk_platform 1024 (65534 * 1024) (fun ncols => align8 (64 + 16 * ncols))
              align8 soft_log soft_snprintf_1f.

(** ** The hand-off protocol *)

Section Protocol.
Context {P : Platform}.

(** [(cl_uint)x] for a double. *)
Definition cl_uint_of_double (x : float) : Z :=
  wrap_cl_uint (size_t_of_double x).

(** [create_gpupreagg_shared_state], from the tuple width and the planner's
    estimates in [GpuPreAggInfo].  [plan_nrows_per_chunk] is computed from
    [gpa_sstate->plan_nrows_in] two statements before that field is
    assigned, hence from the zero left by [memset]. *)
Definition create_gpupreagg_shared_state (natts plan_nchunks : Z)
    (outer_nrows plan_ngroups : float) (plan_extra_sz : Z)
    : GpuPreAggSharedState :=
  let zeroed_plan_nrows_in := 0 in
  mk_sstate false 0 None natts 1 0 0 0 0 0 0 0
    (if 0 <? plan_nchunks
     then cl_uint_of_double
            (double_of_Z zeroed_plan_nrows_in / double_of_Z plan_nchunks)
     else wrap_cl_uint zeroed_plan_nrows_in)
    (size_t_of_double outer_nrows)
    0
    (size_t_of_double plan_ngroups)
    0
    plan_extra_sz
    0.

(** [gpupreagg_create_task]: the task is zero-filled, then the reduction
    policy is fixed right away when there is no grouping key. *)
Definition gpupreagg_create_task (num_group_keys nitems_real : Z)
    : GpuPreAggTask :=
  mk_task StromError_Success false false false None
    (if num_group_keys =? 0
     then GPUPREAGG_NOGROUP_REDUCTION
     else GPUPREAGG_INVALID_REDUCTION)
    nitems_real nitems_real 0
    (mk_kern_result StromError_Success 0 0 false).

(** [gpupreagg_next_task], once a chunk [pds] was loaded: the task is
    built, counted as in progress and queued. *)
Definition gpupreagg_next_task (num_group_keys nitems_real : Z)
    (is_last_task : bool) (w : world) : world :=
  let gtask := gpupreagg_create_task num_group_keys nitems_real in
  let w := set_sstate
             (fun s => with_ntasks_in_progress
                         (wrap_cl_uint (ntasks_in_progress s + 1)) s) w in
  let w := if is_last_task
           then set_sstate (with_scan_done true)
                  (Assert (negb (scan_done (gpa_sstate w)))
                          Assert_not_scan_done w)
           else w in
  set_tasks (fun ts => ts ++ [(Pending, gtask)]) w.

(** The "decision for the reduction mode" block of
    [gpupreagg_get_final_buffer]. *)
Definition decide_reduction_mode (s : GpuPreAggSharedState)
    (nitems_real : Z) : reduction_mode :=
  let plan_ngroups := double_of_Z (plan_ngroups s) in
  let exec_ngroups := double_of_Z (exec_ngroups s) in
  let num_tasks :=
    double_of_Z (wrap_cl_uint (n_tasks_nogrp s + n_tasks_local s
                               + n_tasks_global s + n_tasks_final s)) in
  let exec_ratio := (Min_double num_tasks 30 / 30)%float in
  let real_ngroups := (plan_ngroups * (1 - exec_ratio)
                       + exec_ngroups * exec_ratio)%float in
  if PrimFloat.ltb real_ngroups
       (double_of_Z (devBaselineMaxThreadsPerBlock / 4))
  then GPUPREAGG_LOCAL_REDUCTION
  else if PrimFloat.ltb real_ngroups (double_of_Z (nitems_real / 4))
  then GPUPREAGG_GLOBAL_REDUCTION
  else GPUPREAGG_FINAL_REDUCTION.

(** [gpupreagg_alloc_final_buffer].  [oom] says that [gpuMemAlloc_v2]
    answered CUDA_ERROR_OUT_OF_MEMORY.  The new buffer takes the next free
    index of the arena. *)
Definition gpupreagg_alloc_final_buffer (oom : bool) (w : world)
    : option (bool * world) :=
  size ← adjust_final_buffer_size (gpa_sstate w);
  let '(salt, nrooms, extra_sz, _) := size in
  if oom then Some (false, w)
  else
    let g := length (final_buffers w) in
    let pds := mk_pds 0 (wrap_cl_uint nrooms) extra_sz in
    let w := set_final_buffers (fun bs => bs ++ [pds]) w in
    let w := set_sstate
               (fun s => with_final_stats (wrap_cl_uint salt)
                           (kds_nrooms pds) 0 0
                           (with_pds_final (Some g) s)) w in
    Some (true, w).

(** [gpupreagg_get_final_buffer]. *)
Definition gpupreagg_get_final_buffer (oom : bool) (gpreagg : GpuPreAggTask)
    (w : world) : option (bool * GpuPreAggTask * world) :=
  let '(gpreagg, w) :=
    if decide (kern_reduction_mode gpreagg = GPUPREAGG_INVALID_REDUCTION)
    then (with_reduction_mode
            (decide_reduction_mode (gpa_sstate w) (kern_nitems_real gpreagg))
            gpreagg, w)
    else (gpreagg,
          Assert (bool_decide (kern_reduction_mode gpreagg
                               = GPUPREAGG_NOGROUP_REDUCTION))
                 Assert_reduction_mode_is_nogroup w) in
  '(retval, w) ← match pds_final (gpa_sstate w) with
                 | None => gpupreagg_alloc_final_buffer oom w
                 | Some _ => Some (true, w)
                 end;
  if retval : bool then
    g ← pds_final (gpa_sstate w);
    b ← final_buffers w !! g;
    let w := set_final_buffers
               (<[g := with_ntasks_running
                         (wrap_cl_uint (ntasks_running b + 1)) b]>) w in
    Some (true,
          with_task_pds_final (Some g) (f_key_dist_salt (gpa_sstate w))
            gpreagg,
          w)
  else Some (false, gpreagg, w).

(** "In case of NoSpaceDataStore error on the final buffer, the old buffer
    shall be detached not to assign any more." *)
Definition detach_current (force_detach_buffer : bool) (g : nat) (w : world)
    : world :=
  if force_detach_buffer && bool_decide (pds_final (gpa_sstate w) = Some g)
  then set_sstate (with_pds_final None) w
  else w.

(** [gpupreagg_put_final_buffer].  [None] is the dereference of a NULL
    [gpreagg->pds_final]. *)
Definition gpupreagg_put_final_buffer (gpreagg : GpuPreAggTask)
    (release_if_last_task force_detach_buffer : bool) (w : world)
    : option (bool * GpuPreAggTask * world) :=
  g ← task_pds_final gpreagg;
  let w := detach_current force_detach_buffer g w in
  let w := Assert (0 <? ntasks_in_progress (gpa_sstate w))
                  Assert_ntasks_in_progress_positive w in
  let nip := wrap_cl_uint (ntasks_in_progress (gpa_sstate w) - 1) in
  let w := set_sstate (with_ntasks_in_progress nip) w in
  let is_terminator := (nip =? 0) && scan_done (gpa_sstate w) in
  b ← final_buffers w !! g;
  let w := Assert (0 <? ntasks_running b) Assert_ntasks_running_positive w in
  let nrun := wrap_cl_uint (ntasks_running b - 1) in
  let w := set_final_buffers (<[g := with_ntasks_running nrun b]>) w in
  let is_terminator :=
    is_terminator
    || ((nrun =? 0)
        && negb (bool_decide (pds_final (gpa_sstate w) = Some g))) in
  if is_terminator then
    if release_if_last_task
    then Some (true, with_task_pds_final None 0 gpreagg, log_released g w)
    else Some (true, gpreagg, w)
  else Some (false, with_task_pds_final None 0 gpreagg, w).

(** [gpupreagg_cleanup_cuda_resources]. *)
Definition gpupreagg_cleanup_cuda_resources (gpreagg : GpuPreAggTask)
    : GpuPreAggTask :=
  with_m_gpreagg false gpreagg.

(** [gpupreagg_push_terminator_task]: a zero-filled clone takes over the
    final buffer of [gpreagg_old] and is pushed to the GPU server. *)
Definition terminator_clone (pds_final : option nat) : GpuPreAggTask :=
  mk_task StromError_Success false false false
    pds_final GPUPREAGG_ONLY_TERMINATION 0 0 0
    (mk_kern_result StromError_Success 0 0 false).

Definition gpupreagg_push_terminator_task (gpreagg_old : GpuPreAggTask)
    (w : world) : GpuPreAggTask * world :=
  let gpreagg_new := terminator_clone (task_pds_final gpreagg_old) in
  (with_task_pds_final None (kern_key_dist_salt gpreagg_old) gpreagg_old,
   set_tasks (fun ts => ts ++ [(Pending, gpreagg_new)]) w).

(** [if (gpupreagg_put_final_buffer(...)) gpupreagg_push_terminator_task(...)],
    the idiom of every retry path. *)
Definition put_and_push (gpreagg : GpuPreAggTask)
    (force_detach_buffer : bool) (w : world)
    : option (GpuPreAggTask * world) :=
  '(is_terminator, gpreagg, w) ←
     gpupreagg_put_final_buffer gpreagg false force_detach_buffer w;
  Some (if is_terminator : bool
        then gpupreagg_push_terminator_task gpreagg w
        else (gpreagg, w)).

(** [gpupreagg_respond_task]; [status = None] is CUDA_SUCCESS. *)
Definition gpupreagg_respond_task (status : option Z)
    (gpreagg : GpuPreAggTask) (w : world) : GpuPreAggTask * world :=
  match status with
  | None =>
      let gpreagg := with_task_kerror (kr_kerror (kern_out gpreagg)) gpreagg in
      if decide (task_kerror gpreagg = StromError_Success) then
        let s := gpa_sstate w in
        let nitems :=
          wrap_cl_uint (f_nitems s + kr_num_groups (kern_out gpreagg)) in
        let extra :=
          wrap_cl_uint (f_extra_sz s + kr_varlena_usage (kern_out gpreagg)) in
        let nrows :=
          wrap_size_t (exec_nrows_in s + kern_nitems_real gpreagg) in
        (gpreagg,
         set_sstate
           (fun s => with_exec_stats nrows (Max (exec_ngroups s) nitems)
                       (Max (exec_extra_sz s) extra)
                       (with_final_stats (f_key_dist_salt s) (f_nrooms s)
                          nitems extra s)) w)
      else (gpreagg, w)
  | Some code => (with_task_kerror (StromError_Other code) gpreagg, w)
  end.

(** "Count number of reduction kernel for each"; [None] is the
    [elog(ERROR)] on an unexpected mode. *)
Definition count_reduction_kernel (m : reduction_mode)
    (s : GpuPreAggSharedState) : option GpuPreAggSharedState :=
  match m with
  | GPUPREAGG_NOGROUP_REDUCTION =>
      Some (with_n_tasks (wrap_cl_uint (n_tasks_nogrp s + 1)) (n_tasks_local s)
              (n_tasks_global s) (n_tasks_final s) s)
  | GPUPREAGG_LOCAL_REDUCTION =>
      Some (with_n_tasks (n_tasks_nogrp s) (wrap_cl_uint (n_tasks_local s + 1))
              (n_tasks_global s) (n_tasks_final s) s)
  | GPUPREAGG_GLOBAL_REDUCTION =>
      Some (with_n_tasks (n_tasks_nogrp s) (n_tasks_local s)
              (wrap_cl_uint (n_tasks_global s + 1)) (n_tasks_final s) s)
  | GPUPREAGG_FINAL_REDUCTION =>
      Some (with_n_tasks (n_tasks_nogrp s) (n_tasks_local s)
              (n_tasks_global s) (wrap_cl_uint (n_tasks_final s + 1)) s)
  | _ => None
  end.

(** [gpupreagg_process_reduction_task].  [oom_final] and [oom_private] say
    which device allocation, if any, ran out of memory.  Returns 0 when the
    kernel was launched and 1 for "retry later". *)
Definition gpupreagg_process_reduction_task (oom_final oom_private : bool)
    (gpreagg : GpuPreAggTask) (w : world)
    : option (Z * GpuPreAggTask * world) :=
  '(attached, gpreagg, w) ← gpupreagg_get_final_buffer oom_final gpreagg w;
  if negb attached then Some (1, gpreagg, w)
  else if negb (m_gpreagg gpreagg) && oom_private then
    (* out_of_resource: *)
    let gpreagg := gpupreagg_cleanup_cuda_resources gpreagg in
    '(gpreagg, w) ← put_and_push gpreagg false w;
    let w := Assert (negb (retry_by_nospace gpreagg))
                    Assert_not_retry_by_nospace w in
    Some (1, gpreagg, w)
  else
    let '(gpreagg, w) :=
      if negb (m_gpreagg gpreagg)
      then (with_m_gpreagg true gpreagg, w)
      else (gpreagg,
            Assert (retry_by_nospace gpreagg) Assert_retry_by_nospace w) in
    s ← count_reduction_kernel (kern_reduction_mode gpreagg) (gpa_sstate w);
    Some (0, gpreagg, set_sstate (fun _ => s) w).

(** [gpupreagg_process_termination_task]: the finalize step.  With
    [has_notbyval] it needs device memory and can be sent back for a
    retry; once launched, the generation is logged in [finalized]. *)
Definition gpupreagg_process_termination_task (has_notbyval oom : bool)
    (gpreagg : GpuPreAggTask) (w : world)
    : option (Z * GpuPreAggTask * world) :=
  g ← task_pds_final gpreagg;
  if has_notbyval && oom
  then Some (1, gpupreagg_cleanup_cuda_resources gpreagg, w)
  else Some (0,
             (if has_notbyval then with_m_gpreagg true gpreagg else gpreagg),
             log_finalized g w).

(** The PG_TRY block of [gpupreagg_process_task] when it runs to its end:
    every device allocation succeeds or answers out-of-memory. *)
Definition gpupreagg_process_task_try
    (has_notbyval oom_final oom_private : bool)
    (gpreagg : GpuPreAggTask) (w : world)
    : option (Z * GpuPreAggTask * world) :=
  if decide (kern_reduction_mode gpreagg <> GPUPREAGG_ONLY_TERMINATION)
  then gpupreagg_process_reduction_task oom_final oom_private gpreagg w
  else gpupreagg_process_termination_task has_notbyval oom_private gpreagg w.

(** A device allocation that fails with another error than out-of-memory,
    which the code answers by [elog(ERROR)]: [gpuMemAlloc_v2] of
    [gpupreagg_alloc_final_buffer], or the allocation of the task's own
    device memory, in [gpupreagg_process_reduction_task] and in
    [gpupreagg_process_termination_task]. *)
Inductive alloc_failure : Set :=
| Failure_final_buffer
| Failure_task_memory.

(** What becomes of the PG_TRY block when it is told that an allocation
    fails: it does not come to that allocation and runs to its end, or the
    error is raised with the task and the shared objects as they are by
    then. *)
Inductive try_exit : Type :=
| Try_completes
| Try_raises (gpreagg : GpuPreAggTask) (w : world).

(** Where the PG_TRY block stands when [failure] is raised; [None] is a
    trap before that.
    - A reduction task allocates a final buffer when the shared state has
      none, after [gpupreagg_get_final_buffer] decided the reduction mode
      and after the sizing; the PG_CATCH block of
      [gpupreagg_alloc_final_buffer] releases what it had allocated, so the
      task is not attached and nothing is published.
    - A reduction task allocates its own memory once
      [gpupreagg_get_final_buffer] returned true, when it has none yet.
    - A terminator allocates its own memory when the final buffer has
      varlena or numeric columns, before anything else is changed. *)
Definition raise_of_try (has_notbyval oom_final : bool)
    (failure : alloc_failure) (gpreagg : GpuPreAggTask) (w : world)
    : option try_exit :=
  if decide (kern_reduction_mode gpreagg <> GPUPREAGG_ONLY_TERMINATION) then
    match failure with
    | Failure_final_buffer =>
        match pds_final (gpa_sstate w) with
        | Some _ => Some Try_completes
        | None =>
            let '(gpreagg, w) :=
              if decide (kern_reduction_mode gpreagg
                         = GPUPREAGG_INVALID_REDUCTION)
              then (with_reduction_mode
                      (decide_reduction_mode (gpa_sstate w)
                         (kern_nitems_real gpreagg))
                      gpreagg, w)
              else (gpreagg,
                    Assert (bool_decide (kern_reduction_mode gpreagg
                                         = GPUPREAGG_NOGROUP_REDUCTION))
                           Assert_reduction_mode_is_nogroup w) in
            _ ← adjust_final_buffer_size (gpa_sstate w);
            Some (Try_raises gpreagg w)
        end
    | Failure_task_memory =>
        '(attached, gpreagg, w) ←
           gpupreagg_get_final_buffer oom_final gpreagg w;
        if (attached : bool) && negb (m_gpreagg gpreagg)
        then Some (Try_raises gpreagg w)
        else Some Try_completes
    end
  else
    match failure with
    | Failure_final_buffer => Some Try_completes
    | Failure_task_memory =>
        _ ← task_pds_final gpreagg;
        if has_notbyval then Some (Try_raises gpreagg w)
        else Some Try_completes
    end.

(** How [gpupreagg_process_task] is left: by [return], or by PG_RE_THROW
    once its PG_CATCH block has run. *)
Inductive process_exit : Type :=
| Returns (retval : Z) (gpreagg : GpuPreAggTask) (w : world)
| Rethrows (gpreagg : GpuPreAggTask) (w : world).

(** [gpupreagg_process_task]: the PG_TRY block, and the PG_CATCH block
    that cleans up and detaches the task from its final buffer before the
    error goes on.  [failure] names the allocation that fails, if any. *)
Definition gpupreagg_process_task (has_notbyval oom_final oom_private : bool)
    (failure : option alloc_failure) (gpreagg : GpuPreAggTask) (w : world)
    : option process_exit :=
  exit ← match failure with
         | Some f => raise_of_try has_notbyval oom_final f gpreagg w
         | None => Some Try_completes
         end;
  match exit with
  | Try_completes =>
      r ← gpupreagg_process_task_try has_notbyval oom_final oom_private
            gpreagg w;
      let '(retval, gpreagg, w) := r in
      Some (Returns retval gpreagg w)
  | Try_raises gpreagg w =>
      (* PG_CATCH *)
      let gpreagg := gpupreagg_cleanup_cuda_resources gpreagg in
      '(_, gpreagg, w) ← gpupreagg_put_final_buffer gpreagg true false w;
      Some (Rethrows gpreagg w)
  end.

(** [gpupreagg_complete_task].  Returns 0 to hand the task back to the
    backend, 1 to retry it and -1 to drop it. *)
Definition gpupreagg_complete_task (gpreagg : GpuPreAggTask) (w : world)
    : option (Z * GpuPreAggTask * world) :=
  if decide (kern_reduction_mode gpreagg = GPUPREAGG_ONLY_TERMINATION) then
    g ← task_pds_final gpreagg;
    b ← final_buffers w !! g;
    let w := Assert (ntasks_running b =? 0)
                    Assert_terminator_ntasks_running_zero w in
    Some (0,
          gpupreagg_cleanup_cuda_resources
            (with_task_pds_final (task_pds_final gpreagg) 0 gpreagg),
          w)
  else
    match task_kerror gpreagg with
    | StromError_Success =>
        let gpreagg := gpupreagg_cleanup_cuda_resources gpreagg in
        '(is_terminator, gpreagg, w) ←
           gpupreagg_put_final_buffer gpreagg false false w;
        if negb is_terminator then Some (-1, gpreagg, w)
        else Some (1,
                   with_reduction_mode GPUPREAGG_ONLY_TERMINATION gpreagg, w)
    | StromError_CpuReCheck =>
        let gpreagg := gpupreagg_cleanup_cuda_resources gpreagg in
        if kr_final_reduction_in_progress (kern_out gpreagg) then
          '(_, gpreagg, w) ← gpupreagg_put_final_buffer gpreagg true false w;
          Some (0, gpreagg, w)
        else
          '(gpreagg, w) ← put_and_push gpreagg false w;
          Some (0,
                with_task_cpu_fallback true
                  (with_task_kerror StromError_Success gpreagg),
                w)
    | StromError_DataStoreNoSpace =>
        if kr_final_reduction_in_progress (kern_out gpreagg) then
          '(gpreagg, w) ← put_and_push gpreagg true w;
          Some (1, with_retry_by_nospace true gpreagg, w)
        else
          let gpreagg := gpupreagg_cleanup_cuda_resources gpreagg in
          '(gpreagg, w) ← put_and_push gpreagg false w;
          let gpreagg :=
            with_kern_hash_size
              (Max (kern_hash_size gpreagg) (kern_nitems_real gpreagg))
              gpreagg in
          let gpreagg :=
            if decide (kern_reduction_mode gpreagg
                       <> GPUPREAGG_NOGROUP_REDUCTION)
            then with_reduction_mode GPUPREAGG_INVALID_REDUCTION gpreagg
            else gpreagg in
          Some (1, gpreagg, w)
    | StromError_Other _ =>
        let gpreagg := gpupreagg_cleanup_cuda_resources gpreagg in
        '(_, gpreagg, w) ← gpupreagg_put_final_buffer gpreagg true false w;
        Some (0, gpreagg, w)
    end.

(** [gpupreagg_switch_task], on the backend: [true] when it raises
    "GPU kernel error". *)
Definition gpupreagg_switch_task (gtask : GpuPreAggTask) : bool :=
  negb (bool_decide (task_kerror gtask = StromError_Success)).

End Protocol.

(** ** The GPU server as a transition system *)

(** What can happen next: the backend loads a chunk of [nitems_real] rows,
    the server picks a queued task ([oom_final], [oom_private]: whether
    the allocation of a new final buffer, respectively of the task's own
    device memory, runs out of memory), the device answers with a CUDA
    status and the kernel's result, the server runs the completion
    handler. *)
Inductive event : Set :=
| EvNextTask (nitems_real : Z) (is_last_task : bool)
| EvProcess (tid : nat) (oom_final oom_private : bool)
| EvRespond (tid : nat) (status : option Z) (kr : kern_result)
| EvComplete (tid : nat).

Section Scheduler.
Context {P : Platform}.
Variable num_group_keys : Z.     (* gpas->num_group_keys *)
Variable has_notbyval : bool.    (* kds.has_notbyval of the final buffer *)

(** Where the return value of [gpupreagg_complete_task] sends the task. *)
Definition phase_of_retval (retval : Z) : task_phase :=
  if retval =? 0 then Returned
  else if retval =? 1 then Pending
  else Dropped.

(** One step; [None] when the event is not enabled or the code traps.
    No allocation fails with an error here, so that
    [gpupreagg_process_task] returns. *)
Definition step (ev : event) (w : world) : option world :=
  match ev with
  | EvNextTask nitems_real is_last_task =>
      Some (gpupreagg_next_task num_group_keys nitems_real is_last_task w)
  | EvProcess tid oom_final oom_private =>
      entry ← tasks w !! tid;
      if decide (entry.1 = Pending) then
        r ← gpupreagg_process_task has_notbyval oom_final oom_private None
              entry.2 w;
        match r with
        | Returns retval gpreagg w =>
            Some (set_tasks
                    (<[tid := (if retval =? 0 then Running else Pending,
                               gpreagg)]>) w)
        | Rethrows _ _ => None
        end
      else None
  | EvRespond tid status kr =>
      entry ← tasks w !! tid;
      if decide (entry.1 = Running) then
        (* DMA receive of kern_gpupreagg; a terminator receives it only
           when it ran the varlena fix-up *)
        let gpreagg :=
          if bool_decide (kern_reduction_mode entry.2
                          = GPUPREAGG_ONLY_TERMINATION)
             && negb has_notbyval
          then entry.2 else with_kern_out kr entry.2 in
        let '(gpreagg, w) := gpupreagg_respond_task status gpreagg w in
        Some (set_tasks (<[tid := (Responded, gpreagg)]>) w)
      else None
  | EvComplete tid =>
      entry ← tasks w !! tid;
      if decide (entry.1 = Responded) then
        r ← gpupreagg_complete_task entry.2 w;
        let '(retval, gpreagg, w) := r in
        Some (set_tasks (<[tid := (phase_of_retval retval, gpreagg)]>) w)
      else None
  end.

Fixpoint run (evs : list event) (w : world) : option world :=
  match evs with
  | [] => Some w
  | ev :: evs' => w' ← step ev w; run evs' w'
  end.

End Scheduler.

(** Start of a query: nothing scanned, no buffer, no task. *)
Definition initial_world (s : GpuPreAggSharedState) : world :=
  mk_world s [] [] [] [] [].

(** How many finalize steps ran for generation [g]. *)
Definition finalize_count (g : nat) (w : world) : nat :=
  length (filter (fun g' => g' = g) (finalized w)).

(** No task is queued, running or waiting for completion. *)
Definition quiescent (w : world) : bool :=
  forallb (fun entry => bool_decide (entry.1 = Returned)
                        || bool_decide (entry.1 = Dropped)) (tasks w).

(** ** ExplainGpuPreAgg: the "Reduction" property *)

Section Explain.
Context {P : Platform}.

(** One strategy appended to [temp]: the separator when [ofs > 0], the
    name, and the percentage when asked for. *)
Definition explain_append (temp name : string) (percentage : option float)
    : string :=
  let temp := (temp ++ (if (0 <? String.length temp)%nat then ", " else "")
               ++ name)%string in
  match percentage with
  | Some p => (temp ++ " (" ++ snprintf_1f p ++ "%)")%string
  | None => temp
  end.

Definition with_percentage (s : GpuPreAggSharedState) : bool :=
  1 <? (if 0 <? n_tasks_nogrp s then 1 else 0)
       + (if 0 <? n_tasks_local s then 1 else 0)
       + (if 0 <? n_tasks_global s then 1 else 0)
       + (if 0 <? n_tasks_final s then 1 else 0).

(** The text passed to [ExplainPropertyText("Reduction", policy, es)]. *)
Definition ExplainGpuPreAgg_policy (num_group_keys : Z)
    (s : GpuPreAggSharedState) : string :=
  let n_tasks := wrap_cl_uint (n_tasks_nogrp s + n_tasks_local s
                               + n_tasks_global s + n_tasks_final s) in
  if n_tasks =? 0 then
    let local_threshold := wrap_cl_uint (devBaselineMaxThreadsPerBlock / 4) in
    let global_threshold := plan_nrows_per_chunk s / 4 in
    if num_group_keys =? 0 then "NoGroup"%string
    else if plan_ngroups s <? local_threshold then "Local"%string
    else if plan_ngroups s <? global_threshold then "Global"%string
    else "Final"%string
  else
    let share (n : Z) : option float :=
      if with_percentage s
      then Some (double_of_Z (wrap_cl_uint (100 * n)) / double_of_Z n_tasks)%float
      else None in
    let temp := EmptyString in
    let temp := if 0 <? n_tasks_nogrp s
                then explain_append temp "NoGroup" (share (n_tasks_nogrp s))
                else temp in
    let temp := if 0 <? n_tasks_local s
                then explain_append temp "Local" (share (n_tasks_local s))
                else temp in
    let temp := if 0 <? n_tasks_global s
                then explain_append temp "Global" (share (n_tasks_global s))
                else temp in
    let temp := if 0 <? n_tasks_final s
                then explain_append temp "Final" (share (n_tasks_global s))
                else temp in
    temp.

End Explain.

(** The value of [is_terminator] when a task attached to buffer [b] of
    generation [g] detaches from [w]. *)
Definition detach_is_terminator (force : bool) (g : nat)
    (b : pgstrom_data_store) (w : world) : bool :=
  (wrap_cl_uint (ntasks_in_progress (gpa_sstate w) - 1) =? 0)
  && scan_done (gpa_sstate w)
  || (wrap_cl_uint (ntasks_running b - 1) =? 0)
     && negb (bool_decide
                (pds_final (gpa_sstate (detach_current force g w)) = Some g)).

(** ** A detached generation stays detached

    Generation [g] is detached when it exists and the shared state does not
    point to it.  New buffers take fresh indices, so no step makes a
    detached generation current again. *)
Definition detached (g : nat) (w : world) : Prop :=
  (g < length (final_buffers w))%nat /\ pds_final (gpa_sstate w) <> Some g.

(** ** The reduction-policy selector as the design describes it

    The weight of the run-time estimate, the blend of the two estimates and
    the three-way choice.  The two thresholds are the integer quotients by
    four of the source. *)
Definition blend_weight (num_tasks : Z) : float :=
  (Min_double (double_of_Z num_tasks) 30 / 30)%float.

Definition blended_ngroups (plan_ngroups exec_ngroups : Z) (weight : float)
    : float :=
  (double_of_Z plan_ngroups * (1 - weight)
   + double_of_Z exec_ngroups * weight)%float.

Definition select_reduction (blended : float) (unit_threads chunk_rows : Z)
    : reduction_mode :=
  if PrimFloat.ltb blended (double_of_Z (unit_threads / 4))
  then GPUPREAGG_LOCAL_REDUCTION
  else if PrimFloat.ltb blended (double_of_Z (chunk_rows / 4))
  then GPUPREAGG_GLOBAL_REDUCTION
  else GPUPREAGG_FINAL_REDUCTION.

(** The shared state can hand out a buffer: the current one exists, or a
    new one can be sized. *)
Definition can_attach `{P : Platform} (w : world) : Prop :=
  match pds_final (gpa_sstate w) with
  | Some g => is_Some (final_buffers w !! g)
  | None => is_Some (adjust_final_buffer_size (gpa_sstate w))
  end.

(** ** Reduction modes along a run *)


(** [w'] has the tasks of [w] plus, possibly, pushed terminator clones. *)
Definition tasks_pushed (w w' : world) : Prop :=
  exists g, tasks w' = tasks w
            \/ tasks w' = tasks w ++ [(Pending, terminator_clone g)].


(** A run in which two chunks of a grouped query are in flight: the second
    one reports 50000 groups, then the first one fails with
    DataStoreNoSpace before its final reduction and is retried. *)
Definition c8_state : GpuPreAggSharedState :=
  create_gpupreagg_shared_state 3 2 200000 5 0.



(** The reduction mode of task [tid]. *)
Definition mode_of (tid : nat) (w : world) : option reduction_mode :=
  entry ← tasks w !! tid; Some (kern_reduction_mode entry.2).

(** ** Two schedules with a retried task

    A query without grouping keys.  [kr_success] is a kernel run that
    produced one group; the other two are DataStoreNoSpace raised before
    and during final reduction. *)
Definition c1_state : GpuPreAggSharedState :=
  create_gpupreagg_shared_state 3 1 1000 1 0.

Definition kr_success : kern_result :=
  mk_kern_result StromError_Success 1 0 false.
Definition kr_nospace_early : kern_result :=
  mk_kern_result StromError_DataStoreNoSpace 0 0 false.
Definition kr_nospace_final : kern_result :=
  mk_kern_result StromError_DataStoreNoSpace 0 0 true.

(** One chunk, the last one.  Its task fills generation 0 during final
    reduction, is retried on generation 1 and succeeds.  Task 1 is the
    terminator clone pushed for generation 0. *)
Definition c1_lost : list event :=
  [EvNextTask 1000 true; EvProcess 0 false false;
   EvRespond 0 None kr_nospace_final; EvComplete 0;
   EvProcess 1 false false; EvRespond 1 None kr_success; EvComplete 1;
   EvProcess 0 false false; EvRespond 0 None kr_success; EvComplete 0].

(** Three chunks.  Task 0 is retried once before final reduction; task 2,
    the last to complete by the counter, is promoted while task 0 still
    runs on generation 0; task 0 then fills the buffer and a clone
    (task 3) is pushed for generation 0 as well. *)
Definition c1_twice : list event :=
  [EvNextTask 1000 false; EvNextTask 1000 false; EvNextTask 1000 true;
   EvProcess 0 false false; EvProcess 1 false false; EvProcess 2 false false;
   EvRespond 0 None kr_nospace_early; EvComplete 0; EvProcess 0 false false;
   EvRespond 1 None kr_success; EvComplete 1;
   EvRespond 2 None kr_success; EvComplete 2;
   EvProcess 2 false false; EvRespond 2 None kr_success; EvComplete 2;
   EvRespond 0 None kr_nospace_final; EvComplete 0;
   EvProcess 3 false false; EvRespond 3 None kr_success; EvComplete 3;
   EvProcess 0 false false; EvRespond 0 None kr_success; EvComplete 0].

(** One chunk of a grouped query, the last one.  Its task fills generation
    0 during final reduction and is retried on generation 1, where the
    kernel answers CpuReCheck before final reduction began. *)
Definition kr_cpu_recheck : kern_result :=
  mk_kern_result StromError_CpuReCheck 0 0 false.

Definition c5_state : GpuPreAggSharedState :=
  create_gpupreagg_shared_state 3 1 1000 5 0.

Definition c5_answer : list event :=
  [EvNextTask 1000 true; EvProcess 0 false false;
   EvRespond 0 None kr_nospace_final; EvComplete 0;
   EvProcess 0 false false; EvRespond 0 None kr_cpu_recheck].

(** The completion of that task, then the terminator clone pushed for
    generation 0 (task 1) runs. *)
Definition c5_rest : list event :=
  [EvComplete 0;
   EvProcess 1 false false; EvRespond 1 None kr_success; EvComplete 1].

(** A terminator task for generation [g] is queued. *)
Definition terminator_queued (g : nat) (w : world) : bool :=
  existsb (fun entry =>
             bool_decide (entry.1 = Pending)
             && bool_decide (kern_reduction_mode entry.2
                             = GPUPREAGG_ONLY_TERMINATION)
             && bool_decide (task_pds_final entry.2 = Some g))
          (tasks w).

(** ** The sizing heuristic as the design describes it *)

(** The forward-projected row count: "double the rows seen so far, or the
    planner estimate, whichever is larger". *)
Definition projected_rows_claimed (s : GpuPreAggSharedState) : Z :=
  Z.max (plan_nrows_in s) (2 * exec_nrows_in s).

(** The group estimate evaluated at that row count. *)
Definition claimed_curr_ngroups `{P : Platform} (s : GpuPreAggSharedState)
    : Z :=
  if exec_nrows_in s <? 1000 then plan_ngroups s
  else
    let A := (double_of_Z (exec_ngroups s)
              / log (double_of_Z (exec_nrows_in s)))%float in
    size_t_of_double (A * log (double_of_Z (projected_rows_claimed s)))%float.

(** 1000 rows and 259 groups seen, 2001 rows planned. *)
Definition c6_state : GpuPreAggSharedState :=
  with_exec_stats 1000 259 0
    (with_n_tasks 0 1 0 0 (create_gpupreagg_shared_state 3 2 2001 5 0)).

(** [nrooms] is the capacity of a whole number of allocation units: the
    largest row count whose footprint fits [k] chunks. *)
Definition fills_whole_units `{P : Platform} (head_sz unit_sz nrooms : Z)
    : Prop :=
  exists k, 1 <= k /\ nrooms = (k * pgstrom_chunk_size - head_sz) / unit_sz.

(** Ten million groups planned, nothing seen yet. *)
Definition c7_state : GpuPreAggSharedState :=
  create_gpupreagg_shared_state 3 100 100000000 10000000 0.

(** ** The Reduction line as the design describes it *)

(** The share of [n] tasks out of [total], as printed. *)
Definition share_text `{P : Platform} (n total : Z) : string :=
  (" (" ++ snprintf_1f (double_of_Z (100 * n) / double_of_Z total)%float
   ++ "%)")%string.

(** The strategies that ran, in the order they are printed, each with the
    text that follows its name. *)
Definition explain_entries (s : GpuPreAggSharedState)
    (nogrp_text local_text global_text final_text : string) : list string :=
  (if 0 <? n_tasks_nogrp s then [String.append "NoGroup" nogrp_text] else [])
  ++ (if 0 <? n_tasks_local s then [String.append "Local" local_text] else [])
  ++ (if 0 <? n_tasks_global s
      then [String.append "Global" global_text] else [])
  ++ (if 0 <? n_tasks_final s then [String.append "Final" final_text] else []).

(** The output reports [text] right after the name of strategy [name]. *)
Definition reports (policy name text : string) : bool :=
  match String.index 0 (name ++ text) policy with
  | Some _ => true
  | None => false
  end.

(** Three tasks ran, all of them Local. *)
Definition c9_state : GpuPreAggSharedState :=
  with_n_tasks 0 3 0 0 (create_gpupreagg_shared_state 3 3 100000 5 0).

(** One Global task and three Final tasks ran. *)
Definition c9_state_final : GpuPreAggSharedState :=
  with_n_tasks 0 0 1 3 (create_gpupreagg_shared_state 3 4 100000 5 0).

(** ** Launched kernels

    The sum of the four per-strategy counters, as the selector and the
    Reduction line compute it.  Each counter is bumped when a reduction
    kernel is launched ([count_reduction_kernel]). *)
Definition n_tasks_launched (s : GpuPreAggSharedState) : Z :=
  wrap_cl_uint (n_tasks_nogrp s + n_tasks_local s
                + n_tasks_global s + n_tasks_final s).

(** 260 groups planned; two chunks are loaded and both kernels launched
    before the device answers. *)
Definition c3_state : GpuPreAggSharedState :=
  create_gpupreagg_shared_state 3 10 100000 260 0.

Definition c3_launches : list event :=
  [EvNextTask 10000 false; EvNextTask 10000 false;
   EvProcess 0 false false; EvProcess 1 false false].

(** A grouped query whose only task fills the final buffer during final
    reduction and is retried. *)
Definition c8_retry_final : list event :=
  [EvNextTask 1000 true; EvProcess 0 false false;
   EvRespond 0 None kr_nospace_final; EvComplete 0;
   EvProcess 0 false false].

(** ** Reference counting of the final buffers

    What the counters of the protocol are meant to count, stated on the
    task table: a task holds a reference on generation [g] from its attach
    to its detach; a terminator keeps the pointer without holding a
    reference. *)

(** A task entry holds a running-task reference on generation [g]. *)
Definition attached_to (g : nat) (entry : task_phase * GpuPreAggTask) : Prop :=
  task_pds_final entry.2 = Some g
  /\ kern_reduction_mode entry.2 <> GPUPREAGG_ONLY_TERMINATION.

#[global] Instance attached_to_dec g entry : Decision (attached_to g entry) :=
  and_dec _ _.

(** The tasks that hold a reference on generation [g]. *)
Definition holders (g : nat) (ts : list (task_phase * GpuPreAggTask)) : nat :=
  length (filter (attached_to g) ts).

(** Where a task's [pds_final] is set: a terminator always points to its
    buffer, any other task exactly while its kernel is launched or
    answered. *)
Definition task_wf (nbuf : nat) (entry : task_phase * GpuPreAggTask) : Prop :=
  if decide (kern_reduction_mode entry.2 = GPUPREAGG_ONLY_TERMINATION)
  then exists g, task_pds_final entry.2 = Some g /\ (g < nbuf)%nat
  else match entry.1 with
       | Running | Responded =>
           exists g, task_pds_final entry.2 = Some g /\ (g < nbuf)%nat
       | _ => task_pds_final entry.2 = None
       end.

(** The shared pointer and the tasks' pointers are buffers of the arena,
    and [ntasks_running] of every buffer is the number of its holders. *)
Record world_wf (w : world) : Prop := mk_world_wf {
  wf_current : forall g, pds_final (gpa_sstate w) = Some g ->
                         (g < length (final_buffers w))%nat;
  wf_tasks : Forall (task_wf (length (final_buffers w))) (tasks w);
  wf_count : forall g b, final_buffers w !! g = Some b ->
               ntasks_running b = wrap_cl_uint (Z.of_nat (holders g (tasks w)))
}.

(** [ntasks_running] of generation [g], 0 before it exists. *)
Definition running_at (bs : list pgstrom_data_store) (g : nat) : Z :=
  match bs !! g with Some b => ntasks_running b | None => 0 end.

(** From [bs] to [bs']: no buffer is lost, and only the count of generation
    [g] moves, by [d]. *)
Definition buffers_effect (bs bs' : list pgstrom_data_store) (g : nat) (d : Z)
    : Prop :=
  (length bs <= length bs')%nat
  /\ forall g' b', bs' !! g' = Some b' ->
       (g' <> g -> exists b, bs !! g' = Some b
                             /\ ntasks_running b = ntasks_running b')
       /\ (g' = g -> ntasks_running b' = wrap_cl_uint (running_at bs g + d)).

(** 1 when [P] holds, else 0. *)
Definition indicator (P : Prop) `{Decision P} : Z := if decide P then 1 else 0.

(** A terminator clone as [gpupreagg_push_terminator_task] queues it. *)
Definition pushed_wf (nbuf : nat) (entry : task_phase * GpuPreAggTask) : Prop :=
  kern_reduction_mode entry.2 = GPUPREAGG_ONLY_TERMINATION
  /\ exists g, task_pds_final entry.2 = Some g /\ (g < nbuf)%nat.

(** [Assert(pds_final->ntasks_running > 0)] of
    [gpupreagg_put_final_buffer] held so far. *)
Definition running_assert_held (w : world) : Prop :=
  ~ In Assert_ntasks_running_positive (assert_failures w).

(** A task handed back to the backend that is not a terminator is stopped
    by [gpupreagg_switch_task] or read by the CPU fallback. *)
Definition returned_ok `{Platform} (entry : task_phase * GpuPreAggTask)
    : Prop :=
  entry.1 = Returned ->
  kern_reduction_mode entry.2 <> GPUPREAGG_ONLY_TERMINATION ->
  gpupreagg_switch_task entry.2 = true \/ task_cpu_fallback entry.2 = true.

(** From [s] to [s']: the tuple width and the planner's estimates are
    kept, the run-time maxima did not shrink and the end-of-scan flag was
    not cleared. *)
Definition sstate_grows (s s' : GpuPreAggSharedState) : Prop :=
  f_ncols s' = f_ncols s
  /\ plan_nrows_per_chunk s' = plan_nrows_per_chunk s
  /\ plan_nrows_in s' = plan_nrows_in s
  /\ plan_ngroups s' = plan_ngroups s
  /\ plan_extra_sz s' = plan_extra_sz s
  /\ exec_ngroups s <= exec_ngroups s'
  /\ exec_extra_sz s <= exec_extra_sz s'
  /\ (scan_done s = true -> scan_done s' = true).

(** ** GpuPreAggInfo: the plan's private data

    [form_gpupreagg_info] flattens the structure into the two lists of a
    [CustomScan] node and [deform_gpupreagg_info] reads it back. *)

(** [(cl_int)x] for a long. *)
Definition wrap_cl_int (z : Z) : Z := (z + 2 ^ 31) mod 2 ^ 32 - 2 ^ 31.

(** The node kinds met in the two lists: [Value] nodes made by
    [makeInteger] and [makeString], lists, and any other node. *)
#[local] Unset Elimination Schemes.
Inductive Node : Type :=
| T_Integer (ival : Z)
| T_String (sval : string)
| T_List (elems : list Node)
| T_Other (tag : Z).
#[local] Set Elimination Schemes.

Record CustomScan : Type := mk_cscan {
  custom_private : list Node;
  custom_exprs : list Node
}.

(** [intVal], [strVal] and the use of a cell as a [List *]; [None] stands
    for reading a node as a kind it is not, which the code does not
    check. *)
Definition intVal (n : Node) : option Z :=
  match n with T_Integer i => Some i | _ => None end.

Definition strVal (n : Node) : option string :=
  match n with T_String s => Some s | _ => None end.

Definition as_List (n : Node) : option (list Node) :=
  match n with T_List l => Some l | _ => None end.

(** [list_nth]; [None] is an index past the end. *)
Definition list_nth (l : list Node) (n : nat) : option Node := l !! n.

Module Info.

Record GpuPreAggInfo : Type := mk_info {
  num_group_keys : Z;
  plan_ngroups : float;
  plan_nchunks : Z;
  plan_extra_sz : Z;
  tlist_final : list Node;
  tlist_host : list Node;
  tlist_host_grouprefs : list Node;
  tlist_dev : list Node;
  tlist_dev_action : list Node;
  outer_nrows : float;
  outer_scanrelid : Z;
  outer_quals : list Node;
  kern_source : string;
  extra_flags : Z;
  used_params : list Node
}.

End Info.

Section FormDeform.
(** The two bit casts between a double and a long. *)
Variable double_as_long : float -> Z.
Variable long_as_double : Z -> float.

Definition form_gpupreagg_info (gpa_info : Info.GpuPreAggInfo) : CustomScan :=
  let privs := [] in
  let exprs := [] in
  let privs := privs ++ [T_Integer (Info.num_group_keys gpa_info)] in
  let privs :=
    privs ++ [T_Integer (double_as_long (Info.plan_ngroups gpa_info))] in
  let privs := privs ++ [T_Integer (Info.plan_nchunks gpa_info)] in
  let privs := privs ++ [T_Integer (Info.plan_extra_sz gpa_info)] in
  let exprs := exprs ++ [T_List (Info.tlist_final gpa_info)] in
  let exprs := exprs ++ [T_List (Info.tlist_host gpa_info)] in
  let privs := privs ++ [T_List (Info.tlist_host_grouprefs gpa_info)] in
  let exprs := exprs ++ [T_List (Info.tlist_dev gpa_info)] in
  let privs := privs ++ [T_List (Info.tlist_dev_action gpa_info)] in
  let privs :=
    privs ++ [T_Integer (double_as_long (Info.outer_nrows gpa_info))] in
  let privs := privs ++ [T_Integer (Info.outer_scanrelid gpa_info)] in
  let exprs := exprs ++ [T_List (Info.outer_quals gpa_info)] in
  let privs := privs ++ [T_String (Info.kern_source gpa_info)] in
  let privs := privs ++ [T_Integer (Info.extra_flags gpa_info)] in
  let exprs := exprs ++ [T_List (Info.used_params gpa_info)] in
  mk_cscan privs exprs.

Definition deform_gpupreagg_info (cscan : CustomScan)
    : option Info.GpuPreAggInfo :=
  let privs := custom_private cscan in
  let exprs := custom_exprs cscan in
  let pindex := 0%nat in
  let eindex := 0%nat in
  num_group_keys ← list_nth privs pindex ≫= intVal;
  let pindex := S pindex in
  plan_ngroups ← list_nth privs pindex ≫= intVal;
  let pindex := S pindex in
  plan_nchunks ← list_nth privs pindex ≫= intVal;
  let pindex := S pindex in
  plan_extra_sz ← list_nth privs pindex ≫= intVal;
  let pindex := S pindex in
  tlist_final ← list_nth exprs eindex ≫= as_List;
  let eindex := S eindex in
  tlist_host ← list_nth exprs eindex ≫= as_List;
  let eindex := S eindex in
  tlist_host_grouprefs ← list_nth privs pindex ≫= as_List;
  let pindex := S pindex in
  tlist_dev ← list_nth exprs eindex ≫= as_List;
  let eindex := S eindex in
  tlist_dev_action ← list_nth privs pindex ≫= as_List;
  let pindex := S pindex in
  outer_nrows ← list_nth privs pindex ≫= intVal;
  let pindex := S pindex in
  outer_scanrelid ← list_nth privs pindex ≫= intVal;
  let pindex := S pindex in
  outer_quals ← list_nth exprs eindex ≫= as_List;
  let eindex := S eindex in
  kern_source ← list_nth privs pindex ≫= strVal;
  let pindex := S pindex in
  extra_flags ← list_nth privs pindex ≫= intVal;
  used_params ← list_nth exprs eindex ≫= as_List;
  Some (Info.mk_info (wrap_cl_int num_group_keys)
          (long_as_double plan_ngroups)
          (wrap_cl_int plan_nchunks)
          (wrap_cl_int plan_extra_sz)
          tlist_final tlist_host tlist_host_grouprefs tlist_dev
          tlist_dev_action
          (long_as_double outer_nrows)
          (wrap_cl_uint outer_scanrelid)
          outer_quals kern_source
          (wrap_cl_int extra_flags)
          used_params).

End FormDeform.

(** The IEEE 754 binary64 image of a double, as a signed 64-bit integer,
    and back: what the two casts are on the supported platforms. *)
Definition ieee_double_as_long (x : float) : Z :=
  let sign (s : bool) := if s then - 2 ^ 63 else 0 in
  match Prim2SF x with
  | S754_zero s => sign s
  | S754_infinity s => sign s + 2047 * 2 ^ 52
  | S754_nan => 2047 * 2 ^ 52 + 2 ^ 51
  | S754_finite s m e =>
      if Z.pos m <? 2 ^ 52 then sign s + Z.pos m
      else sign s + (e + 1075) * 2 ^ 52 + (Z.pos m - 2 ^ 52)
  end.

Definition ieee_long_as_double (z : Z) : float :=
  let bits := z mod 2 ^ 64 in
  let s := 2 ^ 63 <=? bits in
  let bexp := (bits / 2 ^ 52) mod 2 ^ 11 in
  let frac := bits mod 2 ^ 52 in
  if bexp =? 2047 then
    if frac =? 0 then SF2Prim (S754_infinity s) else SF2Prim S754_nan
  else if bexp =? 0 then
    if frac =? 0 then SF2Prim (S754_zero s)
    else SF2Prim (S754_finite s (Z.to_pos frac) (-1074))
  else SF2Prim (S754_finite s (Z.to_pos (frac + 2 ^ 52)) (bexp - 1075)).

(** The ranges of [cl_int] and of [Index]. *)
Definition is_cl_int (z : Z) : Prop := - 2 ^ 31 <= z < 2 ^ 31.
Definition is_cl_uint (z : Z) : Prop := 0 <= z < 2 ^ 32.

(** A plan to run the two functions on. *)
Definition example_info : Info.GpuPreAggInfo :=
  Info.mk_info 2 1500 8 16
    [T_Other 1; T_Other 2] [T_Other 3] [T_Integer 1; T_Integer 2]
    [T_Other 4] [T_Integer 5]
    100000.5 1 [] "kernel" 3 [T_Other 6].

(** ** A query to run the protocol on

    A grouped query of one chunk of 1000 rows on [test_platform], with 5
    groups planned over 100000 rows in 10 chunks. *)
Definition demo_state : GpuPreAggSharedState :=
  create_gpupreagg_shared_state 3 10 100000 5 0.

Definition demo_kern_result : kern_result :=
  mk_kern_result StromError_Success 5 0 true.

(** The chunk is loaded and its kernel launched. *)
Definition demo_launch : list event :=
  [EvNextTask 1000 true; EvProcess 0 false false].

(** The kernel answered. *)
Definition demo_answer : list event :=
  demo_launch ++ [EvRespond 0 None demo_kern_result].

(** The task completed, became the terminator of its buffer, ran the
    finalize step and went back to the backend. *)
Definition demo_finish : list event :=
  demo_answer ++ [EvComplete 0; EvProcess 0 false false;
                  EvRespond 0 None demo_kern_result; EvComplete 0].

(** The state after [evs], and a task and a buffer of it. *)
Definition demo_world (evs : list event) : world :=
  default (initial_world demo_state)
    (@run test_platform 1 false evs (initial_world demo_state)).

Definition demo_task (evs : list event) (tid : nat) : GpuPreAggTask :=
  default (gpupreagg_create_task 1 0)
    (snd <$> tasks (demo_world evs) !! tid).

Definition demo_buffer (evs : list event) (g : nat) : pgstrom_data_store :=
  default (mk_pds 0 0 0) (final_buffers (demo_world evs) !! g).

(** The chunk is loaded; its kernel is not launched yet. *)
Definition demo_load : list event := [EvNextTask 1000 true].

(** The task completed and became the terminator of its buffer, which has
    varlena columns; the allocation of the terminator's device memory
    then fails with an error. *)
Definition demo_promote : list event := demo_answer ++ [EvComplete 0].

Definition demo_varlena_world : world :=
  default (initial_world demo_state)
    (@run test_platform 1 true demo_promote (initial_world demo_state)).

Definition demo_terminator : GpuPreAggTask :=
  default (gpupreagg_create_task 1 0)
    (snd <$> tasks demo_varlena_world !! 0%nat).

Definition demo_rethrown : GpuPreAggTask * world :=
  match @gpupreagg_process_task test_platform true false false
          (Some Failure_task_memory) demo_terminator demo_varlena_world with
  | Some (Rethrows gpreagg w) => (gpreagg, w)
  | _ => (demo_terminator, demo_varlena_world)
  end.

(** ... and then runs out of device memory for its own buffers. *)
Definition demo_out_of_memory : world :=
  default (initial_world demo_state)
    (@step test_platform 1 false (EvProcess 0 false true)
       (demo_world demo_load)).

(** * Properties *)

(** ** Machine arithmetic *)

Lemma wrap_cl_uint_small z : 0 <= z < 2 ^ 32 -> wrap_cl_uint z = z.
Proof. intros Hz. unfold wrap_cl_uint. by apply Z.mod_small. Qed.

Lemma wrap_size_t_small z : 0 <= z < 2 ^ 64 -> wrap_size_t z = z.
Proof. intros Hz. unfold wrap_size_t. by apply Z.mod_small. Qed.

Lemma wrap_size_t_range z : 0 <= wrap_size_t z < 2 ^ 64.
Proof. unfold wrap_size_t. apply Z.mod_pos_bound. lia. Qed.

Lemma size_t_of_double_range x : 0 <= size_t_of_double x < 2 ^ 64.
Proof.
  unfold size_t_of_double.
  destruct (Prim2SF x) as [| | |[|] m e]; try lia.
  apply wrap_size_t_range.
Qed.

Lemma append_assoc (a b c : string) :
  ((a ++ b) ++ c = a ++ (b ++ c))%string.
Proof. induction a as [|ch a IH]; simpl; [reflexivity | by rewrite IH]. Qed.

(** ** Ghost logs and assertions do not disturb the state *)

Lemma Assert_sstate c a w : gpa_sstate (Assert c a w) = gpa_sstate w.
Proof. by destruct c. Qed.

Lemma Assert_final_buffers c a w :
  final_buffers (Assert c a w) = final_buffers w.
Proof. by destruct c. Qed.

Lemma Assert_tasks c a w : tasks (Assert c a w) = tasks w.
Proof. by destruct c. Qed.

Lemma Assert_finalized c a w : finalized (Assert c a w) = finalized w.
Proof. by destruct c. Qed.

Lemma Assert_released c a w : released (Assert c a w) = released w.
Proof. by destruct c. Qed.

(** Closed arithmetic facts, decided by evaluation. *)
Ltac by_computation :=
  vm_compute; repeat split; first [reflexivity | discriminate].

(** A step of processing is the PG_TRY block run to its end. *)
Lemma step_EvProcess `{Platform} ngk hnb tid o1 o2 w :
  step ngk hnb (EvProcess tid o1 o2) w
  = entry ← tasks w !! tid;
    if decide (entry.1 = Pending) then
      r ← gpupreagg_process_task_try hnb o1 o2 entry.2 w;
      let '(retval, gpreagg, w) := r in
      Some (set_tasks
              (<[tid := (if retval =? 0 then Running else Pending,
                         gpreagg)]>) w)
    else None.
Proof.
  simpl. destruct (tasks w !! tid) as [entry|]; [|reflexivity]. simpl.
  destruct (decide _); [|reflexivity].
  unfold gpupreagg_process_task. simpl.
  by destruct (gpupreagg_process_task_try _ _ _ _ _) as [[[rv t] w1]|].
Qed.

Create Rewrite HintDb world.
#[export] Hint Rewrite Assert_sstate Assert_final_buffers Assert_tasks
  Assert_finalized Assert_released : world.

Lemma detach_current_final_buffers force g w :
  final_buffers (detach_current force g w) = final_buffers w.
Proof. unfold detach_current. by case (_ && _). Qed.

Lemma detach_current_tasks force g w :
  tasks (detach_current force g w) = tasks w.
Proof. unfold detach_current. by case (_ && _). Qed.

Lemma detach_current_finalized force g w :
  finalized (detach_current force g w) = finalized w.
Proof. unfold detach_current. by case (_ && _). Qed.

Lemma detach_current_released force g w :
  released (detach_current force g w) = released w.
Proof. unfold detach_current. by case (_ && _). Qed.

Lemma detach_current_ntasks_in_progress force g w :
  ntasks_in_progress (gpa_sstate (detach_current force g w))
  = ntasks_in_progress (gpa_sstate w).
Proof. unfold detach_current. by case (_ && _). Qed.

Lemma detach_current_scan_done force g w :
  scan_done (gpa_sstate (detach_current force g w))
  = scan_done (gpa_sstate w).
Proof. unfold detach_current. by case (_ && _). Qed.

#[export] Hint Rewrite detach_current_final_buffers detach_current_tasks
  detach_current_finalized detach_current_released
  detach_current_ntasks_in_progress detach_current_scan_done : world.

(** A forced detach leaves the shared state pointing away from [g]. *)
Lemma detach_current_forced g w :
  pds_final (gpa_sstate (detach_current true g w)) <> Some g.
Proof.
  unfold detach_current. simpl.
  case_bool_decide as Hcur; simpl; [discriminate | exact Hcur].
Qed.

Lemma detach_current_unforced g w : detach_current false g w = w.
Proof. reflexivity. Qed.

(** The detached pointer is the old one or NULL. *)
Lemma detach_current_pds_final force g w :
  pds_final (gpa_sstate (detach_current force g w))
  = pds_final (gpa_sstate w)
  \/ pds_final (gpa_sstate (detach_current force g w)) = None.
Proof. unfold detach_current. case (_ && _); simpl; auto. Qed.

(** ** gpupreagg_put_final_buffer in closed form *)

Lemma put_final_buffer_spec gpreagg release force w g b :
  task_pds_final gpreagg = Some g ->
  final_buffers w !! g = Some b ->
  exists w',
    gpupreagg_put_final_buffer gpreagg release force w
    = Some (detach_is_terminator force g b w,
            (if detach_is_terminator force g b w && negb release
             then gpreagg else with_task_pds_final None 0 gpreagg),
            w')
    /\ gpa_sstate w'
       = with_ntasks_in_progress
           (wrap_cl_uint (ntasks_in_progress (gpa_sstate w) - 1))
           (gpa_sstate (detach_current force g w))
    /\ final_buffers w'
       = <[g := with_ntasks_running (wrap_cl_uint (ntasks_running b - 1)) b]>
           (final_buffers w)
    /\ tasks w' = tasks w
    /\ finalized w' = finalized w.
Proof.
  intros Hg Hb.
  unfold gpupreagg_put_final_buffer, detach_is_terminator.
  rewrite Hg. simpl. autorewrite with world. rewrite Hb. simpl.
  autorewrite with world. simpl. autorewrite with world.
  set (term := (_ || _)). destruct term; simpl.
  - destruct release; simpl; eexists; (split; [reflexivity|]); simpl;
      autorewrite with world; simpl; autorewrite with world; auto.
  - eexists; (split; [reflexivity|]); simpl;
      autorewrite with world; simpl; autorewrite with world; auto.
Qed.

(** C2.  Detaching from the final buffer returns terminator = true exactly
    when, on the counters as decremented under the lock, (a) the in-flight
    task count is zero and [scan_done] holds, or (b) the running-task count
    of the task's generation is zero and that generation is not the current
    buffer of the shared state. *)
Theorem put_final_buffer_terminator_iff gpreagg release force w g b :
  task_pds_final gpreagg = Some g ->
  final_buffers w !! g = Some b ->
  exists r gpreagg' w',
    gpupreagg_put_final_buffer gpreagg release force w = Some (r, gpreagg', w')
    /\ ntasks_in_progress (gpa_sstate w')
       = wrap_cl_uint (ntasks_in_progress (gpa_sstate w) - 1)
    /\ scan_done (gpa_sstate w') = scan_done (gpa_sstate w)
    /\ ntasks_running <$> (final_buffers w' !! g)
       = Some (wrap_cl_uint (ntasks_running b - 1))
    /\ (r = true <->
        (ntasks_in_progress (gpa_sstate w') = 0
         /\ scan_done (gpa_sstate w') = true)
        \/ (ntasks_running <$> (final_buffers w' !! g) = Some 0
            /\ pds_final (gpa_sstate w') <> Some g)).
Proof.
  intros Hg Hb.
  assert (Hlt : (g < length (final_buffers w))%nat)
    by (eapply lookup_lt_Some; eassumption).
  destruct (put_final_buffer_spec gpreagg release force w g b Hg Hb)
    as (w' & Hput & Hs & Hfb & _ & _).
  assert (Hrun : ntasks_running <$> (final_buffers w' !! g)
                 = Some (wrap_cl_uint (ntasks_running b - 1)))
    by (rewrite Hfb, list_lookup_insert_eq by exact Hlt; reflexivity).
  do 3 eexists. split; [exact Hput|].
  rewrite Hrun, Hs. simpl. autorewrite with world.
  repeat split; try reflexivity.
  - unfold detach_is_terminator. intros Hterm.
    apply orb_true_iff in Hterm as [Ha | Hb'].
    + left. apply andb_true_iff in Ha as [Ha1 Ha2].
      split; [by apply Z.eqb_eq | exact Ha2].
    + right. apply andb_true_iff in Hb' as [Hb1 Hb2].
      split; [f_equal; by apply Z.eqb_eq |].
      apply negb_true_iff in Hb2. by apply bool_decide_eq_false in Hb2.
  - unfold detach_is_terminator. intros [[Ha1 Ha2] | [Hb1 Hb2]].
    + apply orb_true_iff. left. apply andb_true_iff.
      split; [by apply Z.eqb_eq | exact Ha2].
    + apply orb_true_iff. right. apply andb_true_iff.
      split; [apply Z.eqb_eq; congruence |].
      apply negb_true_iff. by apply bool_decide_eq_false.
Qed.

(** C2 at a concrete detach: one task in flight on the current buffer and
    the scan is over. *)
Lemma put_final_buffer_terminator_iff_witness :
  let gpreagg := with_task_pds_final (Some 0%nat) 1
                   (gpupreagg_create_task 1 1000) in
  let s := mk_sstate true 1 (Some 0%nat) 3 1 200 0 0 0 1 0 0 0 1000 0 5 0 0 0 in
  let w := mk_world s [mk_pds 1 200 0] [(Responded, gpreagg)] [] [] [] in
  task_pds_final gpreagg = Some 0%nat
  /\ final_buffers w !! 0%nat = Some (mk_pds 1 200 0)
  /\ exists r gpreagg' w',
       gpupreagg_put_final_buffer gpreagg false false w
       = Some (r, gpreagg', w')
       /\ ntasks_in_progress (gpa_sstate w')
          = wrap_cl_uint (ntasks_in_progress (gpa_sstate w) - 1)
       /\ scan_done (gpa_sstate w') = scan_done (gpa_sstate w)
       /\ ntasks_running <$> (final_buffers w' !! 0%nat)
          = Some (wrap_cl_uint (ntasks_running (mk_pds 1 200 0) - 1))
       /\ (r = true <->
           (ntasks_in_progress (gpa_sstate w') = 0
            /\ scan_done (gpa_sstate w') = true)
           \/ (ntasks_running <$> (final_buffers w' !! 0%nat) = Some 0
               /\ pds_final (gpa_sstate w') <> Some 0%nat)).
Proof.
  intros gpreagg s w.
  split; [reflexivity|]. split; [reflexivity|].
  apply (put_final_buffer_terminator_iff gpreagg false false w 0%nat
           (mk_pds 1 200 0)); reflexivity.
Defined.

(** ** The retry idiom in closed form *)

Lemma put_and_push_spec gpreagg force w g b :
  task_pds_final gpreagg = Some g ->
  final_buffers w !! g = Some b ->
  exists w',
    put_and_push gpreagg force w
    = Some (with_task_pds_final None
              (if detach_is_terminator force g b w
               then kern_key_dist_salt gpreagg else 0) gpreagg,
            w')
    /\ gpa_sstate w'
       = with_ntasks_in_progress
           (wrap_cl_uint (ntasks_in_progress (gpa_sstate w) - 1))
           (gpa_sstate (detach_current force g w))
    /\ final_buffers w'
       = <[g := with_ntasks_running (wrap_cl_uint (ntasks_running b - 1)) b]>
           (final_buffers w)
    /\ tasks w'
       = tasks w ++ (if detach_is_terminator force g b w
                     then [(Pending, terminator_clone (Some g))] else [])
    /\ finalized w' = finalized w.
Proof.
  intros Hg Hb.
  destruct (put_final_buffer_spec gpreagg false force w g b Hg Hb)
    as (w1 & Hput & Hs & Hfb & Htk & Hfin).
  unfold put_and_push. rewrite Hput. simpl.
  destruct (detach_is_terminator force g b w); simpl.
  - eexists. split; [reflexivity|]. simpl. rewrite Hg, Htk. auto.
  - eexists. split; [reflexivity|]. rewrite app_nil_r. auto.
Qed.

(** ** Completion with a CpuReCheck error *)

(** What the CpuReCheck branch of [gpupreagg_complete_task] does.  Before
    final reduction began the task is handed back to the backend as a
    CPU-fallback task with its error cleared, so the backend raises
    nothing; a task of mode GPUPREAGG_ONLY_TERMINATION with [pds_final]
    on its generation is queued exactly when
    [gpupreagg_put_final_buffer] reported terminator, and so whenever it
    held the last reference of a superseded generation.  When final
    reduction was in progress the task is handed back as it is: no
    fallback, the error stays, and the backend raises it. *)
Lemma complete_task_cpu_recheck gpreagg w g b :
  kern_reduction_mode gpreagg <> GPUPREAGG_ONLY_TERMINATION ->
  task_kerror gpreagg = StromError_CpuReCheck ->
  task_pds_final gpreagg = Some g ->
  final_buffers w !! g = Some b ->
  exists gpreagg' w',
    gpupreagg_complete_task gpreagg w = Some (0, gpreagg', w')
    /\ if kr_final_reduction_in_progress (kern_out gpreagg)
       then task_cpu_fallback gpreagg' = task_cpu_fallback gpreagg
            /\ task_kerror gpreagg' = StromError_CpuReCheck
            /\ gpupreagg_switch_task gpreagg' = true
            /\ tasks w' = tasks w
       else task_cpu_fallback gpreagg' = true
            /\ task_kerror gpreagg' = StromError_Success
            /\ gpupreagg_switch_task gpreagg' = false
            /\ (if detach_is_terminator false g b w
                then exists terminator,
                       tasks w' = tasks w ++ [(Pending, terminator)]
                       /\ kern_reduction_mode terminator
                          = GPUPREAGG_ONLY_TERMINATION
                       /\ task_pds_final terminator = Some g
                else tasks w' = tasks w)
            /\ (ntasks_running b = 1 ->
                pds_final (gpa_sstate w) <> Some g ->
                detach_is_terminator false g b w = true).
Proof.
  intros Hmode Herr Hg Hb.
  unfold gpupreagg_complete_task.
  destruct (decide _) as [Heq | _]; [contradiction|].
  rewrite Herr.
  set (gpreagg1 := gpupreagg_cleanup_cuda_resources gpreagg).
  assert (Hg1 : task_pds_final gpreagg1 = Some g) by exact Hg.
  change (kern_out gpreagg1) with (kern_out gpreagg).
  destruct (kr_final_reduction_in_progress (kern_out gpreagg)).
  - destruct (put_final_buffer_spec gpreagg1 true false w g b Hg1 Hb)
      as (w' & Hput & _ & _ & Htk & _).
    rewrite Hput. simpl. do 2 eexists. split; [reflexivity|].
    rewrite andb_false_r. simpl.
    unfold gpupreagg_switch_task. simpl. rewrite Herr. auto.
  - destruct (put_and_push_spec gpreagg1 false w g b Hg1 Hb)
      as (w' & Hpp & _ & _ & Htk & _).
    rewrite Hpp. simpl. do 2 eexists. split; [reflexivity|].
    do 3 (split; [reflexivity|]). split.
    + rewrite Htk. destruct (detach_is_terminator false g b w).
      * eexists. split; [reflexivity|]. split; reflexivity.
      * by rewrite app_nil_r.
    + intros Hrun Hcur.
      unfold detach_is_terminator. rewrite detach_current_unforced, Hrun.
      rewrite bool_decide_eq_false_2 by exact Hcur.
      simpl. by rewrite orb_true_r.
Qed.

(** At a concrete completion: the last holder of a superseded generation
    falls back to the CPU and leaves a terminator behind. *)
Lemma complete_task_cpu_recheck_witness :
  let gpreagg := with_task_kerror StromError_CpuReCheck
                   (with_task_pds_final (Some 0%nat) 1
                      (gpupreagg_create_task 1 1000)) in
  let s := mk_sstate false 2 (Some 1%nat) 3 1 200 0 0 0 1 0 0 0 1000 0 5 0 0 0 in
  let w := mk_world s [mk_pds 1 200 0; mk_pds 1 200 0]
             [(Responded, gpreagg)] [] [] [] in
  kern_reduction_mode gpreagg <> GPUPREAGG_ONLY_TERMINATION
  /\ task_kerror gpreagg = StromError_CpuReCheck
  /\ task_pds_final gpreagg = Some 0%nat
  /\ final_buffers w !! 0%nat = Some (mk_pds 1 200 0)
  /\ exists gpreagg' w',
       gpupreagg_complete_task gpreagg w = Some (0, gpreagg', w')
       /\ task_cpu_fallback gpreagg' = true
       /\ task_kerror gpreagg' = StromError_Success
       /\ gpupreagg_switch_task gpreagg' = false
       /\ exists terminator,
            tasks w' = tasks w ++ [(Pending, terminator)]
            /\ kern_reduction_mode terminator = GPUPREAGG_ONLY_TERMINATION
            /\ task_pds_final terminator = Some 0%nat.
Proof.
  intros gpreagg s w.
  split; [discriminate|]. do 3 (split; [reflexivity|]).
  destruct (complete_task_cpu_recheck gpreagg w 0%nat (mk_pds 1 200 0))
    as (gpreagg' & w' & Hc & Hfb & Herr & Hsw & Hpush & Hlast);
    [discriminate | reflexivity | reflexivity | reflexivity |].
  exists gpreagg', w'. do 4 (split; [assumption|]).
  rewrite Hlast in Hpush; [exact Hpush | reflexivity | discriminate].
Defined.

(** ** A detached generation stays detached *)

Lemma detached_ext g w w' :
  (length (final_buffers w) <= length (final_buffers w'))%nat ->
  pds_final (gpa_sstate w') = pds_final (gpa_sstate w)
  \/ pds_final (gpa_sstate w') = None ->
  detached g w -> detached g w'.
Proof.
  intros Hlen Hcur [Hlt Hne]. split; [lia|].
  destruct Hcur as [-> | ->]; [exact Hne | discriminate].
Qed.

Section Detached.
Context {P : Platform}.

Lemma alloc_final_buffer_detached g oom w r w' :
  detached g w ->
  gpupreagg_alloc_final_buffer oom w = Some (r, w') ->
  detached g w'.
Proof.
  intros [Hlt Hne] Halloc. unfold gpupreagg_alloc_final_buffer in Halloc.
  apply bind_Some in Halloc as ([[[salt nrooms] extra] hs] & _ & Halloc).
  destruct oom; simplify_eq; [by split|].
  split; simpl.
  - rewrite length_app. simpl. lia.
  - intros [= Heq]. lia.
Qed.

Lemma get_final_buffer_detached g oom t w r t' w' :
  detached g w ->
  gpupreagg_get_final_buffer oom t w = Some (r, t', w') ->
  detached g w' /\ (r = true -> task_pds_final t' <> Some g).
Proof.
  intros Hdet Hget. unfold gpupreagg_get_final_buffer in Hget.
  set (tw := if decide _ then _ else _) in Hget.
  assert (Hdet0 : detached g tw.2).
  { subst tw. destruct (decide _); simpl; [exact Hdet|].
    eapply detached_ext; [| |exact Hdet]; autorewrite with world; auto. }
  destruct tw as [t0 w0]. simpl in Hdet0.
  apply bind_Some in Hget as ([rv w1] & Hattach & Hget).
  assert (Hdet1 : detached g w1).
  { destruct (pds_final (gpa_sstate w0)) eqn:Hcur.
    - by simplify_eq.
    - eapply alloc_final_buffer_detached; eassumption. }
  destruct rv.
  - apply bind_Some in Hget as (g1 & Hg1 & Hget).
    apply bind_Some in Hget as (b1 & Hb1 & Hget). simplify_eq.
    destruct Hdet1 as [Hlt Hne]. split.
    + split; simpl; [by rewrite length_insert | exact Hne].
    + intros _. simpl. congruence.
  - simplify_eq. split; [exact Hdet1 | discriminate].
Qed.

Lemma put_final_buffer_detached g t release force w r t' w' :
  detached g w ->
  gpupreagg_put_final_buffer t release force w = Some (r, t', w') ->
  detached g w'.
Proof.
  intros Hdet Hput.
  destruct (task_pds_final t) as [g1|] eqn:Hg1;
    [|unfold gpupreagg_put_final_buffer in Hput; rewrite Hg1 in Hput;
      discriminate].
  destruct (final_buffers w !! g1) as [b1|] eqn:Hb1.
  - destruct (put_final_buffer_spec t release force w g1 b1 Hg1 Hb1)
      as (w1 & Hput1 & Hs & Hfb & _).
    rewrite Hput1 in Hput. simplify_eq.
    eapply detached_ext; [| |exact Hdet].
    + rewrite Hfb, length_insert. lia.
    + rewrite Hs. simpl. apply detach_current_pds_final.
  - unfold gpupreagg_put_final_buffer in Hput. rewrite Hg1 in Hput.
    simpl in Hput. autorewrite with world in Hput. rewrite Hb1 in Hput.
    discriminate.
Qed.

Lemma put_and_push_detached g t force w t' w' :
  detached g w ->
  put_and_push t force w = Some (t', w') ->
  detached g w'.
Proof.
  intros Hdet Hpp. unfold put_and_push in Hpp.
  apply bind_Some in Hpp as ([[r t1] w1] & Hput & Hpp).
  apply put_final_buffer_detached with (g := g) in Hput; [|exact Hdet].
  destruct r; [|by simplify_eq].
  unfold gpupreagg_push_terminator_task in Hpp. simplify_eq. exact Hput.
Qed.

Lemma count_reduction_kernel_pds_final m s s' :
  count_reduction_kernel m s = Some s' -> pds_final s' = pds_final s.
Proof. destruct m; simpl; intros; by simplify_eq. Qed.

Lemma process_task_detached g hnb o1 o2 t w rv t' w' :
  detached g w ->
  gpupreagg_process_task_try hnb o1 o2 t w = Some (rv, t', w') ->
  detached g w'.
Proof.
  intros Hdet Hproc. unfold gpupreagg_process_task_try in Hproc.
  destruct (decide _).
  - unfold gpupreagg_process_reduction_task in Hproc.
    apply bind_Some in Hproc as ([[att t1] w1] & Hget & Hproc).
    apply get_final_buffer_detached with (g := g) in Hget as [Hdet1 _];
      [|exact Hdet].
    destruct att; simpl in Hproc; [|by simplify_eq].
    destruct (negb (m_gpreagg t1) && o2).
    + apply bind_Some in Hproc as ([t2 w2] & Hpp & Hproc).
      apply put_and_push_detached with (g := g) in Hpp; [|exact Hdet1].
      simplify_eq.
      eapply detached_ext; [| |exact Hpp]; autorewrite with world; auto.
    + set (tw := if negb _ then _ else _) in Hproc.
      assert (Hdet2 : detached g tw.2).
      { subst tw. destruct (negb _); simpl; [exact Hdet1|].
        eapply detached_ext; [| |exact Hdet1]; autorewrite with world; auto. }
      destruct tw as [t2 w2].
      apply bind_Some in Hproc as (s' & Hcnt & Hproc). simplify_eq.
      apply count_reduction_kernel_pds_final in Hcnt.
      eapply detached_ext; [| |exact Hdet2]; simpl; auto.
  - unfold gpupreagg_process_termination_task in Hproc.
    apply bind_Some in Hproc as (g1 & _ & Hproc).
    destruct (hnb && o2); simplify_eq; [exact Hdet|].
    eapply detached_ext; [| |exact Hdet]; simpl; auto.
Qed.

Lemma respond_task_detached g status t w t' w' :
  detached g w ->
  gpupreagg_respond_task status t w = (t', w') ->
  detached g w'.
Proof.
  intros Hdet Hresp. unfold gpupreagg_respond_task in Hresp.
  destruct status; [by simplify_eq|].
  destruct (decide _); simplify_eq; [|exact Hdet].
  eapply detached_ext; [| |exact Hdet]; simpl; auto.
Qed.

Lemma complete_task_detached g t w rv t' w' :
  detached g w ->
  gpupreagg_complete_task t w = Some (rv, t', w') ->
  detached g w'.
Proof.
  intros Hdet Hc. unfold gpupreagg_complete_task in Hc.
  destruct (decide _).
  { apply bind_Some in Hc as (g1 & _ & Hc).
    apply bind_Some in Hc as (b1 & _ & Hc). simplify_eq.
    eapply detached_ext; [| |exact Hdet]; autorewrite with world; auto. }
  destruct (task_kerror t).
  - apply bind_Some in Hc as ([[r t1] w1] & Hput & Hc).
    apply put_final_buffer_detached with (g := g) in Hput; [|exact Hdet].
    destruct r; simpl in Hc; by simplify_eq.
  - destruct (kr_final_reduction_in_progress _).
    + apply bind_Some in Hc as ([[r t1] w1] & Hput & Hc).
      apply put_final_buffer_detached with (g := g) in Hput; [|exact Hdet].
      by simplify_eq.
    + apply bind_Some in Hc as ([t1 w1] & Hpp & Hc).
      apply put_and_push_detached with (g := g) in Hpp; [|exact Hdet].
      by simplify_eq.
  - destruct (kr_final_reduction_in_progress _).
    + apply bind_Some in Hc as ([t1 w1] & Hpp & Hc).
      apply put_and_push_detached with (g := g) in Hpp; [|exact Hdet].
      by simplify_eq.
    + apply bind_Some in Hc as ([t1 w1] & Hpp & Hc).
      apply put_and_push_detached with (g := g) in Hpp; [|exact Hdet].
      by simplify_eq.
  - apply bind_Some in Hc as ([[r t1] w1] & Hput & Hc).
    apply put_final_buffer_detached with (g := g) in Hput; [|exact Hdet].
    by simplify_eq.
Qed.

Lemma next_task_detached g ngk n last w :
  detached g w -> detached g (gpupreagg_next_task ngk n last w).
Proof.
  intros Hdet. unfold gpupreagg_next_task.
  eapply detached_ext; [| |exact Hdet]; simpl.
  - destruct last; simpl; autorewrite with world; auto.
  - left. destruct last; simpl; autorewrite with world; auto.
Qed.

Lemma step_detached g ngk hnb ev w w' :
  detached g w -> step ngk hnb ev w = Some w' -> detached g w'.
Proof.
  intros Hdet Hstep. destruct ev as [n last | tid o1 o2 | tid st kr | tid];
    rewrite ?step_EvProcess in Hstep; simpl in Hstep.
  - simplify_eq. by apply next_task_detached.
  - apply bind_Some in Hstep as ([ph t] & _ & Hstep). simpl in Hstep.
    destruct (decide _); [|discriminate].
    apply bind_Some in Hstep as ([[rv t1] w1] & Hproc & Hstep).
    apply process_task_detached with (g := g) in Hproc; [|exact Hdet].
    by simplify_eq.
  - apply bind_Some in Hstep as ([ph t] & _ & Hstep). simpl in Hstep.
    destruct (decide _); [|discriminate].
    destruct (gpupreagg_respond_task _ _ _) as [t1 w1] eqn:Hresp.
    apply respond_task_detached with (g := g) in Hresp; [|exact Hdet].
    by simplify_eq.
  - apply bind_Some in Hstep as ([ph t] & _ & Hstep). simpl in Hstep.
    destruct (decide _); [|discriminate].
    apply bind_Some in Hstep as ([[rv t1] w1] & Hc & Hstep).
    apply complete_task_detached with (g := g) in Hc; [|exact Hdet].
    by simplify_eq.
Qed.

Lemma run_detached g ngk hnb evs w w' :
  detached g w -> run ngk hnb evs w = Some w' -> detached g w'.
Proof.
  revert w. induction evs as [|ev evs IH]; intros w Hdet Hrun; simpl in Hrun.
  - by simplify_eq.
  - apply bind_Some in Hrun as (w1 & Hstep & Hrun).
    eapply IH; [|exact Hrun]. eapply step_detached; eassumption.
Qed.

(** C4.  When a task completes with DataStoreNoSpace raised during final
    reduction, the completion step (1) leaves the shared state pointing
    away from the task's generation, and it stays so along every later
    run, so that every later attach ([gpupreagg_get_final_buffer]) yields
    another generation; (2) when the task held the generation's last
    running-task reference, queues at once a new task whose reduction
    mode is GPUPREAGG_ONLY_TERMINATION and whose [pds_final] is that
    generation; and (3) puts the task itself back in the queue, marked
    [retry_by_nospace] and holding no final buffer. *)
Theorem complete_task_nospace_final ngk hnb w tid gpreagg g b :
  tasks w !! tid = Some (Responded, gpreagg) ->
  kern_reduction_mode gpreagg <> GPUPREAGG_ONLY_TERMINATION ->
  task_kerror gpreagg = StromError_DataStoreNoSpace ->
  kr_final_reduction_in_progress (kern_out gpreagg) = true ->
  task_pds_final gpreagg = Some g ->
  final_buffers w !! g = Some b ->
  exists w1 gpreagg',
    step ngk hnb (EvComplete tid) w = Some w1
    /\ tasks w1 !! tid = Some (Pending, gpreagg')
    /\ retry_by_nospace gpreagg' = true
    /\ task_pds_final gpreagg' = None
    /\ pds_final (gpa_sstate w1) <> Some g
    /\ (ntasks_running b = 1 ->
        exists terminator,
          tasks w1 !! length (tasks w) = Some (Pending, terminator)
          /\ kern_reduction_mode terminator = GPUPREAGG_ONLY_TERMINATION
          /\ task_pds_final terminator = Some g)
    /\ forall evs w2,
         run ngk hnb evs w1 = Some w2 ->
         pds_final (gpa_sstate w2) <> Some g
         /\ forall oom t t' w3,
              gpupreagg_get_final_buffer oom t w2 = Some (true, t', w3) ->
              task_pds_final t' <> Some g.
Proof.
  intros Htid Hmode Herr Hfinal Hg Hb.
  assert (Hlt : (g < length (final_buffers w))%nat)
    by (eapply lookup_lt_Some; eassumption).
  assert (Htlt : (tid < length (tasks w))%nat)
    by (eapply lookup_lt_Some; eassumption).
  destruct (put_and_push_spec gpreagg true w g b Hg Hb)
    as (w' & Hpp & Hs & Hfb & Htk & _).
  assert (Hcur : pds_final (gpa_sstate w') <> Some g)
    by (rewrite Hs; simpl; apply detach_current_forced).
  simpl. rewrite Htid. simpl.
  unfold gpupreagg_complete_task.
  destruct (decide _) as [Heq | _]; [contradiction|].
  rewrite Herr, Hfinal, Hpp. simpl.
  do 2 eexists. split; [reflexivity|]. simpl.
  split; [apply list_lookup_insert_eq; rewrite Htk, length_app; lia|].
  split; [reflexivity|]. split; [reflexivity|]. split; [exact Hcur|].
  assert (Hdet : detached g
            (set_tasks
               <[tid := (phase_of_retval 1,
                         with_retry_by_nospace true
                           (with_task_pds_final None
                              (if detach_is_terminator true g b w
                               then kern_key_dist_salt gpreagg else 0)
                              gpreagg))]> w')).
  { split; simpl; [rewrite Hfb, length_insert; exact Hlt | exact Hcur]. }
  split.
  - intros Hrun.
    rewrite list_lookup_insert_ne by lia. rewrite Htk.
    assert (Hterm : detach_is_terminator true g b w = true).
    { unfold detach_is_terminator. rewrite Hrun.
      rewrite bool_decide_eq_false_2 by apply detach_current_forced.
      simpl. by rewrite orb_true_r. }
    rewrite Hterm. rewrite lookup_app_r by lia.
    rewrite Nat.sub_diag. eexists. split; [reflexivity|].
    split; reflexivity.
  - intros evs w2 Hrun2.
    apply run_detached with (g := g) in Hrun2; [|exact Hdet].
    split; [apply Hrun2|].
    intros oom t t' w3 Hget.
    eapply get_final_buffer_detached in Hget as [_ Hne]; [|exact Hrun2].
    by apply Hne.
Qed.
End Detached.

(** C4 at a concrete completion: the only task running on generation 0 hits
    DataStoreNoSpace during final reduction. *)
Lemma complete_task_nospace_final_witness :
  let gpreagg :=
    with_kern_out (mk_kern_result StromError_DataStoreNoSpace 0 0 true)
      (with_task_kerror StromError_DataStoreNoSpace
         (with_task_pds_final (Some 0%nat) 1
            (gpupreagg_create_task 1 1000))) in
  let s := mk_sstate false 2 (Some 0%nat) 3 1 200 0 0 0 1 0 0 0 1000 0 5 0 0 0 in
  let w := mk_world s [mk_pds 1 200 0] [(Responded, gpreagg)] [] [] [] in
  tasks w !! 0%nat = Some (Responded, gpreagg)
  /\ kern_reduction_mode gpreagg <> GPUPREAGG_ONLY_TERMINATION
  /\ task_kerror gpreagg = StromError_DataStoreNoSpace
  /\ kr_final_reduction_in_progress (kern_out gpreagg) = true
  /\ task_pds_final gpreagg = Some 0%nat
  /\ final_buffers w !! 0%nat = Some (mk_pds 1 200 0)
  /\ exists w1 gpreagg',
       @step test_platform 1 false (EvComplete 0) w = Some w1
       /\ tasks w1 !! 0%nat = Some (Pending, gpreagg')
       /\ retry_by_nospace gpreagg' = true
       /\ task_pds_final gpreagg' = None
       /\ pds_final (gpa_sstate w1) <> Some 0%nat
       /\ exists terminator,
            tasks w1 !! 1%nat = Some (Pending, terminator)
            /\ kern_reduction_mode terminator = GPUPREAGG_ONLY_TERMINATION
            /\ task_pds_final terminator = Some 0%nat.
Proof.
  intros gpreagg s w.
  split; [reflexivity|]. split; [discriminate|].
  do 4 (split; [reflexivity|]).
  destruct (@complete_task_nospace_final test_platform 1 false w 0%nat
              gpreagg 0%nat (mk_pds 1 200 0))
    as (w1 & gpreagg' & Hstep & Htid & Hretry & Hnone & Hcur & Hpush & _);
    [reflexivity | discriminate | reflexivity | reflexivity | reflexivity
    | reflexivity |].
  exists w1, gpreagg'. do 5 (split; [assumption|]).
  apply Hpush. reflexivity.
Defined.

(** ** The selector *)

Section Selector.
Context {P : Platform}.

Lemma get_final_buffer_total oom gpreagg w :
  can_attach w ->
  exists r gpreagg' w',
    gpupreagg_get_final_buffer oom gpreagg w = Some (r, gpreagg', w')
    /\ kern_reduction_mode gpreagg'
       = if decide (kern_reduction_mode gpreagg = GPUPREAGG_INVALID_REDUCTION)
         then decide_reduction_mode (gpa_sstate w) (kern_nitems_real gpreagg)
         else kern_reduction_mode gpreagg.
Proof.
  intros Hcan. unfold gpupreagg_get_final_buffer.
  set (tw := if decide _ then _ else _).
  assert (Hs : gpa_sstate tw.2 = gpa_sstate w)
    by (subst tw; destruct (decide _); simpl; autorewrite with world; auto).
  assert (Hfb : final_buffers tw.2 = final_buffers w)
    by (subst tw; destruct (decide _); simpl; autorewrite with world; auto).
  assert (Hmode : kern_reduction_mode tw.1
       = if decide (kern_reduction_mode gpreagg = GPUPREAGG_INVALID_REDUCTION)
         then decide_reduction_mode (gpa_sstate w) (kern_nitems_real gpreagg)
         else kern_reduction_mode gpreagg)
    by (subst tw; destruct (decide _); reflexivity).
  destruct tw as [t0 w0]. simpl in Hs, Hfb, Hmode.
  unfold can_attach in Hcan. rewrite Hs.
  destruct (pds_final (gpa_sstate w)) as [g|] eqn:Hcur; simpl.
  - rewrite Hs, Hcur. simpl. rewrite Hfb.
    destruct Hcan as [b ->]. simpl. do 3 eexists. split; [reflexivity|].
    exact Hmode.
  - unfold gpupreagg_alloc_final_buffer. rewrite Hs.
    destruct Hcan as [[[[salt nrooms] extra] hs] ->]. simpl.
    destruct oom; simpl.
    + do 3 eexists. split; [reflexivity|]. exact Hmode.
    + rewrite lookup_app_r by lia. rewrite Nat.sub_diag. simpl.
      do 3 eexists. split; [reflexivity|]. exact Hmode.
Qed.

(** C3, as the code has it.  A task whose reduction mode is still undecided
    when it acquires the final buffer leaves [gpupreagg_get_final_buffer]
    with the mode the selector prescribes: the planned and the observed
    group counts blended with weight min(n, 30) / 30 on the observed one,
    n being the sum of the four per-strategy task counters, that is the
    number of reduction kernels launched so far; Local when the blend is
    below devBaselineMaxThreadsPerBlock / 4, else Global when it is below
    nitems_real / 4, else Final. *)
Theorem get_final_buffer_selects oom gpreagg w :
  kern_reduction_mode gpreagg = GPUPREAGG_INVALID_REDUCTION ->
  can_attach w ->
  exists r gpreagg' w',
    gpupreagg_get_final_buffer oom gpreagg w = Some (r, gpreagg', w')
    /\ let s := gpa_sstate w in
       kern_reduction_mode gpreagg'
       = select_reduction
           (blended_ngroups (plan_ngroups s) (exec_ngroups s)
              (blend_weight (n_tasks_launched s)))
           devBaselineMaxThreadsPerBlock (kern_nitems_real gpreagg).
Proof.
  intros Hmode Hcan.
  destruct (get_final_buffer_total oom gpreagg w Hcan)
    as (r & gpreagg' & w' & Hget & Hm).
  exists r, gpreagg', w'. split; [exact Hget|].
  rewrite Hm. destruct (decide _) as [_ | Hne]; [reflexivity | contradiction].
Qed.
End Selector.

(** C3 at a concrete attach: 30 kernels launched, 4000 groups observed
    against a plan of 5, a chunk of 10000 rows: Final. *)
Lemma get_final_buffer_selects_witness :
  let gpreagg := gpupreagg_create_task 1 10000 in
  let s := mk_sstate false 1 (Some 0%nat) 3 1 200 0 0
             0 10 10 10 0 100000 10000 5 4000 0 0 in
  let w := mk_world s [mk_pds 0 200 0] [(Pending, gpreagg)] [] [] [] in
  kern_reduction_mode gpreagg = GPUPREAGG_INVALID_REDUCTION
  /\ @can_attach test_platform w
  /\ exists r gpreagg' w',
       @gpupreagg_get_final_buffer test_platform false gpreagg w
       = Some (r, gpreagg', w')
       /\ kern_reduction_mode gpreagg' = GPUPREAGG_FINAL_REDUCTION.
Proof.
  intros gpreagg s w.
  split; [reflexivity|].
  assert (Hcan : @can_attach test_platform w) by (eexists; reflexivity).
  split; [exact Hcan|].
  destruct (@get_final_buffer_selects test_platform false gpreagg w
              eq_refl Hcan) as (r & gpreagg' & w' & Hget & Hmode).
  exists r, gpreagg', w'. split; [exact Hget|].
  rewrite Hmode. vm_compute. reflexivity.
Defined.

(** Every launch of a reduction kernel adds one to the sum of the
    counters. *)
Lemma count_reduction_kernel_launched m s s' :
  count_reduction_kernel m s = Some s' ->
  0 <= n_tasks_nogrp s -> 0 <= n_tasks_local s ->
  0 <= n_tasks_global s -> 0 <= n_tasks_final s ->
  n_tasks_nogrp s + n_tasks_local s + n_tasks_global s + n_tasks_final s + 1
    < 2 ^ 32 ->
  n_tasks_launched s' = n_tasks_launched s + 1.
Proof.
  intros Hcnt H1 H2 H3 H4 Hsmall. unfold n_tasks_launched.
  rewrite (wrap_cl_uint_small (n_tasks_nogrp s + _ + _ + _)) by lia.
  destruct m; simpl in Hcnt; simplify_eq; simpl;
    rewrite (wrap_cl_uint_small (_ + 1)) by lia;
    rewrite wrap_cl_uint_small by lia; lia.
Qed.

(** C3 as stated fails when kernels are in flight: in [c3_launches] no
    task has completed, both tasks are still running, and yet the second
    one is weighted 1/30 and becomes Local where weight 0, for no
    completed task, gives Global, as it did for the first one. *)
Lemma selector_counts_launched_tasks :
  (w ← @run test_platform 1 false c3_launches (initial_world c3_state);
   Some (map (fun entry => (entry.1, kern_reduction_mode entry.2)) (tasks w)))
  = Some [(Running, GPUPREAGG_GLOBAL_REDUCTION);
          (Running, GPUPREAGG_LOCAL_REDUCTION)]
  /\ select_reduction (blended_ngroups 260 0 (blend_weight 0)) 1024 10000
     = GPUPREAGG_GLOBAL_REDUCTION
  /\ select_reduction (blended_ngroups 260 0 (blend_weight 1)) 1024 10000
     = GPUPREAGG_LOCAL_REDUCTION.
Proof. repeat split; vm_compute; reflexivity. Qed.

(** ** Reduction modes along a run *)

Section Modes.
Context {P : Platform}.

Lemma put_final_buffer_mode t release force w r t' w' :
  gpupreagg_put_final_buffer t release force w = Some (r, t', w') ->
  kern_reduction_mode t' = kern_reduction_mode t /\ tasks w' = tasks w.
Proof.
  intros Hput. unfold gpupreagg_put_final_buffer in Hput.
  apply bind_Some in Hput as (g & _ & Hput).
  apply bind_Some in Hput as (b & _ & Hput).
  destruct (_ || _); [destruct release|]; simplify_eq; simpl;
    autorewrite with world; simpl; autorewrite with world; auto.
Qed.

Lemma put_and_push_mode t force w t' w' :
  put_and_push t force w = Some (t', w') ->
  kern_reduction_mode t' = kern_reduction_mode t /\ tasks_pushed w w'.
Proof.
  intros Hpp. unfold put_and_push in Hpp.
  apply bind_Some in Hpp as ([[r t1] w1] & Hput & Hpp).
  apply put_final_buffer_mode in Hput as [Hm Htk].
  destruct r; simplify_eq.
  - unfold gpupreagg_push_terminator_task in Hpp. simplify_eq. simpl.
    split; [exact Hm|]. eexists. right. simpl. by rewrite Htk.
  - split; [exact Hm|]. exists None. by left.
Qed.

Lemma alloc_final_buffer_tasks oom w r w' :
  gpupreagg_alloc_final_buffer oom w = Some (r, w') -> tasks w' = tasks w.
Proof.
  intros Halloc. unfold gpupreagg_alloc_final_buffer in Halloc.
  apply bind_Some in Halloc as ([[[salt nrooms] extra] hs] & _ & Halloc).
  destruct oom; by simplify_eq.
Qed.

Lemma get_final_buffer_mode oom t w r t' w' :
  gpupreagg_get_final_buffer oom t w = Some (r, t', w') ->
  kern_reduction_mode t'
  = (if decide (kern_reduction_mode t = GPUPREAGG_INVALID_REDUCTION)
     then decide_reduction_mode (gpa_sstate w) (kern_nitems_real t)
     else kern_reduction_mode t)
  /\ tasks w' = tasks w.
Proof.
  intros Hget. unfold gpupreagg_get_final_buffer in Hget.
  set (tw := if decide _ then _ else _) in Hget.
  assert (Hmode : kern_reduction_mode tw.1
       = if decide (kern_reduction_mode t = GPUPREAGG_INVALID_REDUCTION)
         then decide_reduction_mode (gpa_sstate w) (kern_nitems_real t)
         else kern_reduction_mode t)
    by (subst tw; destruct (decide _); reflexivity).
  assert (Htk : tasks tw.2 = tasks w)
    by (subst tw; destruct (decide _); simpl; autorewrite with world; auto).
  destruct tw as [t0 w0]. simpl in Hmode, Htk.
  apply bind_Some in Hget as ([rv w1] & Hattach & Hget).
  assert (Htk1 : tasks w1 = tasks w).
  { destruct (pds_final (gpa_sstate w0)).
    - by simplify_eq.
    - apply alloc_final_buffer_tasks in Hattach. congruence. }
  destruct rv.
  - apply bind_Some in Hget as (g1 & _ & Hget).
    apply bind_Some in Hget as (b1 & _ & Hget). by simplify_eq.
  - by simplify_eq.
Qed.

Lemma process_task_mode hnb o1 o2 t w rv t' w' :
  gpupreagg_process_task_try hnb o1 o2 t w = Some (rv, t', w') ->
  kern_reduction_mode t'
  = (if decide (kern_reduction_mode t = GPUPREAGG_INVALID_REDUCTION)
     then decide_reduction_mode (gpa_sstate w) (kern_nitems_real t)
     else kern_reduction_mode t)
  /\ tasks_pushed w w'.
Proof.
  intros Hproc. unfold gpupreagg_process_task_try in Hproc.
  destruct (decide (_ <> _)) as [Hne | Heq].
  - unfold gpupreagg_process_reduction_task in Hproc.
    apply bind_Some in Hproc as ([[att t1] w1] & Hget & Hproc).
    apply get_final_buffer_mode in Hget as [Hm Htk].
    destruct att; simpl in Hproc;
      [|simplify_eq; split; [exact Hm | exists None; by left]].
    destruct (negb (m_gpreagg t1) && o2).
    + apply bind_Some in Hproc as ([t2 w2] & Hpp & Hproc).
      apply put_and_push_mode in Hpp as [Hm2 (g & Hpush)]. simplify_eq.
      split; [simpl in Hm2; congruence|].
      exists g. autorewrite with world. rewrite <- Htk. exact Hpush.
    + set (tw := if negb _ then _ else _) in Hproc.
      assert (Hm2 : kern_reduction_mode tw.1 = kern_reduction_mode t1)
        by (subst tw; destruct (negb _); reflexivity).
      assert (Htk2 : tasks tw.2 = tasks w1)
        by (subst tw; destruct (negb _); simpl; autorewrite with world; auto).
      destruct tw as [t2 w2]. simpl in Hm2, Htk2.
      apply bind_Some in Hproc as (s' & _ & Hproc). simplify_eq.
      split; [congruence|]. exists None. left. simpl. congruence.
  - unfold gpupreagg_process_termination_task in Hproc.
    apply bind_Some in Hproc as (g1 & _ & Hproc).
    apply dec_stable in Heq.
    destruct (decide _) as [Hinv | _]; [congruence|].
    destruct (hnb && o2); simplify_eq.
    + split; [reflexivity | exists None; by left].
    + split; [by destruct hnb | exists None; by left].
Qed.

Lemma respond_task_mode status t w t' w' :
  gpupreagg_respond_task status t w = (t', w') ->
  kern_reduction_mode t' = kern_reduction_mode t /\ tasks w' = tasks w.
Proof.
  intros Hresp. unfold gpupreagg_respond_task in Hresp.
  destruct status; [by simplify_eq|].
  destruct (decide _); by simplify_eq.
Qed.

Lemma complete_task_mode t w rv t' w' :
  gpupreagg_complete_task t w = Some (rv, t', w') ->
  (kern_reduction_mode t' = kern_reduction_mode t
   \/ (kern_reduction_mode t' = GPUPREAGG_ONLY_TERMINATION
       /\ task_kerror t = StromError_Success)
   \/ (kern_reduction_mode t' = GPUPREAGG_INVALID_REDUCTION
       /\ task_kerror t = StromError_DataStoreNoSpace
       /\ kr_final_reduction_in_progress (kern_out t) = false
       /\ kern_reduction_mode t <> GPUPREAGG_NOGROUP_REDUCTION
       /\ kern_reduction_mode t <> GPUPREAGG_ONLY_TERMINATION))
  /\ tasks_pushed w w'.
Proof.
  intros Hc. unfold gpupreagg_complete_task in Hc.
  destruct (decide _).
  { apply bind_Some in Hc as (g1 & _ & Hc).
    apply bind_Some in Hc as (b1 & _ & Hc). simplify_eq.
    split; [by left|]. exists None. left. by autorewrite with world. }
  destruct (task_kerror t) eqn:Herr.
  - apply bind_Some in Hc as ([[r t1] w1] & Hput & Hc).
    apply put_final_buffer_mode in Hput as [Hm Htk].
    destruct r; simpl in Hc; simplify_eq.
    + split; [right; left; by split | exists None; by left].
    + split; [by left | exists None; by left].
  - destruct (kr_final_reduction_in_progress _).
    + apply bind_Some in Hc as ([[r t1] w1] & Hput & Hc).
      apply put_final_buffer_mode in Hput as [Hm Htk]. simplify_eq.
      split; [by left | exists None; by left].
    + apply bind_Some in Hc as ([t1 w1] & Hpp & Hc).
      apply put_and_push_mode in Hpp as [Hm Hpush]. simplify_eq.
      split; [by left | exact Hpush].
  - destruct (kr_final_reduction_in_progress _) eqn:Hfr.
    + apply bind_Some in Hc as ([t1 w1] & Hpp & Hc).
      apply put_and_push_mode in Hpp as [Hm Hpush]. simplify_eq.
      split; [by left | exact Hpush].
    + apply bind_Some in Hc as ([t1 w1] & Hpp & Hc).
      apply put_and_push_mode in Hpp as [Hm Hpush]. simpl in Hm.
      simpl in Hc. destruct (decide _) as [Hne | Heq]; simplify_eq.
      * split; [|exact Hpush]. right. right.
        split; [reflexivity|]. split; [reflexivity|]. split; [reflexivity|].
        split; congruence.
      * split; [by left | exact Hpush].
  - apply bind_Some in Hc as ([[r t1] w1] & Hput & Hc).
    apply put_final_buffer_mode in Hput as [Hm Htk]. simplify_eq.
    split; [by left | exists None; by left].
Qed.




End Modes.



(** After DataStoreNoSpace during final reduction the mode is not reset:
    the retried task attaches with its decided mode, which is then left
    alone, and the assertion of the [else] branch of
    [gpupreagg_get_final_buffer], [reduction_mode == NOGROUP], is false. *)
Lemma retry_after_final_nospace_keeps_mode :
  (w ← @run test_platform 1 false c8_retry_final (initial_world c8_state);
   m ← mode_of 0 w; Some (m, assert_failures w))
  = Some (GPUPREAGG_LOCAL_REDUCTION, [Assert_reduction_mode_is_nogroup]).
Proof. vm_compute. reflexivity. Qed.

(** ** Termination is not exactly-once *)

(** C1, evaluated on [c1_lost].  The run ends with every task returned or
    dropped and the scan done; generation 0 was finalized once, generation
    1, on which the retried task succeeded, never, and nothing released
    it.  On the way [Assert(gpa_sstate->ntasks_in_progress > 0)] was
    false: the retried task is counted out of [ntasks_in_progress] twice
    and counted in once. *)
Theorem terminator_lost_after_retry :
  exists w,
    @run test_platform 0 false c1_lost (initial_world c1_state) = Some w
    /\ quiescent w = true
    /\ scan_done (gpa_sstate w) = true
    /\ length (final_buffers w) = 2%nat
    /\ finalize_count 0 w = 1%nat
    /\ finalize_count 1 w = 0%nat
    /\ released w = []
    /\ assert_failures w = [Assert_ntasks_in_progress_positive].
Proof. eexists. split; [vm_compute; reflexivity|]. by vm_compute. Qed.

(** On [c1_twice] the same miscount finalizes generation 0 twice, and
    generation 1 not at all. *)
Lemma terminator_twice_after_retry :
  exists w,
    @run test_platform 0 false c1_twice (initial_world c1_state) = Some w
    /\ quiescent w = true
    /\ finalize_count 0 w = 2%nat
    /\ finalize_count 1 w = 0%nat
    /\ assert_failures w = [Assert_terminator_ntasks_running_zero;
                            Assert_ntasks_in_progress_positive].
Proof. eexists. split; [vm_compute; reflexivity|]. by vm_compute. Qed.

(** C5, evaluated on [c5_answer ++ c5_rest].  When its kernel answers
    CpuReCheck before final reduction began, the retried task is the only
    holder of generation 1, which is the current one, and the scan is
    done.  Its completion hands it back as a CPU-fallback task with the
    error cleared, but pushes no terminator: [ntasks_in_progress] was
    already 0, so [Assert(gpa_sstate->ntasks_in_progress > 0)] is false and
    the counter wraps instead of reaching 0.  The run ends with every task
    returned, generation 0 finalized by the clone pushed at the retry, and
    generation 1 never finalized nor released. *)
Theorem cpu_fallback_after_retry_pushes_no_terminator :
  exists w0 gpreagg b w,
    @run test_platform 1 false c5_answer (initial_world c5_state) = Some w0
    /\ tasks w0 !! 0%nat = Some (Responded, gpreagg)
    /\ task_kerror gpreagg = StromError_CpuReCheck
    /\ kr_final_reduction_in_progress (kern_out gpreagg) = false
    /\ task_pds_final gpreagg = Some 1%nat
    /\ final_buffers w0 !! 1%nat = Some b
    /\ ntasks_running b = 1
    /\ pds_final (gpa_sstate w0) = Some 1%nat
    /\ scan_done (gpa_sstate w0) = true
    /\ ntasks_in_progress (gpa_sstate w0) = 0
    /\ (w1 ← @step test_platform 1 false (EvComplete 0) w0;
        entry ← tasks w1 !! 0%nat;
        Some (entry.1, task_cpu_fallback entry.2, task_kerror entry.2,
              length (tasks w1), terminator_queued 1 w1,
              ntasks_in_progress (gpa_sstate w1)))
       = Some (Returned, true, StromError_Success, 2%nat, false,
               4294967295)
    /\ @run test_platform 1 false c5_rest w0 = Some w
    /\ quiescent w = true
    /\ length (final_buffers w) = 2%nat
    /\ finalize_count 0 w = 1%nat
    /\ finalize_count 1 w = 0%nat
    /\ released w = []
    /\ assert_failures w = [Assert_reduction_mode_is_nogroup;
                            Assert_ntasks_in_progress_positive].
Proof.
  do 4 eexists. repeat (split; [vm_compute; reflexivity|]).
  vm_compute. reflexivity.
Qed.

(** ** The sizing heuristic *)

Section SizingProps.
Context {P : Platform}.

(** C6, as the code has it.  Below 1000 observed rows the estimate is the
    planned group count.  From 1000 rows on it is A * ln(r) truncated to
    an integer, with A = exec_ngroups / ln(exec_nrows_in) and r the
    planned row count when exec_nrows_in < plan_nrows_in / 2 (integer
    quotient) and twice the observed row count otherwise.  That r is
    max(plan_nrows_in, 2 * exec_nrows_in) except when plan_nrows_in is odd
    and exec_nrows_in = (plan_nrows_in - 1) / 2, where it is
    plan_nrows_in - 1. *)
Theorem adjust_curr_ngroups_spec s :
  0 <= exec_nrows_in s < 2 ^ 63 ->
  0 <= plan_nrows_in s ->
  (exec_nrows_in s < 1000 -> adjust_curr_ngroups s = plan_ngroups s)
  /\ (1000 <= exec_nrows_in s ->
      adjust_curr_ngroups s
      = size_t_of_double
          (double_of_Z (exec_ngroups s) / log (double_of_Z (exec_nrows_in s))
           * log (double_of_Z (adjust_curr_nrows_in s)))%float)
  /\ adjust_curr_nrows_in s
     = (if exec_nrows_in s <? plan_nrows_in s / 2
        then plan_nrows_in s else 2 * exec_nrows_in s)
  /\ (2 * exec_nrows_in s <> plan_nrows_in s - 1 ->
      adjust_curr_nrows_in s = projected_rows_claimed s)
  /\ (2 * exec_nrows_in s = plan_nrows_in s - 1 ->
      adjust_curr_nrows_in s = plan_nrows_in s - 1).
Proof.
  intros Hexec Hplan.
  assert (Hrows : adjust_curr_nrows_in s
                  = if exec_nrows_in s <? plan_nrows_in s / 2
                    then plan_nrows_in s else 2 * exec_nrows_in s).
  { unfold adjust_curr_nrows_in. destruct (_ <? _); [reflexivity|].
    apply wrap_size_t_small. lia. }
  split; [|split; [|split; [exact Hrows|split]]].
  - intros Hlt. unfold adjust_curr_ngroups.
    by rewrite (proj2 (Z.ltb_lt _ _) Hlt).
  - intros Hge. unfold adjust_curr_ngroups.
    by rewrite (proj2 (Z.ltb_ge _ _) Hge).
  - intros Hne. rewrite Hrows. unfold projected_rows_claimed.
    destruct (Z.ltb_spec (exec_nrows_in s) (plan_nrows_in s / 2)) as [Hlt | Hge].
    + pose proof (Z.mul_div_le (plan_nrows_in s) 2). lia.
    + pose proof (Z.mul_succ_div_gt (plan_nrows_in s) 2). lia.
  - intros Heq. rewrite Hrows.
    destruct (Z.ltb_spec (exec_nrows_in s) (plan_nrows_in s / 2)) as [Hlt | Hge].
    + pose proof (Z.mul_div_le (plan_nrows_in s) 2). lia.
    + exact Heq.
Qed.

(** C10.  When the group estimate is below
    devBaselineMaxThreadsPerBlock / 5, the salt is
    devBaselineMaxThreadsPerBlock / (5 * estimate), raised to 1, and the
    division is the only guard-free step: it yields a value exactly when
    the estimate is at least one, and a zero estimate makes the whole
    sizing trap.  The estimate is the planned group count whenever fewer
    than 1000 rows were observed. *)
Theorem key_dist_salt_division_safe s :
  0 <= adjust_curr_ngroups s < devBaselineMaxThreadsPerBlock / 5 ->
  devBaselineMaxThreadsPerBlock < 2 ^ 31 ->
  (is_Some (adjust_key_dist_salt (adjust_curr_ngroups s))
   <-> 1 <= adjust_curr_ngroups s)
  /\ (1 <= adjust_curr_ngroups s ->
      adjust_key_dist_salt (adjust_curr_ngroups s)
      = Some (Max (devBaselineMaxThreadsPerBlock
                   / (5 * adjust_curr_ngroups s)) 1))
  /\ (adjust_curr_ngroups s = 0 -> adjust_final_buffer_size s = None)
  /\ (exec_nrows_in s < 1000 -> adjust_curr_ngroups s = plan_ngroups s).
Proof.
  intros [Hlo Hhi] Hdev.
  set (est := adjust_curr_ngroups s) in *.
  assert (Hdev5 : 5 * (devBaselineMaxThreadsPerBlock / 5)
                  <= devBaselineMaxThreadsPerBlock)
    by (apply Z.mul_div_le; lia).
  assert (Hsalt : adjust_key_dist_salt est
                  = if est =? 0 then None
                    else Some (Max (devBaselineMaxThreadsPerBlock / (5 * est)) 1)).
  { unfold adjust_key_dist_salt. rewrite (proj2 (Z.ltb_lt _ _) Hhi).
    rewrite wrap_size_t_small by lia. unfold udiv.
    destruct (Z.eqb_spec est 0) as [-> | Hne]; [reflexivity|].
    by rewrite (proj2 (Z.eqb_neq (5 * est) 0)) by lia. }
  split; [|split; [|split]].
  - rewrite Hsalt. destruct (Z.eqb_spec est 0) as [Heq | Hne].
    + split; [intros [x Hx]; discriminate | lia].
    + split; [lia | by eexists].
  - intros Hge. rewrite Hsalt.
    by rewrite (proj2 (Z.eqb_neq est 0)) by lia.
  - intros Hz. unfold adjust_final_buffer_size. fold est.
    rewrite Hsalt, Hz. reflexivity.
  - intros Hlt. subst est. unfold adjust_curr_ngroups.
    by rewrite (proj2 (Z.ltb_lt _ _) Hlt).
Qed.

Lemma adjust_expand_nrooms_spec head_sz unit_sz nrooms :
  0 <= head_sz <= pgstrom_chunk_size ->
  2 <= unit_sz ->
  3 * pgstrom_chunk_size < 2 ^ 64 ->
  0 <= nrooms ->
  head_sz + unit_sz * nrooms < 2 ^ 64 ->
  exists n,
    adjust_expand_nrooms head_sz unit_sz nrooms = Some n
    /\ n = (let length := head_sz + unit_sz * nrooms in
            if length <? pgstrom_chunk_size / 2
            then (pgstrom_chunk_size - head_sz) / unit_sz
            else if length <? pgstrom_chunk_size
            then (2 * pgstrom_chunk_size - head_sz) / unit_sz
            else if length <? 3 * pgstrom_chunk_size
            then (3 * pgstrom_chunk_size - head_sz) / unit_sz
            else nrooms)
    /\ nrooms <= n
    /\ (pgstrom_chunk_size - head_sz) / unit_sz <= n
    /\ 0 <= 2 * n < 2 ^ 64.
Proof.
  intros Hhead Hunit Hchunk Hn Hlen.
  set (c := pgstrom_chunk_size) in *.
  assert (Hhalf : 2 * (c / 2) <= c) by (apply Z.mul_div_le; lia).
  assert (Hmono : forall a b, a <= b -> a / unit_sz <= b / unit_sz)
    by (intros a b Hab; apply Z.div_le_mono; lia).
  assert (Hlow : forall a, head_sz + unit_sz * nrooms <= a ->
                           nrooms <= (a - head_sz) / unit_sz)
    by (intros a Ha; apply Z.div_le_lower_bound; lia).
  assert (Hup : forall a, 0 <= a <= 3 * c -> 0 <= 2 * (a / unit_sz) < 2 ^ 64).
  { intros a Ha. split; [apply Z.mul_nonneg_nonneg; [lia|];
                          apply Z.div_pos; lia|].
    assert (a / unit_sz <= a / 2)
      by (apply Z.div_le_compat_l; lia).
    pose proof (Z.mul_div_le a 2). lia. }
  unfold adjust_expand_nrooms, adjust_length, udiv. cbv zeta.
  fold c. rewrite (wrap_size_t_small (head_sz + _)) by lia.
  rewrite (wrap_size_t_small (3 * c)) by lia.
  rewrite (proj2 (Z.eqb_neq unit_sz 0)) by lia.
  rewrite !wrap_size_t_small by lia.
  destruct (Z.ltb_spec (head_sz + unit_sz * nrooms) (c / 2)) as [H1 | H1].
  { eexists. split; [reflexivity|]. split; [reflexivity|].
    split; [apply Hlow; lia|]. split; [lia | apply Hup; lia]. }
  destruct (Z.ltb_spec (head_sz + unit_sz * nrooms) c) as [H2 | H2].
  { eexists. split; [reflexivity|]. split; [reflexivity|].
    split; [apply Hlow; lia|]. split; [apply Hmono; lia | apply Hup; lia]. }
  destruct (Z.ltb_spec (head_sz + unit_sz * nrooms) (3 * c)) as [H3 | H3].
  { eexists. split; [reflexivity|]. split; [reflexivity|].
    split; [apply Hlow; lia|]. split; [apply Hmono; lia | apply Hup; lia]. }
  eexists. split; [reflexivity|]. split; [reflexivity|].
  split; [lia|]. split; [apply Z.div_le_upper_bound; lia | nia].
Qed.

(** C7, as the code has it.  With the naive capacity
    (double)(groups * salt) * 2.5 + 200 and the naive footprint
    head + unit * capacity: below half a chunk the capacity becomes what
    fits one chunk, from half a chunk to below one chunk what fits two,
    from one chunk to below three chunks what fits three, and from three
    chunks on it is kept as it is.  The capacity never shrinks, is never
    below what fits a single chunk, and the hash-slot count is exactly
    twice the capacity. *)
Theorem adjust_final_buffer_size_expands s salt :
  let head_sz := adjust_head_sz s in
  let unit_sz := adjust_unit_sz s (adjust_f_extra_sz s) in
  let naive := adjust_naive_nrooms (adjust_curr_ngroups s) salt in
  adjust_key_dist_salt (adjust_curr_ngroups s) = Some salt ->
  0 <= head_sz <= pgstrom_chunk_size ->
  2 <= unit_sz ->
  3 * pgstrom_chunk_size < 2 ^ 64 ->
  head_sz + unit_sz * naive < 2 ^ 64 ->
  exists nrooms,
    adjust_final_buffer_size s
    = Some (salt, nrooms, adjust_f_extra_sz s, 2 * nrooms)
    /\ nrooms = (let length := head_sz + unit_sz * naive in
                 if length <? pgstrom_chunk_size / 2
                 then (pgstrom_chunk_size - head_sz) / unit_sz
                 else if length <? pgstrom_chunk_size
                 then (2 * pgstrom_chunk_size - head_sz) / unit_sz
                 else if length <? 3 * pgstrom_chunk_size
                 then (3 * pgstrom_chunk_size - head_sz) / unit_sz
                 else naive)
    /\ naive <= nrooms
    /\ (pgstrom_chunk_size - head_sz) / unit_sz <= nrooms.
Proof.
  intros head_sz unit_sz naive Hsalt Hhead Hunit Hchunk Hlen.
  assert (Hnaive : 0 <= naive)
    by (subst naive; unfold adjust_naive_nrooms;
        apply size_t_of_double_range).
  destruct (adjust_expand_nrooms_spec head_sz unit_sz naive
              Hhead Hunit Hchunk Hnaive Hlen)
    as (n & Hexp & Hn & Hge & Hone & Htwice).
  exists n. unfold adjust_final_buffer_size. rewrite Hsalt. simpl.
  fold head_sz unit_sz naive. rewrite Hexp. simpl.
  rewrite (wrap_size_t_small (2 * n)) by exact Htwice. auto.
Qed.
End SizingProps.

(** C6 at the odd boundary: 2001 rows planned, 1000 seen. *)
Lemma adjust_curr_ngroups_spec_witness :
  0 <= exec_nrows_in c6_state < 2 ^ 63
  /\ 0 <= plan_nrows_in c6_state
  /\ @adjust_curr_nrows_in c6_state = plan_nrows_in c6_state - 1.
Proof.
  assert (H1 : 0 <= exec_nrows_in c6_state < 2 ^ 63) by by_computation.
  assert (H2 : 0 <= plan_nrows_in c6_state) by by_computation.
  split; [exact H1|]. split; [exact H2|].
  apply (@adjust_curr_ngroups_spec test_platform c6_state H1 H2).
  reflexivity.
Defined.

(** C6 as stated fails at that boundary: the model is evaluated at 2000
    rows where the maximum is 2001, and the estimate is 284 where
    evaluation at the maximum gives 285. *)
Lemma adjust_curr_ngroups_not_max :
  adjust_curr_nrows_in c6_state = 2000
  /\ projected_rows_claimed c6_state = 2001
  /\ @adjust_curr_ngroups test_platform c6_state = 284
  /\ @claimed_curr_ngroups test_platform c6_state = 285.
Proof. repeat split; vm_compute; reflexivity. Qed.

(** C10 on a device of 1024 threads per block with 5 groups planned. *)
Lemma key_dist_salt_division_safe_witness :
  let s := create_gpupreagg_shared_state 3 10 100000 5 0 in
  0 <= @adjust_curr_ngroups test_platform s
       < @devBaselineMaxThreadsPerBlock test_platform / 5
  /\ @devBaselineMaxThreadsPerBlock test_platform < 2 ^ 31
  /\ @adjust_key_dist_salt test_platform (@adjust_curr_ngroups test_platform s)
     = Some 40.
Proof.
  intros s.
  assert (H1 : 0 <= @adjust_curr_ngroups test_platform s
                    < @devBaselineMaxThreadsPerBlock test_platform / 5)
    by (vm_compute; split; [discriminate | reflexivity]).
  assert (H2 : @devBaselineMaxThreadsPerBlock test_platform < 2 ^ 31)
    by reflexivity.
  split; [exact H1|]. split; [exact H2|].
  destruct (@key_dist_salt_division_safe test_platform s H1 H2)
    as (_ & Hsalt & _).
  rewrite Hsalt; [reflexivity | vm_compute; discriminate].
Defined.

(** C7 with 5 groups planned: the footprint is far below half a chunk and
    the capacity becomes what fits one chunk. *)
Lemma adjust_final_buffer_size_expands_witness :
  let s := create_gpupreagg_shared_state 3 10 100000 5 0 in
  @adjust_key_dist_salt test_platform (@adjust_curr_ngroups test_platform s)
  = Some 40
  /\ 0 <= @adjust_head_sz test_platform s
       <= @pgstrom_chunk_size test_platform
  /\ 2 <= @adjust_unit_sz test_platform s (@adjust_f_extra_sz s)
  /\ 3 * @pgstrom_chunk_size test_platform < 2 ^ 64
  /\ @adjust_head_sz test_platform s
     + @adjust_unit_sz test_platform s (@adjust_f_extra_sz s)
       * @adjust_naive_nrooms (@adjust_curr_ngroups test_platform s) 40
     < 2 ^ 64
  /\ exists nrooms,
       @adjust_final_buffer_size test_platform s
       = Some (40, nrooms, @adjust_f_extra_sz s, 2 * nrooms)
       /\ (@pgstrom_chunk_size test_platform - @adjust_head_sz test_platform s)
          / @adjust_unit_sz test_platform s (@adjust_f_extra_sz s) <= nrooms.
Proof.
  intros s.
  assert (H1 : @adjust_key_dist_salt test_platform
                 (@adjust_curr_ngroups test_platform s) = Some 40)
    by reflexivity.
  assert (H2 : 0 <= @adjust_head_sz test_platform s
                 <= @pgstrom_chunk_size test_platform)
    by (vm_compute; split; discriminate).
  assert (H3 : 2 <= @adjust_unit_sz test_platform s (@adjust_f_extra_sz s))
    by (vm_compute; discriminate).
  assert (H4 : 3 * @pgstrom_chunk_size test_platform < 2 ^ 64)
    by reflexivity.
  assert (H5 : @adjust_head_sz test_platform s
               + @adjust_unit_sz test_platform s (@adjust_f_extra_sz s)
                 * @adjust_naive_nrooms
                     (@adjust_curr_ngroups test_platform s) 40
               < 2 ^ 64)
    by (vm_compute; reflexivity).
  do 5 (split; [assumption|]).
  destruct (@adjust_final_buffer_size_expands test_platform s 40
              H1 H2 H3 H4 H5) as (nrooms & Hsize & _ & _ & Hone).
  exists nrooms. split; [exact Hsize | exact Hone].
Defined.

(** C7 as stated fails for a large estimate: with ten million groups
    planned the footprint is 800006512 bytes, nearly twelve chunks, the
    capacity is returned as computed, and neither is it the capacity of a
    whole number of chunks nor is the footprint a multiple of the chunk
    size. *)
Lemma adjust_final_buffer_size_not_rounded :
  @adjust_final_buffer_size test_platform c7_state
  = Some (1, 25000200, 0, 50000400)
  /\ @adjust_head_sz test_platform c7_state = 112
  /\ @adjust_unit_sz test_platform c7_state 0 = 32
  /\ ~ @fills_whole_units test_platform 112 32 25000200
  /\ (112 + 32 * 25000200) mod @pgstrom_chunk_size test_platform <> 0.
Proof.
  split; [vm_compute; reflexivity|].
  split; [reflexivity|]. split; [reflexivity|].
  split; [|vm_compute; discriminate].
  intros (k & Hk & Heq).
  change (@pgstrom_chunk_size test_platform) with 67106816 in Heq.
  pose proof (Z.mul_div_le (k * 67106816 - 112) 32).
  pose proof (Z.mul_succ_div_gt (k * 67106816 - 112) 32).
  lia.
Qed.

(** ** The Reduction line *)

Section ExplainProps.
Context {P : Platform}.

(** C9, as the code has it.  Once tasks ran (and the counters are small
    enough for 100 * total to fit 32 bits), the Reduction line lists the
    strategies whose counter is not zero, separated by ", ".  When at
    least two strategies ran, NoGroup, Local and Global are each followed
    by " (p%)", p being 100 * its own counter divided by the total and
    printed with one decimal, and Final is followed by some text; when
    only one strategy ran, its name is printed alone. *)
Theorem ExplainGpuPreAgg_policy_shares num_group_keys s :
  let total := n_tasks_nogrp s + n_tasks_local s
               + n_tasks_global s + n_tasks_final s in
  0 <= n_tasks_nogrp s -> 0 <= n_tasks_local s ->
  0 <= n_tasks_global s -> 0 <= n_tasks_final s ->
  0 < total -> 100 * total < 2 ^ 32 ->
  if with_percentage s then
    exists final_text,
      ExplainGpuPreAgg_policy num_group_keys s
      = String.concat ", "
          (explain_entries s
             (share_text (n_tasks_nogrp s) total)
             (share_text (n_tasks_local s) total)
             (share_text (n_tasks_global s) total)
             final_text)
  else
    ExplainGpuPreAgg_policy num_group_keys s
    = String.concat ", " (explain_entries s "" "" "" "").
Proof.
  intros total H1 H2 H3 H4 Htot Hsmall.
  unfold ExplainGpuPreAgg_policy. fold total.
  rewrite (wrap_cl_uint_small total) by lia.
  rewrite (proj2 (Z.eqb_neq total 0)) by lia.
  rewrite !wrap_cl_uint_small by lia.
  unfold explain_entries, share_text.
  destruct (with_percentage s) eqn:Hwp.
  - exists (" (" ++ snprintf_1f (double_of_Z (100 * n_tasks_global s)
                                 / double_of_Z total)%float ++ "%)")%string.
    unfold with_percentage in Hwp.
    destruct (0 <? n_tasks_nogrp s), (0 <? n_tasks_local s),
      (0 <? n_tasks_global s), (0 <? n_tasks_final s);
      try discriminate Hwp; cbn;
      rewrite ?append_assoc; cbn; rewrite ?append_assoc; cbn;
      reflexivity.
  - unfold with_percentage in Hwp.
    destruct (Z.ltb_spec 0 (n_tasks_nogrp s)),
      (Z.ltb_spec 0 (n_tasks_local s)),
      (Z.ltb_spec 0 (n_tasks_global s)),
      (Z.ltb_spec 0 (n_tasks_final s));
      try discriminate Hwp; reflexivity.
Qed.
End ExplainProps.

(** C9 where one Global and three Final tasks ran. *)
Lemma ExplainGpuPreAgg_policy_shares_witness :
  let s := c9_state_final in
  0 <= n_tasks_nogrp s /\ 0 <= n_tasks_local s
  /\ 0 <= n_tasks_global s /\ 0 <= n_tasks_final s
  /\ 0 < 0 + 0 + 1 + 3 /\ 100 * (0 + 0 + 1 + 3) < 2 ^ 32
  /\ exists final_text,
       @ExplainGpuPreAgg_policy test_platform 1 s
       = String.concat ", "
           ["Global" ++ @share_text test_platform 1 4;
            "Final" ++ final_text]%string.
Proof.
  intros s.
  assert (H1 : 0 <= n_tasks_nogrp s) by by_computation.
  assert (H2 : 0 <= n_tasks_local s) by by_computation.
  assert (H3 : 0 <= n_tasks_global s) by by_computation.
  assert (H4 : 0 <= n_tasks_final s) by by_computation.
  assert (H5 : 0 < n_tasks_nogrp s + n_tasks_local s
                   + n_tasks_global s + n_tasks_final s) by by_computation.
  assert (H6 : 100 * (n_tasks_nogrp s + n_tasks_local s
                      + n_tasks_global s + n_tasks_final s) < 2 ^ 32)
    by by_computation.
  do 4 (split; [assumption|]). split; [lia|]. split; [lia|].
  exact (@ExplainGpuPreAgg_policy_shares test_platform 1 s
           H1 H2 H3 H4 H5 H6).
Defined.

(** C9 as stated fails when a single strategy ran: with three Local tasks
    the line is "Local", and the share of Local, 100.0%, is not in it. *)
Lemma ExplainGpuPreAgg_policy_no_share :
  @ExplainGpuPreAgg_policy test_platform 1 c9_state = "Local"%string
  /\ @share_text test_platform 3 3 = " (100.0%)"%string
  /\ reports (@ExplainGpuPreAgg_policy test_platform 1 c9_state)
       "Local" (@share_text test_platform 3 3) = false.
Proof. repeat split; vm_compute; reflexivity. Qed.

(** The text after "Final" is the share of Global: with one Global and
    three Final tasks both are printed as 25.0%. *)
Lemma ExplainGpuPreAgg_policy_final_share :
  @ExplainGpuPreAgg_policy test_platform 1 c9_state_final
  = "Global (25.0%), Final (25.0%)"%string
  /\ @share_text test_platform 3 4 = " (75.0%)"%string.
Proof. split; vm_compute; reflexivity. Qed.

(** ** Reference counting of the final buffers along every run *)

Lemma holders_app g ts l : holders g (ts ++ l) = (holders g ts + holders g l)%nat.
Proof. unfold holders. by rewrite filter_app, length_app. Qed.

Lemma holders_insert g ts tid old new :
  ts !! tid = Some old ->
  (holders g (<[tid := new]> ts) + (if decide (attached_to g old) then 1 else 0)
   = holders g ts + (if decide (attached_to g new) then 1 else 0))%nat.
Proof.
  unfold holders. revert tid. induction ts as [|x ts IH]; intros tid Hl.
  - discriminate.
  - destruct tid as [|tid]; simpl in *.
    + simplify_eq. rewrite !filter_cons.
      destruct (decide (attached_to g old)), (decide (attached_to g new));
        simpl; lia.
    + specialize (IH tid Hl). rewrite !filter_cons.
      destruct (decide (attached_to g x)); simpl; lia.
Qed.

Lemma holders_none g ts nbuf :
  Forall (task_wf nbuf) ts -> (nbuf <= g)%nat -> holders g ts = 0%nat.
Proof.
  intros Hwf Hge. unfold holders.
  induction Hwf as [|x ts Hx _ IH]; [reflexivity|].
  rewrite filter_cons. destruct (decide (attached_to g x)) as [[Hp Hm]|]; [|exact IH].
  exfalso. unfold task_wf in Hx.
  destruct (decide _); [contradiction|].
  destruct x.1; try (destruct Hx as (g' & Hg' & Hlt); simplify_eq; lia);
    congruence.
Qed.

Lemma task_wf_mono nbuf nbuf' entry :
  (nbuf <= nbuf')%nat -> task_wf nbuf entry -> task_wf nbuf' entry.
Proof.
  intros Hle. unfold task_wf. destruct (decide _).
  - intros (g & Hg & Hlt). exists g. split; [exact Hg | lia].
  - destruct entry.1; try done; intros (g & Hg & Hlt); exists g;
      (split; [exact Hg | lia]).
Qed.

Lemma wrap_cl_uint_succ_pred x : wrap_cl_uint (wrap_cl_uint (x + 1) - 1) = wrap_cl_uint x.
Proof.
  unfold wrap_cl_uint. rewrite Zminus_mod_idemp_l. f_equal. lia.
Qed.

Lemma wrap_cl_uint_succ x : wrap_cl_uint (wrap_cl_uint x + 1) = wrap_cl_uint (x + 1).
Proof. unfold wrap_cl_uint. by rewrite Zplus_mod_idemp_l. Qed.

Lemma wrap_cl_uint_pred x : wrap_cl_uint (wrap_cl_uint x - 1) = wrap_cl_uint (x - 1).
Proof. unfold wrap_cl_uint. by rewrite Zminus_mod_idemp_l. Qed.

Lemma buffers_effect_refl bs : buffers_effect bs bs (length bs) 0.
Proof.
  split; [lia|]. intros g' b' Hl. split.
  - intros _. by exists b'.
  - intros ->. apply lookup_lt_Some in Hl. lia.
Qed.

Lemma buffers_effect_insert bs g b d :
  bs !! g = Some b ->
  buffers_effect bs
    (<[g := with_ntasks_running (wrap_cl_uint (ntasks_running b + d)) b]> bs)
    g d.
Proof.
  intros Hb. split; [by rewrite length_insert|].
  intros g' b' Hl. split.
  - intros Hne. rewrite list_lookup_insert_ne in Hl by done. by exists b'.
  - intros ->. rewrite list_lookup_insert_eq in Hl
      by (eapply lookup_lt_Some; eassumption).
    simplify_eq. simpl. unfold running_at. by rewrite Hb.
Qed.

Section BufferEffects.
Context {P : Platform}.

Lemma decide_reduction_mode_not_terminator s n :
  decide_reduction_mode s n <> GPUPREAGG_ONLY_TERMINATION
  /\ decide_reduction_mode s n <> GPUPREAGG_INVALID_REDUCTION
  /\ decide_reduction_mode s n <> GPUPREAGG_NOGROUP_REDUCTION.
Proof.
  unfold decide_reduction_mode.
  destruct (PrimFloat.ltb _ _); [done|]. by destruct (PrimFloat.ltb _ _).
Qed.

Lemma get_final_buffer_effect oom t w r t' w' :
  (forall g, pds_final (gpa_sstate w) = Some g ->
             (g < length (final_buffers w))%nat) ->
  gpupreagg_get_final_buffer oom t w = Some (r, t', w') ->
  tasks w' = tasks w
  /\ ntasks_in_progress (gpa_sstate w') = ntasks_in_progress (gpa_sstate w)
  /\ scan_done (gpa_sstate w') = scan_done (gpa_sstate w)
  /\ finalized w' = finalized w
  /\ m_gpreagg t' = m_gpreagg t
  /\ retry_by_nospace t' = retry_by_nospace t
  /\ (forall g, pds_final (gpa_sstate w') = Some g ->
                (g < length (final_buffers w'))%nat)
  /\ if r
     then exists g, task_pds_final t' = Some g
                    /\ pds_final (gpa_sstate w') = Some g
                    /\ (g < length (final_buffers w'))%nat
                    /\ buffers_effect (final_buffers w) (final_buffers w') g 1
     else task_pds_final t' = task_pds_final t
          /\ final_buffers w' = final_buffers w
          /\ pds_final (gpa_sstate w') = pds_final (gpa_sstate w).
Proof.
  intros Hcur Hget. unfold gpupreagg_get_final_buffer in Hget.
  set (tw := if decide _ then _ else _) in Hget.
  assert (Hs : gpa_sstate tw.2 = gpa_sstate w)
    by (subst tw; destruct (decide _); simpl; autorewrite with world; auto).
  assert (Hfb : final_buffers tw.2 = final_buffers w)
    by (subst tw; destruct (decide _); simpl; autorewrite with world; auto).
  assert (Htk : tasks tw.2 = tasks w)
    by (subst tw; destruct (decide _); simpl; autorewrite with world; auto).
  assert (Hfin : finalized tw.2 = finalized w)
    by (subst tw; destruct (decide _); simpl; autorewrite with world; auto).
  assert (Hpds : task_pds_final tw.1 = task_pds_final t)
    by (subst tw; destruct (decide _); reflexivity).
  assert (Hmg : m_gpreagg tw.1 = m_gpreagg t)
    by (subst tw; destruct (decide _); reflexivity).
  assert (Hrb : retry_by_nospace tw.1 = retry_by_nospace t)
    by (subst tw; destruct (decide _); reflexivity).
  destruct tw as [t0 w0]. simpl in *.
  apply bind_Some in Hget as ([rv w1] & Hattach & Hget).
  destruct (pds_final (gpa_sstate w0)) as [g|] eqn:Hcur0.
  - (* a current buffer exists *)
    simplify_eq. simpl in Hget. rewrite Hcur0 in Hget. simpl in Hget.
    apply bind_Some in Hget as (b & Hb & Hget). simplify_eq. simpl.
    rewrite Hs in Hcur0. rewrite Hfb in Hb.
    repeat split; try done; try (by rewrite Hs).
    + intros g0 Hg0. rewrite length_insert, Hfb. apply Hcur. by rewrite <- Hs.
    + exists g. split; [reflexivity|]. split; [by rewrite Hs|].
      split; [rewrite length_insert, Hfb; by apply Hcur|].
      rewrite Hfb. by apply buffers_effect_insert.
  - (* a new buffer is allocated *)
    unfold gpupreagg_alloc_final_buffer in Hattach.
    apply bind_Some in Hattach as ([[[salt nrooms] extra] hs] & _ & Hattach).
    destruct oom; simplify_eq.
    + repeat split; try done; try (by rewrite Hs).
      intros g0 Hg0. rewrite Hfb. apply Hcur. by rewrite <- Hs.
    + simpl in Hget. rewrite lookup_app_r in Hget by lia.
      rewrite Nat.sub_diag in Hget. simpl in Hget. simplify_eq. simpl.
      rewrite Hfb.
      repeat split; try done; try (by rewrite Hs).
      * intros g0 [= <-]. rewrite length_insert, length_app. simpl. lia.
      * exists (length (final_buffers w)). split; [reflexivity|].
        split; [reflexivity|].
        split; [rewrite length_insert, length_app; simpl; lia|].
        split; [rewrite length_insert, length_app; lia|].
        intros g' b' Hl. split.
        -- intros Hne. rewrite list_lookup_insert_ne in Hl by done.
           apply lookup_app_Some in Hl as [Hl | [Hge Hl]]; [by exists b'|].
           apply list_lookup_singleton_Some in Hl as [Hz _]. lia.
        -- intros ->. rewrite list_lookup_insert_eq in Hl
             by (rewrite length_app; simpl; lia).
           simplify_eq. simpl. unfold running_at.
           by rewrite lookup_ge_None_2 by lia.
Qed.
End BufferEffects.

Lemma pushed_wf_task_wf nbuf entry : pushed_wf nbuf entry -> task_wf nbuf entry.
Proof.
  intros [Hm Hg]. unfold task_wf. by destruct (decide _).
Qed.

Lemma pushed_not_attached g nbuf l :
  Forall (pushed_wf nbuf) l -> holders g l = 0%nat.
Proof.
  intros Hl. unfold holders. induction Hl as [|x l [Hm _] _ IH]; [reflexivity|].
  rewrite filter_cons. destruct (decide (attached_to g x)) as [[_ Hne]|];
    [contradiction | exact IH].
Qed.

Lemma running_at_wf w g :
  world_wf w ->
  running_at (final_buffers w) g
  = wrap_cl_uint (Z.of_nat (holders g (tasks w))).
Proof.
  intros Hwf. unfold running_at.
  destruct (final_buffers w !! g) as [b|] eqn:Hb.
  - by apply (wf_count w Hwf).
  - apply lookup_ge_None_1 in Hb.
    by rewrite (holders_none g (tasks w) _ (wf_tasks w Hwf) Hb).
Qed.

(** The update of one task entry, with terminator clones pushed behind,
    keeps the world well formed when the count of one generation moves by
    what the entry's attachment moved. *)
Lemma world_wf_step w w' tid old new l g d :
  world_wf w ->
  tasks w !! tid = Some old ->
  tasks w' = <[tid := new]> (tasks w ++ l) ->
  Forall (pushed_wf (length (final_buffers w'))) l ->
  (forall g0, pds_final (gpa_sstate w') = Some g0 ->
              (g0 < length (final_buffers w'))%nat) ->
  task_wf (length (final_buffers w')) new ->
  buffers_effect (final_buffers w) (final_buffers w') g d ->
  (forall g', indicator (attached_to g' new) - indicator (attached_to g' old)
              = if decide (g' = g) then d else 0) ->
  world_wf w'.
Proof.
  intros Hwf Hold Htk Hl Hcur Hnew [Hlen Heff] Hatt.
  split; [exact Hcur | |].
  - rewrite Htk. apply Forall_insert; [|exact Hnew].
    apply Forall_app. split.
    + eapply Forall_impl; [exact (wf_tasks w Hwf)|].
      intros x. by apply task_wf_mono.
    + eapply Forall_impl; [exact Hl|]. intros x. apply pushed_wf_task_wf.
  - intros g' b' Hb'.
    pose proof (holders_insert g' (tasks w ++ l) tid old new
                  (lookup_app_l_Some _ _ _ _ Hold)) as Hins.
    rewrite holders_app, (pushed_not_attached g' _ l Hl) in Hins.
    specialize (Hatt g'). unfold indicator in Hatt.
    destruct (Heff g' b' Hb') as [Hne Heq].
    rewrite Htk.
    destruct (decide (g' = g)) as [-> | Hneq].
    + rewrite (Heq eq_refl), (running_at_wf w g Hwf).
      unfold wrap_cl_uint. rewrite Zplus_mod_idemp_l. f_equal.
      destruct (decide (attached_to g old)), (decide (attached_to g new)); lia.
    + destruct (Hne Hneq) as (b & Hb & <-).
      rewrite (wf_count w Hwf g' b Hb). do 2 f_equal.
      destruct (decide (attached_to g' old)), (decide (attached_to g' new)); lia.
Qed.

Lemma put_final_buffer_effect t release force w g b :
  task_pds_final t = Some g ->
  final_buffers w !! g = Some b ->
  exists w',
    gpupreagg_put_final_buffer t release force w
    = Some (detach_is_terminator force g b w,
            (if detach_is_terminator force g b w && negb release
             then t else with_task_pds_final None 0 t),
            w')
    /\ buffers_effect (final_buffers w) (final_buffers w') g (-1)
    /\ length (final_buffers w') = length (final_buffers w)
    /\ tasks w' = tasks w
    /\ finalized w' = finalized w
    /\ ntasks_in_progress (gpa_sstate w')
       = wrap_cl_uint (ntasks_in_progress (gpa_sstate w) - 1)
    /\ (pds_final (gpa_sstate w') = pds_final (gpa_sstate w)
        \/ pds_final (gpa_sstate w') = None).
Proof.
  intros Hg Hb.
  destruct (put_final_buffer_spec t release force w g b Hg Hb)
    as (w' & Hput & Hs & Hfb & Htk & Hfin).
  exists w'. split; [exact Hput|]. rewrite Hfb, Hs. simpl.
  split; [by apply (buffers_effect_insert _ g b (-1))|].
  split; [by rewrite length_insert|].
  split; [exact Htk|]. split; [exact Hfin|].
  split; [by autorewrite with world|].
  apply detach_current_pds_final.
Qed.

Lemma put_and_push_effect t force w g b :
  task_pds_final t = Some g ->
  final_buffers w !! g = Some b ->
  exists t' w' l,
    put_and_push t force w = Some (t', w')
    /\ task_pds_final t' = None
    /\ kern_reduction_mode t' = kern_reduction_mode t
    /\ retry_by_nospace t' = retry_by_nospace t
    /\ buffers_effect (final_buffers w) (final_buffers w') g (-1)
    /\ length (final_buffers w') = length (final_buffers w)
    /\ tasks w' = tasks w ++ l
    /\ Forall (pushed_wf (length (final_buffers w'))) l
    /\ finalized w' = finalized w
    /\ ntasks_in_progress (gpa_sstate w')
       = wrap_cl_uint (ntasks_in_progress (gpa_sstate w) - 1)
    /\ (pds_final (gpa_sstate w') = pds_final (gpa_sstate w)
        \/ pds_final (gpa_sstate w') = None).
Proof.
  intros Hg Hb.
  destruct (put_and_push_spec t force w g b Hg Hb)
    as (w' & Hpp & Hs & Hfb & Htk & Hfin).
  do 3 eexists. split; [exact Hpp|]. rewrite Hfb, Hs. simpl.
  do 3 (split; [reflexivity|]).
  split; [by apply (buffers_effect_insert _ g b (-1))|].
  split; [by rewrite length_insert|].
  split; [exact Htk|].
  split.
  { destruct (detach_is_terminator force g b w); [|by apply Forall_nil].
    apply Forall_singleton. split; [reflexivity|]. exists g.
    split; [reflexivity|]. rewrite length_insert.
    eapply lookup_lt_Some; eassumption. }
  split; [exact Hfin|].
  split; [by autorewrite with world|].
  apply detach_current_pds_final.
Qed.

Lemma buffers_effect_trans bs bs' bs'' g d1 d2 :
  (g < length bs')%nat ->
  buffers_effect bs bs' g d1 ->
  buffers_effect bs' bs'' g d2 ->
  buffers_effect bs bs'' g (d1 + d2).
Proof.
  intros Hlt [Hlen1 H1] [Hlen2 H2]. split; [lia|].
  intros g' b'' Hb''. destruct (H2 g' b'' Hb'') as [Hne Heq]. split.
  - intros Hg'. destruct (Hne Hg') as (b' & Hb' & <-).
    exact (proj1 (H1 g' b' Hb') Hg').
  - intros ->. rewrite (Heq eq_refl). unfold running_at at 1.
    destruct (lookup_lt_is_Some_2 _ _ Hlt) as [b' Hb']. rewrite Hb'.
    rewrite (proj2 (H1 g b' Hb') eq_refl).
    unfold wrap_cl_uint. rewrite Zplus_mod_idemp_l. f_equal. lia.
Qed.

Lemma world_wf_ext w w' :
  pds_final (gpa_sstate w') = pds_final (gpa_sstate w) ->
  final_buffers w' = final_buffers w ->
  tasks w' = tasks w ->
  world_wf w -> world_wf w'.
Proof.
  intros Hp Hb Ht [H1 H2 H3]. split; rewrite ?Hp, ?Hb, ?Ht; assumption.
Qed.

Lemma task_wf_lookup w tid entry :
  world_wf w -> tasks w !! tid = Some entry ->
  task_wf (length (final_buffers w)) entry.
Proof.
  intros Hwf Hl. exact (Forall_lookup_1 _ _ _ _ (wf_tasks w Hwf) Hl).
Qed.

Ltac indicators :=
  let g' := fresh "g'" in
  intros g'; unfold indicator;
  repeat match goal with
         | |- context [decide ?Q] => destruct (decide Q)
         end;
  unfold attached_to in *; simpl in *; try reflexivity; exfalso;
  repeat match goal with H : _ /\ _ |- _ => destruct H end;
  simplify_eq;
  first [ congruence
        | match goal with
          | H : ~ (_ /\ _) |- _ => apply H; split; congruence
          end ].

Section InvariantProcess.
Context {P : Platform}.
Variable num_group_keys : Z.
Variable has_notbyval : bool.

Lemma next_task_wf n last w :
  world_wf w -> world_wf (gpupreagg_next_task num_group_keys n last w).
Proof.
  intros [H1 H2 H3]. unfold gpupreagg_next_task.
  set (t := gpupreagg_create_task num_group_keys n).
  assert (Hm : kern_reduction_mode t <> GPUPREAGG_ONLY_TERMINATION)
    by (subst t; unfold gpupreagg_create_task; simpl;
        by destruct (num_group_keys =? 0)).
  assert (Hwft : forall nbuf, task_wf nbuf (Pending, t)).
  { intros nbuf. unfold task_wf. by destruct (decide _). }
  assert (Hh : forall g, holders g (tasks w ++ [(Pending, t)])
                         = holders g (tasks w)).
  { intros g. rewrite holders_app. unfold holders at 2.
    rewrite filter_cons. destruct (decide _) as [[Hp _]|]; [done|].
    simpl. lia. }
  destruct last; simpl; split; simpl; autorewrite with world; simpl;
    try assumption;
    try (apply Forall_app; split; [assumption | by apply Forall_singleton]);
    intros g b Hb; rewrite Hh; by apply H3.
Qed.

Lemma process_reduction_task_wf o1 o2 w tid t rv t' w' :
  world_wf w ->
  tasks w !! tid = Some (Pending, t) ->
  kern_reduction_mode t <> GPUPREAGG_ONLY_TERMINATION ->
  gpupreagg_process_reduction_task o1 o2 t w = Some (rv, t', w') ->
  world_wf (set_tasks (<[tid := (if rv =? 0 then Running else Pending, t')]>)
              w').
Proof.
  intros Hwf Hold Hm Hp.
  pose proof (task_wf_lookup w tid _ Hwf Hold) as Hwft.
  unfold task_wf in Hwft. simpl in Hwft.
  destruct (decide _) as [|_]; [contradiction|].
  unfold gpupreagg_process_reduction_task in Hp.
  destruct (gpupreagg_get_final_buffer o1 t w) as [[[r t1] w1]|] eqn:Hget;
    [|discriminate].
  simpl in Hp.
  destruct (get_final_buffer_mode _ _ _ _ _ _ Hget) as [Hmode _].
  assert (Hm1 : kern_reduction_mode t1 <> GPUPREAGG_ONLY_TERMINATION).
  { rewrite Hmode. destruct (decide _); [|exact Hm].
    apply decide_reduction_mode_not_terminator. }
  clear Hmode.
  destruct (get_final_buffer_effect _ _ _ _ _ _ (wf_current w Hwf) Hget)
    as (Htk & _ & _ & _ & _ & _ & Hcur1 & Hr).
  destruct r; simpl in Hp.
  - destruct Hr as (g & Hg & Hpg & Hlt & Heff).
    destruct (negb (m_gpreagg t1) && o2) eqn:Hoom.
    + destruct (lookup_lt_is_Some_2 _ _ Hlt) as [b Hb].
      destruct (put_and_push_effect (gpupreagg_cleanup_cuda_resources t1)
                  false w1 g b Hg Hb)
        as (t2 & w2 & l & Hpp & Hp2 & Hm2 & _ & Heff2 & Hlen2 & Htk2 & Hl
            & _ & _ & Hcur2).
      rewrite Hpp in Hp. simpl in Hp. simplify_eq. simpl.
      eapply (world_wf_step w _ tid (Pending, t) (Pending, t') l g (1 + -1));
        eauto.
      * simpl. autorewrite with world. by rewrite Htk2, Htk.
      * simpl. autorewrite with world. exact Hl.
      * simpl. autorewrite with world. rewrite Hlen2.
        intros g0 Hg0. apply Hcur1. by destruct Hcur2 as [<-|Hn]; [|congruence].
      * unfold task_wf. simpl. rewrite Hm2. simpl.
        case_decide; [contradiction|exact Hp2].
      * simpl. autorewrite with world.
        eapply buffers_effect_trans; eauto.
      * clear -Hwft Hp2. indicators.
    + assert (Hres : rv = 0 /\ task_pds_final t' = Some g
                     /\ kern_reduction_mode t' = kern_reduction_mode t1
                     /\ pds_final (gpa_sstate w') = pds_final (gpa_sstate w1)
                     /\ final_buffers w' = final_buffers w1
                     /\ tasks w' = tasks w1).
      { destruct (negb (m_gpreagg t1)); simpl in Hp;
          (destruct (count_reduction_kernel _ _) as [s|] eqn:Hcnt;
             [|discriminate]);
          simpl in Hp; simplify_eq;
          apply count_reduction_kernel_pds_final in Hcnt;
          autorewrite with world in Hcnt; simpl;
          autorewrite with world; by repeat split. }
      destruct Hres as (-> & Hg2 & Hm2 & Hs' & Hfb' & Htk'). simpl.
      eapply (world_wf_step w _ tid (Pending, t) (Running, t') [] g 1); eauto.
      * simpl. by rewrite app_nil_r, Htk', Htk.
      * simpl. rewrite Hs', Hfb'. exact Hcur1.
      * simpl. rewrite Hfb'. unfold task_wf. simpl.
        case_decide; eauto.
      * simpl. by rewrite Hfb'.
      * clear -Hwft Hg2 Hm2 Hm1. indicators.
  - simplify_eq. simpl. destruct Hr as (Hpt & Hfb & Hps).
    eapply (world_wf_step w _ tid (Pending, t) (Pending, t') []
              (length (final_buffers w)) 0); eauto.
    + simpl. by rewrite app_nil_r, Htk.
    + unfold task_wf. simpl. case_decide; [contradiction|].
      by rewrite Hpt.
    + simpl. rewrite Hfb. apply buffers_effect_refl.
    + rewrite Hwft in Hpt. clear -Hwft Hpt. indicators.
Qed.


Lemma process_termination_task_wf o w tid t rv t' w' :
  world_wf w ->
  tasks w !! tid = Some (Pending, t) ->
  kern_reduction_mode t = GPUPREAGG_ONLY_TERMINATION ->
  gpupreagg_process_termination_task has_notbyval o t w = Some (rv, t', w') ->
  world_wf (set_tasks (<[tid := (if rv =? 0 then Running else Pending, t')]>)
              w').
Proof.
  intros Hwf Hold Hm Hp.
  pose proof (task_wf_lookup w tid _ Hwf Hold) as Hwft.
  unfold task_wf in Hwft. simpl in Hwft.
  case_decide; [|contradiction].
  unfold gpupreagg_process_termination_task in Hp.
  destruct (task_pds_final t) as [g|] eqn:Hg; [|discriminate]. simpl in Hp.
  assert (Hres : task_pds_final t' = Some g
                 /\ kern_reduction_mode t' = GPUPREAGG_ONLY_TERMINATION
                 /\ gpa_sstate w' = gpa_sstate w
                 /\ final_buffers w' = final_buffers w
                 /\ tasks w' = tasks w).
  { destruct (has_notbyval && o); [|destruct has_notbyval]; by simplify_eq. }
  destruct Hres as (Hg' & Hm' & Hs' & Hfb' & Htk').
  eapply (world_wf_step w _ tid (Pending, t) (_, t') []
            (length (final_buffers w)) 0); eauto.
  - simpl. by rewrite app_nil_r, Htk'.
  - simpl. rewrite Hs', Hfb'. exact (wf_current w Hwf).
  - simpl. rewrite Hfb'. unfold task_wf. simpl.
    case_decide; [|contradiction]. by rewrite Hg'.
  - simpl. rewrite Hfb'. apply buffers_effect_refl.
  - clear -Hm Hm'. indicators.
Qed.

Lemma process_task_wf o1 o2 w tid t rv t' w' :
  world_wf w ->
  tasks w !! tid = Some (Pending, t) ->
  gpupreagg_process_task_try has_notbyval o1 o2 t w = Some (rv, t', w') ->
  world_wf (set_tasks (<[tid := (if rv =? 0 then Running else Pending, t')]>)
              w').
Proof.
  intros Hwf Hold. unfold gpupreagg_process_task_try. case_decide.
  - by apply process_reduction_task_wf.
  - apply process_termination_task_wf; try done.
Qed.

Lemma respond_task_wf status kr w tid t t' w' :
  world_wf w ->
  tasks w !! tid = Some (Running, t) ->
  gpupreagg_respond_task status
    (if bool_decide (kern_reduction_mode t = GPUPREAGG_ONLY_TERMINATION)
        && negb has_notbyval
     then t else with_kern_out kr t) w = (t', w') ->
  world_wf (set_tasks (<[tid := (Responded, t')]>) w').
Proof.
  intros Hwf Hold Hr.
  pose proof (task_wf_lookup w tid _ Hwf Hold) as Hwft.
  assert (Hres : task_pds_final t' = task_pds_final t
                 /\ kern_reduction_mode t' = kern_reduction_mode t
                 /\ pds_final (gpa_sstate w') = pds_final (gpa_sstate w)
                 /\ final_buffers w' = final_buffers w
                 /\ tasks w' = tasks w).
  { unfold gpupreagg_respond_task in Hr.
    destruct (_ && _), status; simpl in Hr; try case_decide;
      by simplify_eq. }
  destruct Hres as (Hg' & Hm' & Hs' & Hfb' & Htk').
  eapply (world_wf_step w _ tid (Running, t) (Responded, t') []
            (length (final_buffers w)) 0); eauto.
  - simpl. by rewrite app_nil_r, Htk'.
  - simpl. rewrite Hs', Hfb'. exact (wf_current w Hwf).
  - simpl. rewrite Hfb'. unfold task_wf in *. simpl in *.
    rewrite Hm', Hg'. exact Hwft.
  - simpl. rewrite Hfb'. apply buffers_effect_refl.
  - clear -Hg' Hm'. indicators.
Qed.

End InvariantProcess.

Lemma world_wf_detach w w1 tid old new l g :
  world_wf w ->
  tasks w !! tid = Some old ->
  attached_to g old ->
  buffers_effect (final_buffers w) (final_buffers w1) g (-1) ->
  length (final_buffers w1) = length (final_buffers w) ->
  tasks w1 = tasks w ++ l ->
  Forall (pushed_wf (length (final_buffers w1))) l ->
  (pds_final (gpa_sstate w1) = pds_final (gpa_sstate w)
   \/ pds_final (gpa_sstate w1) = None) ->
  task_wf (length (final_buffers w1)) new ->
  (forall g', ~ attached_to g' new) ->
  world_wf (set_tasks (<[tid := new]>) w1).
Proof.
  intros Hwf Hold Hatt Heff Hlen Htk Hl Hcur Hnew Hnone.
  eapply (world_wf_step w _ tid old new l g (-1)); eauto.
  - simpl. by rewrite Htk.
  - simpl. rewrite Hlen. intros g0 Hg0. apply (wf_current w Hwf).
    by destruct Hcur as [<-|Hn]; [|congruence].
  - intros g'. unfold indicator.
    destruct (decide (attached_to g' new)) as [Hn|_];
      [by apply Hnone in Hn|].
    destruct Hatt as [Hg Hm].
    destruct (decide (attached_to g' old)) as [[Hg' _]|Hn], (decide (g' = g));
      try reflexivity; exfalso.
    + congruence.
    + subst g'. by apply Hn.
Qed.

Section InvariantComplete.
Context {P : Platform}.
Variable num_group_keys : Z.
Variable has_notbyval : bool.

Lemma complete_task_wf w tid t rv t' w' :
  world_wf w ->
  tasks w !! tid = Some (Responded, t) ->
  gpupreagg_complete_task t w = Some (rv, t', w') ->
  world_wf (set_tasks (<[tid := (phase_of_retval rv, t')]>) w').
Proof.
  intros Hwf Hold Hc.
  pose proof (task_wf_lookup w tid _ Hwf Hold) as Hwft.
  unfold task_wf in Hwft. simpl in Hwft.
  unfold gpupreagg_complete_task in Hc.
  destruct (decide (kern_reduction_mode t = GPUPREAGG_ONLY_TERMINATION))
    as [Hm|Hm].
  - destruct Hwft as (g & Hg & Hlt). rewrite Hg in Hc. simpl in Hc.
    destruct (final_buffers w !! g) as [b|]; [|discriminate].
    simpl in Hc. simplify_eq.
    eapply (world_wf_step w _ tid (Responded, t) (_, _) []
              (length (final_buffers w)) 0); eauto.
    + simpl. autorewrite with world. by rewrite app_nil_r.
    + simpl. autorewrite with world. exact (wf_current w Hwf).
    + simpl. autorewrite with world. unfold task_wf. simpl.
      case_decide; [|contradiction]. eauto.
    + simpl. autorewrite with world. apply buffers_effect_refl.
    + clear -Hm. indicators.
  - destruct Hwft as (g & Hg & Hlt).
    destruct (lookup_lt_is_Some_2 _ _ Hlt) as [b Hb].
    assert (Hatt : attached_to g (Responded, t)) by (by split).
    destruct (task_kerror t) eqn:Hk.
    + (* StromError_Success *)
      destruct (put_final_buffer_effect (gpupreagg_cleanup_cuda_resources t)
                  false false w g b Hg Hb)
        as (w1 & Hput & Heff & Hlen & Htk & _ & _ & Hcur).
      rewrite Hput in Hc. simpl in Hc.
      destruct (detach_is_terminator false g b w); simpl in Hc; simplify_eq;
        eapply (world_wf_detach w _ tid _ _ [] g); eauto;
        try (by rewrite app_nil_r);
        try (unfold task_wf; simpl; try case_decide; try done;
             rewrite Hlen; eauto);
        intros g' [Hg' Hm']; simpl in *; congruence.
    + (* StromError_CpuReCheck *)
      destruct (kr_final_reduction_in_progress _).
      * destruct (put_final_buffer_effect (gpupreagg_cleanup_cuda_resources t)
                    true false w g b Hg Hb)
          as (w1 & Hput & Heff & Hlen & Htk & _ & _ & Hcur).
        rewrite Hput, andb_false_r in Hc. simpl in Hc. simplify_eq.
        eapply (world_wf_detach w _ tid _ _ [] g); eauto;
          try (by rewrite app_nil_r);
          try (unfold task_wf; simpl; by case_decide);
          intros g' [Hg' _]; simpl in *; congruence.
      * destruct (put_and_push_effect (gpupreagg_cleanup_cuda_resources t)
                    false w g b Hg Hb)
          as (t1 & w1 & l & Hpp & Hp1 & Hm1 & _ & Heff & Hlen & Htk & Hl
              & _ & _ & Hcur).
        rewrite Hpp in Hc. simpl in Hc. simplify_eq.
        eapply (world_wf_detach w _ tid _ _ l g); eauto;
          try (unfold task_wf; simpl; rewrite Hm1; simpl; by case_decide);
          intros g' [Hg' _]; simpl in *; congruence.
    + (* StromError_DataStoreNoSpace *)
      destruct (kr_final_reduction_in_progress _).
      * destruct (put_and_push_effect t true w g b Hg Hb)
          as (t1 & w1 & l & Hpp & Hp1 & Hm1 & _ & Heff & Hlen & Htk & Hl
              & _ & _ & Hcur).
        rewrite Hpp in Hc. simpl in Hc. simplify_eq.
        eapply (world_wf_detach w _ tid _ _ l g); eauto;
          try (unfold task_wf; simpl; rewrite Hm1; simpl; by case_decide);
          intros g' [Hg' _]; simpl in *; congruence.
      * destruct (put_and_push_effect (gpupreagg_cleanup_cuda_resources t)
                    false w g b Hg Hb)
          as (t1 & w1 & l & Hpp & Hp1 & Hm1 & _ & Heff & Hlen & Htk & Hl
              & _ & _ & Hcur).
        rewrite Hpp in Hc. simpl in Hc. simplify_eq.
        eapply (world_wf_detach w _ tid _ _ l g); eauto;
          try (unfold task_wf; simpl; repeat case_decide; simpl in *;
               by congruence);
          intros g' [Hg' _]; repeat case_decide; simpl in *; congruence.
    + (* any other error *)
      destruct (put_final_buffer_effect (gpupreagg_cleanup_cuda_resources t)
                  true false w g b Hg Hb)
        as (w1 & Hput & Heff & Hlen & Htk & _ & _ & Hcur).
      rewrite Hput, andb_false_r in Hc. simpl in Hc. simplify_eq.
      eapply (world_wf_detach w _ tid _ _ [] g); eauto;
        try (by rewrite app_nil_r);
        try (unfold task_wf; simpl; by case_decide);
        intros g' [Hg' _]; simpl in *; congruence.
Qed.

End InvariantComplete.

Lemma initial_world_wf s : pds_final s = None -> world_wf (initial_world s).
Proof.
  intros Hs. split; unfold initial_world; simpl.
  - intros g Hg. rewrite Hs in Hg. discriminate.
  - constructor.
  - intros g b Hb. discriminate.
Qed.

Section Reachable.
Context {P : Platform}.
Variable num_group_keys : Z.
Variable has_notbyval : bool.

Lemma step_wf ev w w' :
  world_wf w -> step num_group_keys has_notbyval ev w = Some w' -> world_wf w'.
Proof.
  intros Hwf Hstep. destruct ev as [n last|tid o1 o2|tid status kr|tid];
    rewrite ?step_EvProcess in Hstep; simpl in Hstep.
  - simplify_eq. by apply next_task_wf.
  - destruct (tasks w !! tid) as [[ph t]|] eqn:Hold; [|discriminate].
    simpl in Hstep. case_decide; [|discriminate]. simpl in *. subst ph.
    destruct (gpupreagg_process_task_try _ _ _ _ _) as [[[rv t'] w1]|] eqn:Hp;
      [|discriminate].
    simpl in Hstep. simplify_eq. by eapply process_task_wf.
  - destruct (tasks w !! tid) as [[ph t]|] eqn:Hold; [|discriminate].
    simpl in Hstep. case_decide; [|discriminate]. simpl in *. subst ph.
    destruct (gpupreagg_respond_task _ _ _) as [t' w1] eqn:Hr.
    simplify_eq. by eapply respond_task_wf.
  - destruct (tasks w !! tid) as [[ph t]|] eqn:Hold; [|discriminate].
    simpl in Hstep. case_decide; [|discriminate]. simpl in *. subst ph.
    destruct (gpupreagg_complete_task _ _) as [[[rv t'] w1]|] eqn:Hc;
      [|discriminate].
    simpl in Hstep. simplify_eq. by eapply complete_task_wf.
Qed.

Lemma run_wf evs w w' :
  world_wf w -> run num_group_keys has_notbyval evs w = Some w' -> world_wf w'.
Proof.
  revert w. induction evs as [|ev evs IH]; intros w Hwf Hrun; simpl in Hrun.
  - by simplify_eq.
  - destruct (step _ _ ev w) as [w1|] eqn:Hstep; [|discriminate].
    simpl in Hrun. eapply IH; [|exact Hrun]. by eapply step_wf.
Qed.

(** X1.  In every state reached from the start of a query, whatever the
    interleaving of loads, launches, answers, completions, allocation
    failures and retries, [ntasks_running] of each final buffer is the
    number of tasks currently attached to it (tasks whose [pds_final] is
    that buffer and that are not terminators), as a 32-bit counter. *)
Theorem running_count_is_number_of_attached_tasks s evs w g b :
  pds_final s = None ->
  run num_group_keys has_notbyval evs (initial_world s) = Some w ->
  final_buffers w !! g = Some b ->
  ntasks_running b = wrap_cl_uint (Z.of_nat (holders g (tasks w))).
Proof.
  intros Hs Hrun Hb.
  exact (wf_count w (run_wf evs _ w (initial_world_wf s Hs) Hrun) g b Hb).
Qed.

Lemma complete_task_total w tid t :
  world_wf w ->
  tasks w !! tid = Some (Responded, t) ->
  is_Some (gpupreagg_complete_task t w).
Proof.
  intros Hwf Hold.
  pose proof (task_wf_lookup w tid _ Hwf Hold) as Hwft.
  assert (Hg : exists g b, task_pds_final t = Some g
                           /\ final_buffers w !! g = Some b).
  { unfold task_wf in Hwft. simpl in Hwft.
    case_decide; destruct Hwft as (g & Hg & Hlt);
      destruct (lookup_lt_is_Some_2 _ _ Hlt) as [b Hb]; eauto. }
  destruct Hg as (g & b & Hg & Hb).
  unfold gpupreagg_complete_task. case_decide.
  - rewrite Hg. simpl. rewrite Hb. simpl. by eexists.
  - destruct (task_kerror t).
    + destruct (put_final_buffer_spec (gpupreagg_cleanup_cuda_resources t)
                  false false w g b Hg Hb) as (w1 & -> & _).
      simpl. by destruct (negb _).
    + destruct (kr_final_reduction_in_progress _).
      * destruct (put_final_buffer_spec (gpupreagg_cleanup_cuda_resources t)
                    true false w g b Hg Hb) as (w1 & -> & _).
        by eexists.
      * destruct (put_and_push_spec (gpupreagg_cleanup_cuda_resources t)
                    false w g b Hg Hb) as (w1 & -> & _).
        by eexists.
    + destruct (kr_final_reduction_in_progress _).
      * destruct (put_and_push_spec t true w g b Hg Hb) as (w1 & -> & _).
        by eexists.
      * destruct (put_and_push_spec (gpupreagg_cleanup_cuda_resources t)
                    false w g b Hg Hb) as (w1 & -> & _).
        by eexists.
    + destruct (put_final_buffer_spec (gpupreagg_cleanup_cuda_resources t)
                  true false w g b Hg Hb) as (w1 & -> & _).
      by eexists.
Qed.

(** X2.  In every reachable state the completion handler finds the buffer
    it dereferences: [gpupreagg_complete_task] returns for every task whose
    kernel answered, on each of its branches, and the finalize step of a
    queued terminator returns as well, with or without device memory. *)
Theorem completion_and_finalize_find_their_buffer s evs w tid entry :
  pds_final s = None ->
  run num_group_keys has_notbyval evs (initial_world s) = Some w ->
  tasks w !! tid = Some entry ->
  (entry.1 = Responded ->
   is_Some (step num_group_keys has_notbyval (EvComplete tid) w))
  /\ (entry.1 = Pending ->
      kern_reduction_mode entry.2 = GPUPREAGG_ONLY_TERMINATION ->
      forall oom_final oom_private,
        is_Some (step num_group_keys has_notbyval
                   (EvProcess tid oom_final oom_private) w)).
Proof.
  intros Hs Hrun Hold.
  pose proof (run_wf evs _ w (initial_world_wf s Hs) Hrun) as Hwf.
  destruct entry as [ph t]. split.
  - intros Hph. simpl in Hph. subst ph. simpl. rewrite Hold. simpl.
    destruct (complete_task_total w tid t Hwf Hold) as [[[rv t'] w1] ->].
    by eexists.
  - intros Hph Hm o1 o2. simpl in Hph, Hm. subst ph.
    rewrite step_EvProcess, Hold. simpl.
    pose proof (task_wf_lookup w tid _ Hwf Hold) as Hwft.
    unfold task_wf in Hwft. simpl in Hwft.
    case_decide; [|contradiction]. destruct Hwft as (g & Hg & _).
    unfold gpupreagg_process_task_try. case_decide; [contradiction|].
    unfold gpupreagg_process_termination_task. rewrite Hg. simpl.
    by destruct (has_notbyval && o2); eexists.
Qed.

End Reachable.

Lemma Assert_held c a w :
  a <> Assert_ntasks_running_positive \/ c = true ->
  running_assert_held w -> running_assert_held (Assert c a w).
Proof.
  unfold running_assert_held, Assert. intros Hc Hw. destruct c; [exact Hw|].
  simpl. rewrite in_app_iff. intros [Hin|[Heq|[]]]; [by apply Hw|].
  destruct Hc as [Hne|Hc]; [by apply Hne | discriminate].
Qed.

Lemma detach_current_failures force g w :
  assert_failures (detach_current force g w) = assert_failures w.
Proof. unfold detach_current. by destruct (_ && _). Qed.

Lemma holders_le g ts : (holders g ts <= length ts)%nat.
Proof. unfold holders. apply length_filter. Qed.

Lemma holders_pos g ts tid old :
  ts !! tid = Some old -> attached_to g old -> (1 <= holders g ts)%nat.
Proof.
  intros Hl Hatt. unfold holders. revert tid Hl.
  induction ts as [|x ts IH]; intros tid Hl; [discriminate|].
  rewrite filter_cons. destruct tid as [|tid]; simpl in Hl.
  - simplify_eq. destruct (decide _); [simpl; lia | contradiction].
  - specialize (IH tid Hl). destruct (decide _); simpl; lia.
Qed.

Lemma holders_lt g ts tid old :
  ts !! tid = Some old -> ~ attached_to g old ->
  (holders g ts < length ts)%nat.
Proof.
  unfold holders. revert tid.
  induction ts as [|x ts IH]; intros tid Hl Hatt; [discriminate|].
  rewrite filter_cons. destruct tid as [|tid]; simpl in Hl.
  - simplify_eq. destruct (decide _); [contradiction|].
    pose proof (length_filter (attached_to g) ts). simpl. lia.
  - specialize (IH tid Hl Hatt). destruct (decide _); simpl; lia.
Qed.

Section AssertedDetach.
Context {P : Platform}.
Variable num_group_keys : Z.
Variable has_notbyval : bool.

Lemma put_final_buffer_held t release force w g b r t' w' :
  task_pds_final t = Some g ->
  final_buffers w !! g = Some b ->
  0 < ntasks_running b ->
  gpupreagg_put_final_buffer t release force w = Some (r, t', w') ->
  running_assert_held w -> running_assert_held w'.
Proof.
  intros Hg Hb Hpos Hput Hw.
  unfold gpupreagg_put_final_buffer in Hput.
  rewrite Hg in Hput. simpl in Hput. autorewrite with world in Hput.
  rewrite Hb in Hput. simpl in Hput.
  rewrite (proj2 (Z.ltb_lt _ _) Hpos) in Hput. simpl in Hput.
  assert (Hw1 : running_assert_held
                  (Assert (0 <? ntasks_in_progress (gpa_sstate w))
                     Assert_ntasks_in_progress_positive
                     (detach_current force g w))).
  { apply Assert_held; [by left|]. unfold running_assert_held.
    by rewrite detach_current_failures. }
  destruct (_ || _); [destruct release|]; by simplify_eq.
Qed.

Lemma put_and_push_held t force w g b t' w' :
  task_pds_final t = Some g ->
  final_buffers w !! g = Some b ->
  0 < ntasks_running b ->
  put_and_push t force w = Some (t', w') ->
  running_assert_held w -> running_assert_held w'.
Proof.
  intros Hg Hb Hpos Hpp Hw. unfold put_and_push in Hpp.
  apply bind_Some in Hpp as ([[r t1] w1] & Hput & Hpp).
  pose proof (put_final_buffer_held _ _ _ _ _ _ _ _ _ Hg Hb Hpos Hput Hw).
  destruct r; unfold gpupreagg_push_terminator_task in Hpp; by simplify_eq.
Qed.

Lemma get_final_buffer_held oom t w r t' w' :
  gpupreagg_get_final_buffer oom t w = Some (r, t', w') ->
  running_assert_held w -> running_assert_held w'.
Proof.
  intros Hget Hw. unfold gpupreagg_get_final_buffer in Hget.
  set (tw := if decide _ then _ else _) in Hget.
  assert (Htw : running_assert_held tw.2).
  { subst tw. destruct (decide _); [exact Hw|].
    apply Assert_held; [by left | exact Hw]. }
  destruct tw as [t1 w1]. simpl in Htw.
  apply bind_Some in Hget as ([r1 w2] & Halloc & Hget).
  assert (Hw2 : running_assert_held w2).
  { destruct (pds_final (gpa_sstate w1)); [by simplify_eq|].
    unfold gpupreagg_alloc_final_buffer in Halloc.
    apply bind_Some in Halloc as ([[[salt nrooms] extra] hs] & _ & Halloc).
    destruct oom; by simplify_eq. }
  destruct r1; [|by simplify_eq].
  apply bind_Some in Hget as (g & _ & Hget).
  apply bind_Some in Hget as (b & _ & Hget). by simplify_eq.
Qed.

End AssertedDetach.

Lemma tasks_pushed_length w w' :
  tasks_pushed w w' -> (length (tasks w) <= length (tasks w'))%nat.
Proof.
  intros (g & [-> | ->]); [lia|]. rewrite length_app. lia.
Qed.

Section AssertedRun.
Context {P : Platform}.
Variable num_group_keys : Z.
Variable has_notbyval : bool.

Lemma process_task_held o1 o2 w tid t rv t' w' :
  world_wf w ->
  tasks w !! tid = Some (Pending, t) ->
  Z.of_nat (length (tasks w)) < 2 ^ 32 ->
  gpupreagg_process_task_try has_notbyval o1 o2 t w = Some (rv, t', w') ->
  running_assert_held w -> running_assert_held w'.
Proof.
  intros Hwf Hold Hlen Hp Hw.
  pose proof (task_wf_lookup w tid _ Hwf Hold) as Hwft.
  unfold task_wf in Hwft. simpl in Hwft.
  unfold gpupreagg_process_task_try in Hp.
  destruct (decide (kern_reduction_mode t <> GPUPREAGG_ONLY_TERMINATION))
    as [Hm|Hm].
  - case_decide; [contradiction|].
    unfold gpupreagg_process_reduction_task in Hp.
    apply bind_Some in Hp as ([[r t1] w1] & Hget & Hp).
    pose proof (get_final_buffer_held _ _ _ _ _ _ Hget Hw) as Hw1.
    destruct (get_final_buffer_effect _ _ _ _ _ _ (wf_current w Hwf) Hget)
      as (_ & _ & _ & _ & _ & _ & _ & Hr).
    destruct r; simpl in Hp; [|by simplify_eq].
    destruct Hr as (g & Hg & _ & Hlt & _ & Heff).
    destruct (negb (m_gpreagg t1) && o2).
    + apply bind_Some in Hp as ([t2 w2] & Hpp & Hp).
      destruct (lookup_lt_is_Some_2 _ _ Hlt) as [b Hb].
      assert (Hpos : 0 < ntasks_running b).
      { rewrite (proj2 (Heff g b Hb) eq_refl), (running_at_wf w g Hwf),
          wrap_cl_uint_succ.
        assert (Hh : (holders g (tasks w) < length (tasks w))%nat).
        { apply (holders_lt g _ tid (Pending, t) Hold).
          intros [Hg' _]. simpl in Hg'. congruence. }
        rewrite wrap_cl_uint_small; lia. }
      pose proof (put_and_push_held (gpupreagg_cleanup_cuda_resources t1)
                    _ _ _ _ _ _ Hg Hb Hpos Hpp Hw1).
      simplify_eq. apply Assert_held; [by left | done].
    + destruct (negb (m_gpreagg t1)); simpl in Hp;
        apply bind_Some in Hp as (s & _ & Hp); simplify_eq; [exact Hw1|].
      unfold running_assert_held. simpl.
      by apply (Assert_held _ _ w1); [left|].
  - unfold gpupreagg_process_termination_task in Hp.
    apply bind_Some in Hp as (g & _ & Hp).
    destruct (has_notbyval && o2); by simplify_eq.
Qed.

Lemma complete_task_held w tid t rv t' w' :
  world_wf w ->
  tasks w !! tid = Some (Responded, t) ->
  Z.of_nat (length (tasks w)) < 2 ^ 32 ->
  gpupreagg_complete_task t w = Some (rv, t', w') ->
  running_assert_held w -> running_assert_held w'.
Proof.
  intros Hwf Hold Hlen Hc Hw.
  pose proof (task_wf_lookup w tid _ Hwf Hold) as Hwft.
  unfold task_wf in Hwft. simpl in Hwft.
  unfold gpupreagg_complete_task in Hc.
  destruct (decide (kern_reduction_mode t = GPUPREAGG_ONLY_TERMINATION))
    as [Hm|Hm].
  - apply bind_Some in Hc as (g & _ & Hc).
    apply bind_Some in Hc as (b & _ & Hc). simplify_eq.
    apply Assert_held; [by left | done].
  - destruct Hwft as (g & Hg & Hlt).
    destruct (lookup_lt_is_Some_2 _ _ Hlt) as [b Hb].
    assert (Hpos : 0 < ntasks_running b).
    { rewrite (wf_count w Hwf g b Hb).
      pose proof (holders_pos g _ tid (Responded, t) Hold
                    (conj Hg Hm)).
      pose proof (holders_le g (tasks w)).
      rewrite wrap_cl_uint_small; lia. }
    destruct (task_kerror t).
    + apply bind_Some in Hc as ([[r t1] w1] & Hput & Hc).
      pose proof (fun Hg' => put_final_buffer_held _ _ _ _ _ _ _ _ _ Hg' Hb Hpos
                                Hput Hw) as Hw1; specialize (Hw1 Hg).
      destruct (negb r); by simplify_eq.
    + destruct (kr_final_reduction_in_progress _).
      * apply bind_Some in Hc as ([[r t1] w1] & Hput & Hc).
        pose proof (fun Hg' => put_final_buffer_held _ _ _ _ _ _ _ _ _ Hg' Hb Hpos
                                Hput Hw) as Hw1; specialize (Hw1 Hg).
        by simplify_eq.
      * apply bind_Some in Hc as ([t1 w1] & Hpp & Hc).
        pose proof (fun Hg' => put_and_push_held _ _ _ _ _ _ _ Hg' Hb Hpos Hpp Hw)
          as Hw1; specialize (Hw1 Hg).
        by simplify_eq.
    + destruct (kr_final_reduction_in_progress _).
      * apply bind_Some in Hc as ([t1 w1] & Hpp & Hc).
        pose proof (fun Hg' => put_and_push_held _ _ _ _ _ _ _ Hg' Hb Hpos Hpp Hw)
          as Hw1; specialize (Hw1 Hg).
        by simplify_eq.
      * apply bind_Some in Hc as ([t1 w1] & Hpp & Hc).
        pose proof (fun Hg' => put_and_push_held _ _ _ _ _ _ _ Hg' Hb Hpos Hpp Hw)
          as Hw1; specialize (Hw1 Hg).
        by simplify_eq.
    + apply bind_Some in Hc as ([[r t1] w1] & Hput & Hc).
      pose proof (fun Hg' => put_final_buffer_held _ _ _ _ _ _ _ _ _ Hg' Hb Hpos
                                Hput Hw) as Hw1; specialize (Hw1 Hg).
      by simplify_eq.
Qed.

Lemma step_tasks_length ev w w' :
  step num_group_keys has_notbyval ev w = Some w' ->
  (length (tasks w) <= length (tasks w'))%nat.
Proof.
  intros Hstep. destruct ev as [n last|tid o1 o2|tid status kr|tid];
    rewrite ?step_EvProcess in Hstep; simpl in Hstep.
  - simplify_eq. unfold gpupreagg_next_task.
    destruct last; simpl; rewrite length_app; simpl;
      autorewrite with world; simpl; lia.
  - apply bind_Some in Hstep as ([ph t] & Hold & Hstep).
    case_decide; [|discriminate].
    apply bind_Some in Hstep as ([[rv t'] w1] & Hp & Hstep).
    apply process_task_mode in Hp as [_ Hpush].
    apply tasks_pushed_length in Hpush. simplify_eq. simpl.
    by rewrite length_insert.
  - apply bind_Some in Hstep as ([ph t] & Hold & Hstep).
    case_decide; [|discriminate].
    destruct (gpupreagg_respond_task _ _ _) as [t' w1] eqn:Hr.
    apply respond_task_mode in Hr as [_ Htk]. simplify_eq. simpl.
    by rewrite length_insert, Htk.
  - apply bind_Some in Hstep as ([ph t] & Hold & Hstep).
    case_decide; [|discriminate].
    apply bind_Some in Hstep as ([[rv t'] w1] & Hc & Hstep).
    apply complete_task_mode in Hc as [_ Hpush].
    apply tasks_pushed_length in Hpush. simplify_eq. simpl.
    by rewrite length_insert.
Qed.

Lemma step_held ev w w' :
  world_wf w ->
  Z.of_nat (length (tasks w)) < 2 ^ 32 ->
  step num_group_keys has_notbyval ev w = Some w' ->
  running_assert_held w -> running_assert_held w'.
Proof.
  intros Hwf Hlen Hstep Hw.
  destruct ev as [n last|tid o1 o2|tid status kr|tid];
    rewrite ?step_EvProcess in Hstep; simpl in Hstep.
  - simplify_eq. unfold gpupreagg_next_task. destruct last; [|exact Hw].
    unfold running_assert_held. simpl.
    by apply (Assert_held _ _ (set_sstate _ w)); [left|].
  - apply bind_Some in Hstep as ([ph t] & Hold & Hstep).
    case_decide; [|discriminate]. simpl in *. subst ph.
    apply bind_Some in Hstep as ([[rv t'] w1] & Hp & Hstep).
    simplify_eq.
    exact (process_task_held _ _ _ _ _ _ _ _ Hwf Hold Hlen Hp Hw).
  - apply bind_Some in Hstep as ([ph t] & Hold & Hstep).
    case_decide; [|discriminate].
    unfold gpupreagg_respond_task in Hstep.
    destruct status; [by simplify_eq|]. case_decide; by simplify_eq.
  - apply bind_Some in Hstep as ([ph t] & Hold & Hstep).
    case_decide; [|discriminate]. simpl in *. subst ph.
    apply bind_Some in Hstep as ([[rv t'] w1] & Hc & Hstep).
    simplify_eq.
    exact (complete_task_held _ _ _ _ _ _ Hwf Hold Hlen Hc Hw).
Qed.

Lemma run_tasks_length evs w w' :
  run num_group_keys has_notbyval evs w = Some w' ->
  (length (tasks w) <= length (tasks w'))%nat.
Proof.
  revert w. induction evs as [|ev evs IH]; intros w Hrun; simpl in Hrun.
  - by simplify_eq.
  - apply bind_Some in Hrun as (w1 & Hstep & Hrun).
    apply step_tasks_length in Hstep. apply IH in Hrun. lia.
Qed.

Lemma run_held evs w w' :
  world_wf w ->
  Z.of_nat (length (tasks w')) < 2 ^ 32 ->
  run num_group_keys has_notbyval evs w = Some w' ->
  running_assert_held w -> running_assert_held w'.
Proof.
  revert w. induction evs as [|ev evs IH]; intros w Hwf Hlen Hrun Hw;
    simpl in Hrun.
  - by simplify_eq.
  - apply bind_Some in Hrun as (w1 & Hstep & Hrun).
    pose proof (step_tasks_length _ _ _ Hstep).
    pose proof (run_tasks_length _ _ _ Hrun).
    eapply (IH w1); eauto.
    + by eapply step_wf.
    + eapply step_held; eauto. lia.
Qed.


End AssertedRun.

(** ** The running count and the PG_CATCH block *)

Lemma Assert_failures_In a c a' w :
  In a (assert_failures (Assert c a' w))
  <-> In a (assert_failures w) \/ (c = false /\ a = a').
Proof.
  unfold Assert. destruct c; simpl.
  - split; [by left | by intros [?|[? _]]].
  - rewrite in_app_iff. simpl. split.
    + intros [?|[?|[]]]; [by left | by right].
    + intros [?|[_ ?]]; [by left | right; by left].
Qed.

Section Catch.
Context {P : Platform}.
Variable num_group_keys : Z.
Variable has_notbyval : bool.

Lemma put_final_buffer_failures t release force w g b r t' w' :
  task_pds_final t = Some g ->
  final_buffers w !! g = Some b ->
  gpupreagg_put_final_buffer t release force w = Some (r, t', w') ->
  In Assert_ntasks_running_positive (assert_failures w')
  <-> In Assert_ntasks_running_positive (assert_failures w)
      \/ ntasks_running b <= 0.
Proof.
  intros Hg Hb Hput.
  unfold gpupreagg_put_final_buffer in Hput.
  rewrite Hg in Hput. simpl in Hput. autorewrite with world in Hput.
  rewrite Hb in Hput. simpl in Hput.
  set (w1 := Assert (0 <? ntasks_in_progress (gpa_sstate w))
               Assert_ntasks_in_progress_positive
               (detach_current force g w)) in *.
  assert (H1 : In Assert_ntasks_running_positive (assert_failures w1)
               <-> In Assert_ntasks_running_positive (assert_failures w)).
  { subst w1. rewrite Assert_failures_In, detach_current_failures.
    split; [intros [?|[_ ?]]; [done | discriminate] | by left]. }
  assert (H2 : forall w2 : world,
            assert_failures w2 = assert_failures w1 ->
            In Assert_ntasks_running_positive
              (assert_failures (Assert (0 <? ntasks_running b)
                                  Assert_ntasks_running_positive w2))
            <-> In Assert_ntasks_running_positive (assert_failures w)
                \/ ntasks_running b <= 0).
  { intros w2 Hw2. rewrite Assert_failures_In, Hw2, H1.
    destruct (Z.ltb_spec 0 (ntasks_running b)).
    - split; [intros [?|[? _]]; [by left | discriminate]
             | intros [?|?]; [by left | lia]].
    - split; [intros [?|_]; [by left | by right] | intros [?|_];
              [by left | by right]]. }
  destruct (_ || _); [destruct release|]; simplify_eq; simpl;
    by apply H2.
Qed.

(** X3.  [Assert(pds_final->ntasks_running > 0)] of
    [gpupreagg_put_final_buffer] holds on every detach of every run of
    the GPU server that creates fewer than 2^32 tasks and in which no
    processing leaves by an error: no interleaving makes a task detach
    from a buffer whose count is already zero.  After such a run, when
    the processing of a queued task leaves by an error, the detach of the
    PG_CATCH block of [gpupreagg_process_task] violates the assertion
    exactly when the task is a terminator whose buffer has no running
    task: a reduction task that raises after its attach is counted, and a
    terminator never is. *)
Theorem running_count_assertion_fails_only_in_catch s evs w :
  pds_final s = None ->
  run num_group_keys has_notbyval evs (initial_world s) = Some w ->
  Z.of_nat (length (tasks w)) < 2 ^ 32 ->
  ~ In Assert_ntasks_running_positive (assert_failures w)
  /\ forall tid gpreagg oom_final oom_private failure gpreagg' w',
       tasks w !! tid = Some (Pending, gpreagg) ->
       gpupreagg_process_task has_notbyval oom_final oom_private
         (Some failure) gpreagg w = Some (Rethrows gpreagg' w') ->
       (In Assert_ntasks_running_positive (assert_failures w')
        <-> kern_reduction_mode gpreagg = GPUPREAGG_ONLY_TERMINATION
            /\ exists g b, task_pds_final gpreagg = Some g
                           /\ final_buffers w !! g = Some b
                           /\ ntasks_running b = 0).
Proof.
  intros Hs Hrun Hlen.
  pose proof (run_wf _ _ evs _ w (initial_world_wf s Hs) Hrun) as Hwf.
  assert (Hheld : running_assert_held w).
  { apply (run_held _ _ evs (initial_world s) w (initial_world_wf s Hs) Hlen
             Hrun). intros []. }
  split; [exact Hheld|].
  intros tid t o1 o2 failure t' w' Hold Hp.
  pose proof (task_wf_lookup w tid _ Hwf Hold) as Hwft.
  unfold task_wf in Hwft. simpl in Hwft.
  unfold gpupreagg_process_task in Hp. simpl in Hp.
  apply bind_Some in Hp as (exit & Hexit & Hp).
  unfold raise_of_try in Hexit.
  destruct (decide (kern_reduction_mode t <> GPUPREAGG_ONLY_TERMINATION))
    as [Hm|Hm].
  - (* a reduction task *)
    destruct (decide (kern_reduction_mode t = GPUPREAGG_ONLY_TERMINATION));
      [contradiction|].
    assert (Hnot : ~ In Assert_ntasks_running_positive (assert_failures w')).
    { destruct failure.
      - destruct (pds_final (gpa_sstate w)).
        + simplify_eq. apply bind_Some in Hp as ([[rv t1] w1] & _ & Hp).
          discriminate.
        + set (tw := if decide _ then _ else _) in Hexit.
          assert (Htw : task_pds_final tw.1 = None)
            by (subst tw; destruct (decide _); exact Hwft).
          destruct tw as [t1 w1]. simpl in Htw.
          apply bind_Some in Hexit as (size & _ & Hexit). simplify_eq.
          unfold gpupreagg_put_final_buffer in Hp. simpl in Hp.
          rewrite Htw in Hp. discriminate.
      - apply bind_Some in Hexit as ([[att t1] w1] & Hget & Hexit).
        destruct (att && negb (m_gpreagg t1)) eqn:Hatt; simplify_eq;
          [|apply bind_Some in Hp as ([[rv t2] w2] & _ & Hp); discriminate].
        apply andb_true_iff in Hatt as [-> _].
        pose proof (get_final_buffer_held _ _ _ _ _ _ Hget Hheld) as Hw1.
        destruct (get_final_buffer_effect _ _ _ _ _ _ (wf_current w Hwf) Hget)
          as (_ & _ & _ & _ & _ & _ & _ & (g & Hg & _ & Hlt & _ & Heff)).
        destruct (lookup_lt_is_Some_2 _ _ Hlt) as [b Hb].
        assert (Hpos : 0 < ntasks_running b).
        { rewrite (proj2 (Heff g b Hb) eq_refl), (running_at_wf w g Hwf),
            wrap_cl_uint_succ.
          assert (Hh : (holders g (tasks w) < length (tasks w))%nat).
          { apply (holders_lt g _ tid (Pending, t) Hold).
            intros [Hg' _]. simpl in Hg'. congruence. }
          rewrite wrap_cl_uint_small; lia. }
        apply bind_Some in Hp as ([[r t2] w2] & Hput & Hp). simplify_eq.
        exact (put_final_buffer_held
                 (gpupreagg_cleanup_cuda_resources t1) _ _ _ _ _ _ _ _
                 Hg Hb Hpos Hput Hw1). }
    split; [by intros ?|by intros [? _]].
  - (* a terminator *)
    destruct (decide (kern_reduction_mode t = GPUPREAGG_ONLY_TERMINATION))
      as [Hmt|]; [|by destruct Hm].
    destruct Hwft as (g & Hg & Hlt).
    destruct (lookup_lt_is_Some_2 _ _ Hlt) as [b Hb].
    destruct failure.
    + simplify_eq. apply bind_Some in Hp as ([[rv t1] w1] & _ & Hp).
      discriminate.
    + rewrite Hg in Hexit. simpl in Hexit.
      destruct has_notbyval; simplify_eq;
        [|apply bind_Some in Hp as ([[rv t1] w1] & _ & Hp); discriminate].
      apply bind_Some in Hp as ([[r t2] w2] & Hput & Hp). simplify_eq.
      rewrite (put_final_buffer_failures
                 (gpupreagg_cleanup_cuda_resources t) _ _ _ _ _ _ _ _
                 Hg Hb Hput).
      pose proof (wf_count w Hwf g b Hb) as Hcount.
      assert (0 <= ntasks_running b)
        by (rewrite Hcount; unfold wrap_cl_uint; apply Z.mod_pos_bound; lia).
      split.
      * intros [Hin|Hle]; [by apply Hheld in Hin|].
        split; [exact Hmt|]. exists g, b. repeat split; auto. lia.
      * intros (_ & g' & b' & Hg' & Hb' & Hz). right.
        simplify_eq. lia.
Qed.

End Catch.

Lemma wrap_cl_uint_idem x : wrap_cl_uint (wrap_cl_uint x) = wrap_cl_uint x.
Proof. unfold wrap_cl_uint. apply Z.mod_mod. lia. Qed.

Lemma buffers_effect_zero w bs' g :
  world_wf w ->
  buffers_effect (final_buffers w) bs' g 0 ->
  forall g0 b, final_buffers w !! g0 = Some b ->
    exists b', bs' !! g0 = Some b' /\ ntasks_running b' = ntasks_running b.
Proof.
  intros Hwf [Hlen Heff] g0 b Hb.
  assert (Hlt : (g0 < length bs')%nat)
    by (apply lookup_lt_Some in Hb; lia).
  destruct (lookup_lt_is_Some_2 _ _ Hlt) as [b' Hb'].
  exists b'. split; [exact Hb'|].
  destruct (Heff g0 b' Hb') as [Hne Heq].
  destruct (decide (g0 = g)) as [->|Hg].
  - rewrite (Heq eq_refl). unfold running_at. rewrite Hb.
    rewrite Z.add_0_r, (wf_count w Hwf g b Hb). apply wrap_cl_uint_idem.
  - destruct (Hne Hg) as (b0 & Hb0 & <-). congruence.
Qed.

Section OutOfMemory.
Context {P : Platform}.
Variable num_group_keys : Z.
Variable has_notbyval : bool.

(** X4.  A reduction task that got its final buffer but no device memory
    for its own buffers ([out_of_resource]) is queued again detached; the
    running count of every buffer is what it was before the attempt; but
    [ntasks_in_progress] is one lower, although the task is still to be
    run. *)
Theorem out_of_memory_retry_keeps_counts_but_not_progress
    s evs w tid t oom_final w' :
  pds_final s = None ->
  run num_group_keys has_notbyval evs (initial_world s) = Some w ->
  tasks w !! tid = Some (Pending, t) ->
  kern_reduction_mode t <> GPUPREAGG_ONLY_TERMINATION ->
  m_gpreagg t = false ->
  (oom_final = false \/ is_Some (pds_final (gpa_sstate w))) ->
  step num_group_keys has_notbyval (EvProcess tid oom_final true) w
  = Some w' ->
  (exists t', tasks w' !! tid = Some (Pending, t')
              /\ task_pds_final t' = None)
  /\ (forall g b, final_buffers w !! g = Some b ->
        exists b', final_buffers w' !! g = Some b'
                   /\ ntasks_running b' = ntasks_running b)
  /\ ntasks_in_progress (gpa_sstate w')
     = wrap_cl_uint (ntasks_in_progress (gpa_sstate w) - 1).
Proof.
  intros Hs Hrun Hold Hm Hmem Hatt Hstep.
  pose proof (run_wf _ _ evs _ w (initial_world_wf s Hs) Hrun) as Hwf.
  rewrite step_EvProcess, Hold in Hstep. simpl in Hstep.
  unfold gpupreagg_process_task_try in Hstep.
  destruct (decide (kern_reduction_mode t <> GPUPREAGG_ONLY_TERMINATION));
    [|contradiction].
  unfold gpupreagg_process_reduction_task in Hstep.
  destruct (gpupreagg_get_final_buffer oom_final t w) as [[[r t1] w1]|]
    eqn:Hget; [|discriminate].
  destruct (get_final_buffer_effect _ _ _ _ _ _ (wf_current w Hwf) Hget)
    as (Htk & Hnip & _ & _ & Hmem1 & _ & _ & Hr).
  assert (Hrt : r = true).
  { clear Hr. unfold gpupreagg_get_final_buffer in Hget.
    set (tw := if decide _ then _ else _) in Hget.
    assert (Hp : pds_final (gpa_sstate tw.2) = pds_final (gpa_sstate w))
      by (subst tw; destruct (decide _); simpl; by autorewrite with world).
    destruct tw as [t0 w0]. simpl in Hp.
    apply bind_Some in Hget as ([r1 w2] & Halloc & Hget).
    assert (Hr1 : r1 = true).
    { rewrite Hp in Halloc.
      destruct (pds_final (gpa_sstate w)); [by simplify_eq|].
      destruct Hatt as [-> | [? ?]]; [|discriminate].
      unfold gpupreagg_alloc_final_buffer in Halloc.
      apply bind_Some in Halloc as ([[[? ?] ?] ?] & _ & Halloc).
      by simplify_eq. }
    subst r1.
    apply bind_Some in Hget as (g & _ & Hget).
    apply bind_Some in Hget as (b & _ & Hget). by simplify_eq. }
  subst r. destruct Hr as (g & Hg & _ & Hlt & Heff).
  simpl in Hstep. rewrite Hmem1, Hmem in Hstep. simpl in Hstep.
  destruct (lookup_lt_is_Some_2 _ _ Hlt) as [b Hb].
  destruct (put_and_push_effect (gpupreagg_cleanup_cuda_resources t1)
              false w1 g b Hg Hb)
    as (t2 & w2 & l & Hpp & Hp2 & _ & _ & Heff2 & _ & Htk2 & _ & _ & Hnip2
        & _).
  rewrite Hpp in Hstep. simpl in Hstep. simplify_eq. simpl.
  autorewrite with world. split; [|split].
  - exists t2. split; [|exact Hp2].
    rewrite Htk2, Htk. apply list_lookup_insert_eq.
    rewrite length_app. apply lookup_lt_Some in Hold. lia.
  - apply (buffers_effect_zero w _ g Hwf).
    exact (buffers_effect_trans _ _ _ g 1 (-1) Hlt Heff Heff2).
  - by rewrite Hnip2, Hnip.
Qed.

End OutOfMemory.

Section Backend.
Context {P : Platform}.
Variable num_group_keys : Z.
Variable has_notbyval : bool.

Lemma tasks_pushed_returned_ok w w' tid new :
  tasks_pushed w w' ->
  returned_ok new ->
  Forall returned_ok (tasks w) ->
  Forall returned_ok (<[tid := new]> (tasks w')).
Proof.
  intros (g & Htk) Hnew Hall. apply Forall_insert; [|exact Hnew].
  destruct Htk as [-> | ->]; [exact Hall|].
  apply Forall_app. split; [exact Hall|].
  apply Forall_singleton. intros Hph. discriminate.
Qed.

Lemma complete_task_returned_ok t w t' w' :
  kern_reduction_mode t <> GPUPREAGG_ONLY_TERMINATION ->
  gpupreagg_complete_task t w = Some (0, t', w') ->
  gpupreagg_switch_task t' = true \/ task_cpu_fallback t' = true.
Proof.
  intros Hm Hc. unfold gpupreagg_complete_task in Hc.
  case_decide; [contradiction|].
  assert (Hput : forall t0 rel force r t1 w1,
            gpupreagg_put_final_buffer t0 rel force w = Some (r, t1, w1) ->
            task_kerror t1 = task_kerror t0).
  { intros t0 rel force r t1 w1 Hput.
    unfold gpupreagg_put_final_buffer in Hput.
    apply bind_Some in Hput as (g & _ & Hput).
    apply bind_Some in Hput as (b & _ & Hput).
    destruct (_ || _); [destruct rel|]; by simplify_eq. }
  unfold gpupreagg_switch_task.
  destruct (task_kerror t) eqn:Hk.
  - apply bind_Some in Hc as ([[r t1] w1] & _ & Hc).
    destruct (negb r); discriminate.
  - destruct (kr_final_reduction_in_progress _).
    + apply bind_Some in Hc as ([[r t1] w1] & Hp & Hc).
      apply Hput in Hp. simplify_eq. left. simpl in Hp.
      rewrite Hp, Hk. reflexivity.
    + apply bind_Some in Hc as ([t1 w1] & _ & Hc). simplify_eq.
      by right.
  - destruct (kr_final_reduction_in_progress _);
      apply bind_Some in Hc as ([t1 w1] & _ & Hc); discriminate.
  - apply bind_Some in Hc as ([[r t1] w1] & Hp & Hc).
    apply Hput in Hp. simplify_eq. left. simpl in Hp.
    rewrite Hp, Hk. reflexivity.
Qed.

Lemma step_returned_ok ev w w' :
  step num_group_keys has_notbyval ev w = Some w' ->
  Forall returned_ok (tasks w) -> Forall returned_ok (tasks w').
Proof.
  intros Hstep Hall.
  destruct ev as [n last|tid o1 o2|tid status kr|tid];
    rewrite ?step_EvProcess in Hstep; simpl in Hstep.
  - simplify_eq. unfold gpupreagg_next_task. simpl.
    apply Forall_app. split.
    + destruct last; simpl; autorewrite with world; exact Hall.
    + apply Forall_singleton. intros Hph. discriminate.
  - apply bind_Some in Hstep as ([ph t] & Hold & Hstep).
    case_decide; [|discriminate].
    apply bind_Some in Hstep as ([[rv t'] w1] & Hp & Hstep).
    apply process_task_mode in Hp as [_ Hpush]. simplify_eq. simpl.
    eapply tasks_pushed_returned_ok; eauto.
    intros Hph. simpl in Hph. by destruct (rv =? 0).
  - apply bind_Some in Hstep as ([ph t] & Hold & Hstep).
    case_decide; [|discriminate].
    destruct (gpupreagg_respond_task _ _ _) as [t' w1] eqn:Hr.
    apply respond_task_mode in Hr as [_ Htk]. simplify_eq. simpl.
    rewrite Htk. apply Forall_insert; [exact Hall|].
    intros Hph. discriminate.
  - apply bind_Some in Hstep as ([ph t] & Hold & Hstep).
    case_decide; [|discriminate].
    apply bind_Some in Hstep as ([[rv t'] w1] & Hc & Hstep).
    pose proof (complete_task_mode _ _ _ _ _ Hc) as [Hmode Hpush].
    simplify_eq. simpl.
    eapply tasks_pushed_returned_ok; eauto.
    intros Hph Hm'. simpl in *.
    assert (rv = 0) as ->.
    { unfold phase_of_retval in Hph.
      destruct (Z.eqb_spec rv 0); [done|]. by destruct (rv =? 1). }
    apply (complete_task_returned_ok t w t' w1); [|exact Hc].
    destruct Hmode as [Heq | [[Heq _] | (Heq & _ & _ & _ & Hne)]];
      congruence.
Qed.

Lemma run_returned_ok evs w w' :
  run num_group_keys has_notbyval evs w = Some w' ->
  Forall returned_ok (tasks w) -> Forall returned_ok (tasks w').
Proof.
  revert w. induction evs as [|ev evs IH]; intros w Hrun Hall;
    simpl in Hrun.
  - by simplify_eq.
  - apply bind_Some in Hrun as (w1 & Hstep & Hrun).
    eapply IH; [exact Hrun|]. by eapply step_returned_ok.
Qed.

(** X5.  [gpupreagg_next_tuple] can read every task handed back to the
    backend: unless [gpupreagg_switch_task] raises the kernel error, the
    task is marked for the CPU fallback or its [pds_final] is a buffer of
    the arena. *)
Theorem returned_task_is_readable s evs w tid gpreagg :
  pds_final s = None ->
  run num_group_keys has_notbyval evs (initial_world s) = Some w ->
  tasks w !! tid = Some (Returned, gpreagg) ->
  gpupreagg_switch_task gpreagg = false ->
  task_cpu_fallback gpreagg = true
  \/ exists g b, task_pds_final gpreagg = Some g
                 /\ final_buffers w !! g = Some b.
Proof.
  intros Hs Hrun Hold Hsw.
  pose proof (run_wf _ _ evs _ w (initial_world_wf s Hs) Hrun) as Hwf.
  assert (Hret : Forall returned_ok (tasks w))
    by (apply (run_returned_ok evs _ w Hrun); constructor).
  pose proof (Forall_lookup_1 _ _ _ _ Hret Hold) as Hok.
  pose proof (task_wf_lookup w tid _ Hwf Hold) as Hwft.
  unfold returned_ok in Hok. unfold task_wf in Hwft. simpl in *.
  destruct (decide (kern_reduction_mode gpreagg
                    = GPUPREAGG_ONLY_TERMINATION)) as [Hm|Hm].
  - right. destruct Hwft as (g & Hg & Hlt).
    destruct (lookup_lt_is_Some_2 _ _ Hlt) as [b Hb]. eauto.
  - destruct (Hok eq_refl Hm) as [Hsw'|Hfb]; [congruence | by left].
Qed.

End Backend.

Section CudaFailure.
Context {P : Platform}.
Variable num_group_keys : Z.
Variable has_notbyval : bool.

Lemma complete_task_other_error t w code rv t' w' :
  task_kerror t = StromError_Other code ->
  gpupreagg_complete_task t w = Some (rv, t', w') ->
  rv = 0 /\ task_kerror t' = StromError_Other code.
Proof.
  intros Hk Hc. unfold gpupreagg_complete_task in Hc. case_decide.
  - apply bind_Some in Hc as (g & _ & Hc).
    apply bind_Some in Hc as (b & _ & Hc). by simplify_eq.
  - rewrite Hk in Hc.
    apply bind_Some in Hc as ([[r t1] w1] & Hput & Hc). simplify_eq.
    split; [reflexivity|].
    unfold gpupreagg_put_final_buffer in Hput.
    apply bind_Some in Hput as (g & _ & Hput).
    apply bind_Some in Hput as (b & _ & Hput).
    destruct (_ || _); by simplify_eq.
Qed.

(** X6.  A CUDA failure status is never lost: whatever the task is doing
    (reduction or finalize) and whatever the device wrote, the answer
    followed by the completion handler hands the task back to the backend,
    where [gpupreagg_switch_task] raises the error. *)
Theorem cuda_failure_is_raised_on_the_backend s evs w tid gpreagg code kr :
  pds_final s = None ->
  run num_group_keys has_notbyval evs (initial_world s) = Some w ->
  tasks w !! tid = Some (Running, gpreagg) ->
  exists w' gpreagg',
    run num_group_keys has_notbyval
      [EvRespond tid (Some code) kr; EvComplete tid] w = Some w'
    /\ tasks w' !! tid = Some (Returned, gpreagg')
    /\ gpupreagg_switch_task gpreagg' = true.
Proof.
  intros Hs Hrun Hold.
  pose proof (run_wf _ _ evs _ w (initial_world_wf s Hs) Hrun) as Hwf.
  pose proof (lookup_lt_Some _ _ _ Hold) as Hlt.
  destruct (step num_group_keys has_notbyval (EvRespond tid (Some code) kr) w)
    as [w1|] eqn:Hstep; [|by simpl in Hstep; rewrite Hold in Hstep].
  pose proof (step_wf _ _ _ _ _ Hwf Hstep) as Hwf1.
  assert (Hold1 : exists t1, tasks w1 !! tid = Some (Responded, t1)
                             /\ task_kerror t1 = StromError_Other code).
  { simpl in Hstep. rewrite Hold in Hstep. simpl in Hstep. simplify_eq.
    eexists. simpl. split; [by apply list_lookup_insert_eq|].
    by destruct (_ && _). }
  destruct Hold1 as (t1 & Hold1 & Hk1).
  destruct (complete_task_total w1 tid t1 Hwf1 Hold1) as [[[rv t'] w2] Hc].
  destruct (complete_task_other_error _ _ _ _ _ _ Hk1 Hc) as [-> Hk'].
  pose proof (complete_task_mode _ _ _ _ _ Hc) as [_ Hpush].
  apply tasks_pushed_length in Hpush.
  pose proof (lookup_lt_Some _ _ _ Hold1) as Hlt1.
  exists (set_tasks (<[tid := (Returned, t')]>) w2), t'.
  split; [|split].
  - cbn [run]. rewrite Hstep. simpl. rewrite Hold1. simpl. by rewrite Hc.
  - simpl. apply list_lookup_insert_eq. lia.
  - unfold gpupreagg_switch_task. by rewrite Hk'.
Qed.

End CudaFailure.

Lemma sstate_grows_refl s : sstate_grows s s.
Proof. unfold sstate_grows. repeat split; auto; lia. Qed.

Lemma sstate_grows_trans s1 s2 s3 :
  sstate_grows s1 s2 -> sstate_grows s2 s3 -> sstate_grows s1 s3.
Proof.
  unfold sstate_grows. intros (?&?&?&?&?&?&?&?) (?&?&?&?&?&?&?&?).
  repeat split; try congruence; try lia; auto.
Qed.

Lemma Max_ge_l x y : x <= Max x y.
Proof. unfold Max. destruct (Z.ltb_spec y x); lia. Qed.

Ltac grows :=
  unfold sstate_grows; repeat progress (autorewrite with world; simpl);
  repeat split; auto using Max_ge_l; try lia.

Section Statistics.
Context {P : Platform}.
Variable num_group_keys : Z.
Variable has_notbyval : bool.

Lemma detach_current_grows force g w :
  sstate_grows (gpa_sstate w) (gpa_sstate (detach_current force g w)).
Proof. unfold detach_current. destruct (_ && _); grows. Qed.

Lemma put_final_buffer_grows t rel force w r t' w' :
  gpupreagg_put_final_buffer t rel force w = Some (r, t', w') ->
  sstate_grows (gpa_sstate w) (gpa_sstate w').
Proof.
  intros Hput. unfold gpupreagg_put_final_buffer in Hput.
  apply bind_Some in Hput as (g & _ & Hput).
  apply bind_Some in Hput as (b & _ & Hput).
  pose proof (detach_current_grows force g w) as Hd.
  destruct (_ || _); [destruct rel|]; simplify_eq;
    (eapply sstate_grows_trans; [exact Hd|]); grows.
Qed.

Lemma put_and_push_grows t force w t' w' :
  put_and_push t force w = Some (t', w') ->
  sstate_grows (gpa_sstate w) (gpa_sstate w').
Proof.
  intros Hpp. unfold put_and_push in Hpp.
  apply bind_Some in Hpp as ([[r t1] w1] & Hput & Hpp).
  apply put_final_buffer_grows in Hput.
  destruct r; unfold gpupreagg_push_terminator_task in Hpp; by simplify_eq.
Qed.

Lemma get_final_buffer_grows oom t w r t' w' :
  gpupreagg_get_final_buffer oom t w = Some (r, t', w') ->
  sstate_grows (gpa_sstate w) (gpa_sstate w').
Proof.
  intros Hget. unfold gpupreagg_get_final_buffer in Hget.
  set (tw := if decide _ then _ else _) in Hget.
  assert (Htw : gpa_sstate tw.2 = gpa_sstate w)
    by (subst tw; destruct (decide _); simpl; by autorewrite with world).
  destruct tw as [t1 w1]. simpl in Htw. rewrite <- Htw.
  apply bind_Some in Hget as ([r1 w2] & Halloc & Hget).
  assert (Hw2 : sstate_grows (gpa_sstate w1) (gpa_sstate w2)).
  { destruct (pds_final (gpa_sstate w1));
      [simplify_eq; apply sstate_grows_refl|].
    unfold gpupreagg_alloc_final_buffer in Halloc.
    apply bind_Some in Halloc as ([[[salt nrooms] extra] hs] & _ & Halloc).
    destruct oom; simplify_eq; grows. }
  destruct r1; [|by simplify_eq].
  apply bind_Some in Hget as (g & _ & Hget).
  apply bind_Some in Hget as (b & _ & Hget). by simplify_eq.
Qed.

Lemma count_reduction_kernel_grows m s s' :
  count_reduction_kernel m s = Some s' -> sstate_grows s s'.
Proof. destruct m; simpl; intros; simplify_eq; grows. Qed.

Lemma process_task_grows o1 o2 t w rv t' w' :
  gpupreagg_process_task_try has_notbyval o1 o2 t w = Some (rv, t', w') ->
  sstate_grows (gpa_sstate w) (gpa_sstate w').
Proof.
  intros Hp. unfold gpupreagg_process_task_try in Hp. case_decide.
  - unfold gpupreagg_process_reduction_task in Hp.
    apply bind_Some in Hp as ([[r t1] w1] & Hget & Hp).
    apply get_final_buffer_grows in Hget.
    destruct r; simpl in Hp; [|by simplify_eq].
    destruct (negb (m_gpreagg t1) && o2).
    + apply bind_Some in Hp as ([t2 w2] & Hpp & Hp).
      apply put_and_push_grows in Hpp. simplify_eq.
      autorewrite with world. by eapply sstate_grows_trans.
    + destruct (negb (m_gpreagg t1)); simpl in Hp;
        apply bind_Some in Hp as (s & Hcnt & Hp);
        apply count_reduction_kernel_grows in Hcnt;
        autorewrite with world in Hcnt; simplify_eq; simpl;
        by eapply sstate_grows_trans.
  - unfold gpupreagg_process_termination_task in Hp.
    apply bind_Some in Hp as (g & _ & Hp).
    destruct (has_notbyval && o2); simplify_eq; apply sstate_grows_refl.
Qed.

Lemma respond_task_grows status t w t' w' :
  gpupreagg_respond_task status t w = (t', w') ->
  sstate_grows (gpa_sstate w) (gpa_sstate w').
Proof.
  intros Hr. unfold gpupreagg_respond_task in Hr.
  destruct status; [simplify_eq; apply sstate_grows_refl|].
  case_decide; simplify_eq; [grows | apply sstate_grows_refl].
Qed.

Lemma complete_task_grows t w rv t' w' :
  gpupreagg_complete_task t w = Some (rv, t', w') ->
  sstate_grows (gpa_sstate w) (gpa_sstate w').
Proof.
  intros Hc. unfold gpupreagg_complete_task in Hc. case_decide.
  - apply bind_Some in Hc as (g & _ & Hc).
    apply bind_Some in Hc as (b & _ & Hc). simplify_eq.
    autorewrite with world. apply sstate_grows_refl.
  - destruct (task_kerror t);
      try destruct (kr_final_reduction_in_progress _);
      first [ apply bind_Some in Hc as ([[r t1] w1] & Hput & Hc);
              apply put_final_buffer_grows in Hput
            | apply bind_Some in Hc as ([t1 w1] & Hput & Hc);
              apply put_and_push_grows in Hput ];
      try destruct (negb r); by simplify_eq.
Qed.

Lemma step_grows ev w w' :
  step num_group_keys has_notbyval ev w = Some w' ->
  sstate_grows (gpa_sstate w) (gpa_sstate w').
Proof.
  intros Hstep.
  destruct ev as [n last|tid o1 o2|tid status kr|tid];
    rewrite ?step_EvProcess in Hstep; simpl in Hstep.
  - simplify_eq. unfold gpupreagg_next_task. destruct last; grows.
  - apply bind_Some in Hstep as ([ph t] & Hold & Hstep).
    case_decide; [|discriminate].
    apply bind_Some in Hstep as ([[rv t'] w1] & Hp & Hstep).
    apply process_task_grows in Hp. by simplify_eq.
  - apply bind_Some in Hstep as ([ph t] & Hold & Hstep).
    case_decide; [|discriminate].
    destruct (gpupreagg_respond_task _ _ _) as [t' w1] eqn:Hr.
    apply respond_task_grows in Hr. by simplify_eq.
  - apply bind_Some in Hstep as ([ph t] & Hold & Hstep).
    case_decide; [|discriminate].
    apply bind_Some in Hstep as ([[rv t'] w1] & Hc & Hstep).
    apply complete_task_grows in Hc. by simplify_eq.
Qed.

(** X7.  Along every run the tuple width and the planner's estimates in
    the shared state are never overwritten, the observed maxima
    [exec_ngroups] and [exec_extra_sz] never decrease, and [scan_done] is
    never cleared. *)
Theorem estimates_kept_and_statistics_grow evs w w' :
  run num_group_keys has_notbyval evs w = Some w' ->
  f_ncols (gpa_sstate w') = f_ncols (gpa_sstate w)
  /\ plan_nrows_per_chunk (gpa_sstate w') = plan_nrows_per_chunk (gpa_sstate w)
  /\ plan_nrows_in (gpa_sstate w') = plan_nrows_in (gpa_sstate w)
  /\ plan_ngroups (gpa_sstate w') = plan_ngroups (gpa_sstate w)
  /\ plan_extra_sz (gpa_sstate w') = plan_extra_sz (gpa_sstate w)
  /\ exec_ngroups (gpa_sstate w) <= exec_ngroups (gpa_sstate w')
  /\ exec_extra_sz (gpa_sstate w) <= exec_extra_sz (gpa_sstate w')
  /\ (scan_done (gpa_sstate w) = true -> scan_done (gpa_sstate w') = true).
Proof.
  revert w. induction evs as [|ev evs IH]; intros w Hrun; simpl in Hrun.
  - simplify_eq. apply sstate_grows_refl.
  - apply bind_Some in Hrun as (w1 & Hstep & Hrun).
    apply step_grows in Hstep. apply IH in Hrun.
    exact (sstate_grows_trans _ _ _ Hstep Hrun).
Qed.

End Statistics.

Section Traps.
Context {P : Platform}.
Variable num_group_keys : Z.
Variable has_notbyval : bool.




End Traps.

Lemma size_t_of_zero_quotient (y : float) :
  size_t_of_double (double_of_Z 0 / y) = 0.
Proof.
  unfold size_t_of_double. rewrite div_spec.
  change (Prim2SF (double_of_Z 0)) with (S754_zero false).
  unfold SF64div, SFdiv. by destruct (Prim2SF y) as [| | |[] ? ?].
Qed.

Section Planned.
Context {P : Platform}.

Lemma planned_rows_per_chunk_is_zero natts nchunks rows groups extra :
  plan_nrows_per_chunk
    (create_gpupreagg_shared_state natts nchunks rows groups extra) = 0.
Proof.
  unfold create_gpupreagg_shared_state. simpl.
  destruct (0 <? nchunks); [|reflexivity].
  unfold cl_uint_of_double. by rewrite size_t_of_zero_quotient.
Qed.

(** X8.  [create_gpupreagg_shared_state] computes [plan_nrows_per_chunk]
    from [plan_nrows_in] before that field is assigned, so it is 0 for
    every plan.  Hence EXPLAIN of a query that has not run any kernel
    never reports "Global": it reports "NoGroup" without grouping keys,
    "Local" when the planned group count is below
    [devBaselineMaxThreadsPerBlock / 4], and "Final" otherwise. *)
Theorem explain_before_execution_never_global
    num_group_keys natts nchunks rows groups extra :
  ExplainGpuPreAgg_policy num_group_keys
    (create_gpupreagg_shared_state natts nchunks rows groups extra)
  = if num_group_keys =? 0 then "NoGroup"%string
    else if size_t_of_double groups
            <? wrap_cl_uint (devBaselineMaxThreadsPerBlock / 4)
         then "Local"%string
         else "Final"%string.
Proof.
  unfold ExplainGpuPreAgg_policy.
  rewrite planned_rows_per_chunk_is_zero.
  change (wrap_cl_uint _ =? 0) with true at 1. cbv iota.
  destruct (num_group_keys =? 0); [reflexivity|].
  change (plan_ngroups (create_gpupreagg_shared_state _ _ _ _ _))
    with (size_t_of_double groups).
  destruct (_ <? wrap_cl_uint _); [reflexivity|].
  pose proof (size_t_of_double_range groups) as Hr.
  change (0 / 4) with 0.
  by destruct (Z.ltb_spec (size_t_of_double groups) 0); [lia|].
Qed.

End Planned.

Lemma wrap_cl_int_small z : is_cl_int z -> wrap_cl_int z = z.
Proof.
  unfold is_cl_int, wrap_cl_int. intros Hz.
  rewrite Z.mod_small; lia.
Qed.

(** X9.  [deform_gpupreagg_info] reads back what [form_gpupreagg_info]
    wrote: the ten private items and the five expression lists are written
    and read in the same order and as the same kinds, so every field comes
    back, the two doubles through the bit casts (provided the casts are
    inverse on them) and the integers through [long]. *)
Theorem deform_form_gpupreagg_info double_as_long long_as_double gpa_info :
  is_cl_int (Info.num_group_keys gpa_info) ->
  is_cl_int (Info.plan_nchunks gpa_info) ->
  is_cl_int (Info.plan_extra_sz gpa_info) ->
  is_cl_int (Info.extra_flags gpa_info) ->
  is_cl_uint (Info.outer_scanrelid gpa_info) ->
  long_as_double (double_as_long (Info.plan_ngroups gpa_info))
  = Info.plan_ngroups gpa_info ->
  long_as_double (double_as_long (Info.outer_nrows gpa_info))
  = Info.outer_nrows gpa_info ->
  deform_gpupreagg_info long_as_double
    (form_gpupreagg_info double_as_long gpa_info) = Some gpa_info
  /\ length (custom_private (form_gpupreagg_info double_as_long gpa_info))
     = 10%nat
  /\ length (custom_exprs (form_gpupreagg_info double_as_long gpa_info))
     = 5%nat.
Proof.
  intros H1 H2 H3 H4 H5 H6 H7. split; [|by split].
  unfold deform_gpupreagg_info, form_gpupreagg_info. simpl.
  rewrite !wrap_cl_int_small by assumption.
  rewrite wrap_cl_uint_small by assumption.
  rewrite H6, H7. by destruct gpa_info.
Qed.

Lemma deform_form_gpupreagg_info_witness :
  deform_gpupreagg_info ieee_long_as_double
    (form_gpupreagg_info ieee_double_as_long example_info)
  = Some example_info.
Proof.
  apply (deform_form_gpupreagg_info ieee_double_as_long ieee_long_as_double
           example_info);
    try (unfold is_cl_int, is_cl_uint; simpl; lia);
    vm_compute; reflexivity.
Defined.

(** Closed goals on the demo run are settled by evaluation. *)
Ltac demo := vm_compute; first [reflexivity | discriminate].

Lemma running_count_is_number_of_attached_tasks_witness :
  (pds_final demo_state = None
   /\ @run test_platform 1 false demo_launch (initial_world demo_state)
      = Some (demo_world demo_launch)
   /\ final_buffers (demo_world demo_launch) !! 0%nat
      = Some (demo_buffer demo_launch 0))
  /\ ntasks_running (demo_buffer demo_launch 0) = 1
  /\ holders 0 (tasks (demo_world demo_launch)) = 1%nat.
Proof.
  assert (H1 : pds_final demo_state = None) by demo.
  assert (H2 : @run test_platform 1 false demo_launch
                 (initial_world demo_state)
               = Some (demo_world demo_launch)) by demo.
  assert (H3 : final_buffers (demo_world demo_launch) !! 0%nat
               = Some (demo_buffer demo_launch 0)) by demo.
  split; [exact (conj H1 (conj H2 H3))|].
  pose proof (@running_count_is_number_of_attached_tasks test_platform 1
                false demo_state demo_launch _ 0%nat _ H1 H2 H3) as Hcount.
  split; [rewrite Hcount|]; demo.
Defined.

Lemma completion_and_finalize_find_their_buffer_witness :
  (pds_final demo_state = None
   /\ @run test_platform 1 false demo_answer (initial_world demo_state)
      = Some (demo_world demo_answer)
   /\ tasks (demo_world demo_answer) !! 0%nat
      = Some (Responded, demo_task demo_answer 0))
  /\ is_Some (@step test_platform 1 false (EvComplete 0)
                (demo_world demo_answer)).
Proof.
  assert (H1 : pds_final demo_state = None) by demo.
  assert (H2 : @run test_platform 1 false demo_answer
                 (initial_world demo_state)
               = Some (demo_world demo_answer)) by demo.
  assert (H3 : tasks (demo_world demo_answer) !! 0%nat
               = Some (Responded, demo_task demo_answer 0)) by demo.
  split; [exact (conj H1 (conj H2 H3))|].
  exact (proj1 (@completion_and_finalize_find_their_buffer test_platform 1
                  false demo_state demo_answer _ 0%nat _ H1 H2 H3) eq_refl).
Defined.


Lemma out_of_memory_retry_keeps_counts_but_not_progress_witness :
  (pds_final demo_state = None
   /\ @run test_platform 1 false demo_load (initial_world demo_state)
      = Some (demo_world demo_load)
   /\ tasks (demo_world demo_load) !! 0%nat
      = Some (Pending, demo_task demo_load 0)
   /\ kern_reduction_mode (demo_task demo_load 0)
      <> GPUPREAGG_ONLY_TERMINATION
   /\ m_gpreagg (demo_task demo_load 0) = false
   /\ @step test_platform 1 false (EvProcess 0 false true)
        (demo_world demo_load) = Some demo_out_of_memory)
  /\ ntasks_in_progress (gpa_sstate (demo_world demo_load)) = 1
  /\ ntasks_in_progress (gpa_sstate demo_out_of_memory) = 0.
Proof.
  assert (H1 : pds_final demo_state = None) by demo.
  assert (H2 : @run test_platform 1 false demo_load
                 (initial_world demo_state)
               = Some (demo_world demo_load)) by demo.
  assert (H3 : tasks (demo_world demo_load) !! 0%nat
               = Some (Pending, demo_task demo_load 0)) by demo.
  assert (H4 : kern_reduction_mode (demo_task demo_load 0)
               <> GPUPREAGG_ONLY_TERMINATION) by demo.
  assert (H5 : m_gpreagg (demo_task demo_load 0) = false) by demo.
  assert (H6 : @step test_platform 1 false (EvProcess 0 false true)
                 (demo_world demo_load) = Some demo_out_of_memory) by demo.
  split; [exact (conj H1 (conj H2 (conj H3 (conj H4 (conj H5 H6)))))|].
  destruct (@out_of_memory_retry_keeps_counts_but_not_progress test_platform
              1 false demo_state demo_load _ 0%nat _ false _ H1 H2 H3 H4 H5
              (or_introl eq_refl) H6) as (_ & _ & Hnip).
  split; [demo | rewrite Hnip; demo].
Defined.

Lemma returned_task_is_readable_witness :
  (pds_final demo_state = None
   /\ @run test_platform 1 false demo_finish (initial_world demo_state)
      = Some (demo_world demo_finish)
   /\ tasks (demo_world demo_finish) !! 0%nat
      = Some (Returned, demo_task demo_finish 0)
   /\ gpupreagg_switch_task (demo_task demo_finish 0) = false)
  /\ (task_cpu_fallback (demo_task demo_finish 0) = true
      \/ exists g b,
           task_pds_final (demo_task demo_finish 0) = Some g
           /\ final_buffers (demo_world demo_finish) !! g = Some b).
Proof.
  assert (H1 : pds_final demo_state = None) by demo.
  assert (H2 : @run test_platform 1 false demo_finish
                 (initial_world demo_state)
               = Some (demo_world demo_finish)) by demo.
  assert (H3 : tasks (demo_world demo_finish) !! 0%nat
               = Some (Returned, demo_task demo_finish 0)) by demo.
  assert (H4 : gpupreagg_switch_task (demo_task demo_finish 0) = false)
    by demo.
  split; [exact (conj H1 (conj H2 (conj H3 H4)))|].
  exact (@returned_task_is_readable test_platform 1 false demo_state
           demo_finish _ 0%nat _ H1 H2 H3 H4).
Defined.

Lemma cuda_failure_is_raised_on_the_backend_witness :
  (pds_final demo_state = None
   /\ @run test_platform 1 false demo_launch (initial_world demo_state)
      = Some (demo_world demo_launch)
   /\ tasks (demo_world demo_launch) !! 0%nat
      = Some (Running, demo_task demo_launch 0))
  /\ exists w' gpreagg',
       @run test_platform 1 false
         [EvRespond 0 (Some 700) demo_kern_result; EvComplete 0]
         (demo_world demo_launch) = Some w'
       /\ tasks w' !! 0%nat = Some (Returned, gpreagg')
       /\ gpupreagg_switch_task gpreagg' = true.
Proof.
  assert (H1 : pds_final demo_state = None) by demo.
  assert (H2 : @run test_platform 1 false demo_launch
                 (initial_world demo_state)
               = Some (demo_world demo_launch)) by demo.
  assert (H3 : tasks (demo_world demo_launch) !! 0%nat
               = Some (Running, demo_task demo_launch 0)) by demo.
  split; [exact (conj H1 (conj H2 H3))|].
  exact (@cuda_failure_is_raised_on_the_backend test_platform 1 false
           demo_state demo_launch _ 0%nat _ 700 demo_kern_result H1 H2 H3).
Defined.

Lemma estimates_kept_and_statistics_grow_witness :
  @run test_platform 1 false demo_answer (initial_world demo_state)
  = Some (demo_world demo_answer)
  /\ plan_ngroups (gpa_sstate (demo_world demo_answer)) = 5
  /\ exec_ngroups (gpa_sstate (initial_world demo_state)) = 0
  /\ exec_ngroups (gpa_sstate (demo_world demo_answer)) = 5.
Proof.
  assert (H2 : @run test_platform 1 false demo_answer
                 (initial_world demo_state)
               = Some (demo_world demo_answer)) by demo.
  split; [exact H2|].
  destruct (@estimates_kept_and_statistics_grow test_platform 1 false
              demo_answer _ _ H2) as (_ & _ & _ & Hplan & _).
  split; [rewrite Hplan; demo|]. split; demo.
Defined.


Lemma running_count_assertion_fails_only_in_catch_witness :
  (pds_final demo_state = None
   /\ @run test_platform 1 true demo_promote (initial_world demo_state)
      = Some demo_varlena_world
   /\ Z.of_nat (length (tasks demo_varlena_world)) < 2 ^ 32)
  /\ ~ In Assert_ntasks_running_positive (assert_failures demo_varlena_world)
  /\ tasks demo_varlena_world !! 0%nat = Some (Pending, demo_terminator)
  /\ @gpupreagg_process_task test_platform true false false
       (Some Failure_task_memory) demo_terminator demo_varlena_world
     = Some (Rethrows demo_rethrown.1 demo_rethrown.2)
  /\ In Assert_ntasks_running_positive (assert_failures demo_rethrown.2).
Proof.
  assert (H1 : pds_final demo_state = None) by demo.
  assert (H2 : @run test_platform 1 true demo_promote
                 (initial_world demo_state)
               = Some demo_varlena_world) by demo.
  assert (H3 : Z.of_nat (length (tasks demo_varlena_world)) < 2 ^ 32)
    by (vm_compute; reflexivity).
  assert (H4 : tasks demo_varlena_world !! 0%nat
               = Some (Pending, demo_terminator)) by demo.
  assert (H5 : @gpupreagg_process_task test_platform true false false
                 (Some Failure_task_memory) demo_terminator
                 demo_varlena_world
               = Some (Rethrows demo_rethrown.1 demo_rethrown.2)) by demo.
  destruct (@running_count_assertion_fails_only_in_catch test_platform 1
              true demo_state demo_promote demo_varlena_world H1 H2 H3)
    as [Hheld Hcatch].
  split; [exact (conj H1 (conj H2 H3))|].
  split; [exact Hheld|]. split; [exact H4|]. split; [exact H5|].
  apply (Hcatch 0%nat _ false false Failure_task_memory _ _ H4 H5).
  split; [vm_compute; reflexivity|].
  exists 0%nat, (mk_pds 0 (kds_nrooms (demo_buffer demo_promote 0))
                   (kds_extra_sz (demo_buffer demo_promote 0))).
  repeat split; vm_compute; reflexivity.
Defined.
